(** * rescuestream-api: stream-key authentication and stream lifecycle

    A shallow embedding of the Go services, repositories and HTTP handlers
    that decide whether a stream key may publish, that track streams through
    the MediaMTX webhooks, and that revoke keys; and of the code around
    them that issues and lists stream keys, lists streams, deletes
    broadcasters and verifies the signature of API requests.

    The PostgreSQL store is modelled by its tables (lists of rows, in
    insertion order) together with the constraints declared in the first
    migration: primary keys, the UNIQUE constraint on [key_value], the
    foreign keys with ON DELETE CASCADE, the VARCHAR widths and the partial
    unique index [idx_streams_one_active_per_key].  The store is taken to be
    available: a statement either applies or is rejected by a constraint.
    Clocks and UUID generation are inputs of the operations that use them. *)

From Stdlib Require Import List String Ascii ZArith Bool Arith Lia Permutation Sorted
  DecimalString DecimalPos.
Import ListNotations.

Open Scope string_scope.
Open Scope nat_scope.
Open Scope list_scope.

(* ================================================================== *)
(** * internal/domain *)
(* ================================================================== *)

(** [uuid.UUID]; [uuid.Nil] is the all-zero identifier. *)
Definition UUID : Type := nat.

Definition uuid_Nil : UUID := 0.

(** [uuid.New()]: a random (version 4) identifier drawn from [entropy];
    the version bits make it different from [uuid.Nil]. *)
Definition uuid_New (entropy : nat) : UUID := S entropy.

(** [time.Time] and TIMESTAMPTZ: an instant on a linear clock. *)
Definition Time : Type := Z.

(** [t.After(u)] *)
Definition After (t u : Time) : bool := (u <? t)%Z.

(** JSONB metadata, kept as serialised key/value text. *)
Definition JSONObject : Type := list (string * string).

Inductive StreamKeyStatus : Type :=
| StreamKeyStatusActive
| StreamKeyStatusRevoked
| StreamKeyStatusExpired.

Inductive StreamStatus : Type :=
| StreamStatusActive
| StreamStatusEnded.

Definition StreamKeyStatus_eqb (a b : StreamKeyStatus) : bool :=
  match a, b with
  | StreamKeyStatusActive, StreamKeyStatusActive => true
  | StreamKeyStatusRevoked, StreamKeyStatusRevoked => true
  | StreamKeyStatusExpired, StreamKeyStatusExpired => true
  | _, _ => false
  end.

Definition StreamStatus_eqb (a b : StreamStatus) : bool :=
  match a, b with
  | StreamStatusActive, StreamStatusActive => true
  | StreamStatusEnded, StreamStatusEnded => true
  | _, _ => false
  end.

Module Broadcaster.
Record t : Type := mk {
  ID : UUID;
  DisplayName : string;
  Metadata : JSONObject;
  CreatedAt : Time;
  UpdatedAt : Time
}.
End Broadcaster.

Module StreamKey.
Record t : Type := mk {
  ID : UUID;
  KeyValue : string;
  BroadcasterID : UUID;
  Status : StreamKeyStatus;
  CreatedAt : Time;
  ExpiresAt : option Time;
  RevokedAt : option Time;
  LastUsedAt : option Time
}.

Definition with_KeyValue (v : string) (k : t) : t :=
  mk (ID k) v (BroadcasterID k) (Status k) (CreatedAt k)
     (ExpiresAt k) (RevokedAt k) (LastUsedAt k).

Definition with_Status (s : StreamKeyStatus) (k : t) : t :=
  mk (ID k) (KeyValue k) (BroadcasterID k) s (CreatedAt k)
     (ExpiresAt k) (RevokedAt k) (LastUsedAt k).

Definition with_RevokedAt (r : option Time) (k : t) : t :=
  mk (ID k) (KeyValue k) (BroadcasterID k) (Status k) (CreatedAt k)
     (ExpiresAt k) r (LastUsedAt k).

Definition with_LastUsedAt (u : option Time) (k : t) : t :=
  mk (ID k) (KeyValue k) (BroadcasterID k) (Status k) (CreatedAt k)
     (ExpiresAt k) (RevokedAt k) u.

(** [StreamKey.IsValid] at clock reading [now]. *)
Definition IsValid (now : Time) (sk : t) : bool :=
  if negb (StreamKeyStatus_eqb (Status sk) StreamKeyStatusActive) then false
  else match ExpiresAt sk with
       | Some e => if After now e then false else true
       | None => true
       end.
End StreamKey.

(** [key.ExpiresAt != nil && time.Now().After( *key.ExpiresAt)] *)
Definition expired_at (now : Time) (key : StreamKey.t) : bool :=
  match StreamKey.ExpiresAt key with
  | Some e => After now e
  | None => false
  end.

Module Stream.
Record t : Type := mk {
  ID : UUID;
  StreamKeyID : UUID;
  Path : string;
  Status : StreamStatus;
  StartedAt : Time;
  EndedAt : option Time;
  SourceType : option string;
  SourceID : option string;
  Metadata : JSONObject;
  RecordingRef : option string
}.

Definition with_ID (i : UUID) (s : t) : t :=
  mk i (StreamKeyID s) (Path s) (Status s) (StartedAt s) (EndedAt s)
     (SourceType s) (SourceID s) (Metadata s) (RecordingRef s).

(** The effect of [SET status = 'ended', ended_at = NOW()] on one row. *)
Definition ended (dbnow : Time) (s : t) : t :=
  mk (ID s) (StreamKeyID s) (Path s) StreamStatusEnded (StartedAt s)
     (Some dbnow) (SourceType s) (SourceID s) (Metadata s) (RecordingRef s).

Definition is_active (s : t) : bool :=
  StreamStatus_eqb (Status s) StreamStatusActive.
End Stream.

(** internal/domain/errors.go: the sentinel errors. *)
Inductive DomainError : Type :=
| ErrNotFound
| ErrAlreadyExists
| ErrInvalidStatus
| ErrStreamKeyInUse
| ErrStreamKeyRevoked
| ErrStreamKeyExpired
| ErrInvalidStreamKey
| ErrUnauthorized.

Definition DomainError_eqb (a b : DomainError) : bool :=
  match a, b with
  | ErrNotFound, ErrNotFound
  | ErrAlreadyExists, ErrAlreadyExists
  | ErrInvalidStatus, ErrInvalidStatus
  | ErrStreamKeyInUse, ErrStreamKeyInUse
  | ErrStreamKeyRevoked, ErrStreamKeyRevoked
  | ErrStreamKeyExpired, ErrStreamKeyExpired
  | ErrInvalidStreamKey, ErrInvalidStreamKey
  | ErrUnauthorized, ErrUnauthorized => true
  | _, _ => false
  end.

(** Go [error] values: a domain sentinel, a statement rejected by the store
    (named after the violated constraint), a failed request to MediaMTX, or
    [fmt.Errorf("msg: %w", err)]. *)
Inductive error : Type :=
| Domain (d : DomainError)
| PgError (constraint : string)
| NetError (msg : string)
| Wrap (msg : string) (inner : error).

(** [errors.Is(err, target)] for a sentinel target. *)
Fixpoint errors_Is (err : error) (target : DomainError) : bool :=
  match err with
  | Domain d => DomainError_eqb d target
  | Wrap _ inner => errors_Is inner target
  | _ => false
  end.

(** [err == target]: identity with the sentinel, without unwrapping. *)
Definition error_is_sentinel (err : error) (target : DomainError) : bool :=
  match err with
  | Domain d => DomainError_eqb d target
  | _ => false
  end.

(** A Go pair [(value, error)]. *)
Inductive result (A : Type) : Type :=
| Ok (a : A)
| Err (e : error).

Arguments Ok {A} a.
Arguments Err {A} e.

(* ================================================================== *)
(** * The store: tables and constraints of migration 001 *)
(* ================================================================== *)

Record DB : Type := mkDB {
  broadcasters : list Broadcaster.t;
  stream_keys : list StreamKey.t;
  streams : list Stream.t
}.

Definition empty_db : DB := mkDB [] [] [].

Definition mem_uuid (x : UUID) (l : list UUID) : bool :=
  existsb (Nat.eqb x) l.

(** Number of characters of a UTF-8 string: bytes that are not
    continuation bytes.  VARCHAR(n) counts characters. *)
Definition is_continuation (c : ascii) : bool :=
  (128 <=? nat_of_ascii c) && (nat_of_ascii c <? 192).

Fixpoint char_length (s : string) : nat :=
  match s with
  | EmptyString => 0
  | String c r => (if is_continuation c then 0 else 1) + char_length r
  end.

Definition varchar (n : nat) (s : string) : bool := char_length s <=? n.

Definition varchar_opt (n : nat) (s : option string) : bool :=
  match s with
  | Some v => varchar n v
  | None => true
  end.

(** Rows selected by the WHERE clauses of the repositories. *)
Definition key_has_id (id : UUID) (k : StreamKey.t) : bool :=
  Nat.eqb (StreamKey.ID k) id.

Definition key_has_value (v : string) (k : StreamKey.t) : bool :=
  String.eqb (StreamKey.KeyValue k) v.

Definition key_of_broadcaster (b : UUID) (k : StreamKey.t) : bool :=
  Nat.eqb (StreamKey.BroadcasterID k) b.

Definition stream_has_id (id : UUID) (s : Stream.t) : bool :=
  Nat.eqb (Stream.ID s) id.

(** [WHERE id = $1 AND status = 'active'] *)
Definition active_with_id (id : UUID) (s : Stream.t) : bool :=
  Nat.eqb (Stream.ID s) id && Stream.is_active s.

(** [WHERE stream_key_id = $1 AND status = 'active'] *)
Definition active_of_key (keyID : UUID) (s : Stream.t) : bool :=
  Nat.eqb (Stream.StreamKeyID s) keyID && Stream.is_active s.

(** [WHERE path = $1 AND status = 'active'] *)
Definition active_on_path (path : string) (s : Stream.t) : bool :=
  String.eqb (Stream.Path s) path && Stream.is_active s.

(** How many active streams reference a stream key. *)
Definition active_count (keyID : UUID) (db : DB) : nat :=
  List.length (filter (active_of_key keyID) (streams db)).

(** [UPDATE ... SET ... WHERE p]: rewrite the selected rows in place. *)
Definition update_where {A : Type} (p : A -> bool) (f : A -> A) (l : list A) : list A :=
  map (fun x => if p x then f x else x) l.

Definition rows_affected {A : Type} (p : A -> bool) (l : list A) : nat :=
  List.length (filter p l).

(** The constraint, if any, that rejects [INSERT INTO broadcasters]. *)
Definition insert_broadcaster_violation (b : Broadcaster.t) (db : DB) : option string :=
  if negb (varchar 255 (Broadcaster.DisplayName b)) then Some "value too long for type character varying(255)"
  else if mem_uuid (Broadcaster.ID b) (map Broadcaster.ID (broadcasters db)) then Some "broadcasters_pkey"
  else None.

(** The constraint, if any, that rejects [INSERT INTO stream_keys]. *)
Definition insert_stream_key_violation (k : StreamKey.t) (db : DB) : option string :=
  if negb (varchar 64 (StreamKey.KeyValue k)) then Some "value too long for type character varying(64)"
  else if mem_uuid (StreamKey.ID k) (map StreamKey.ID (stream_keys db)) then Some "stream_keys_pkey"
  else if existsb (key_has_value (StreamKey.KeyValue k)) (stream_keys db) then Some "stream_keys_key_value_key"
  else if negb (mem_uuid (StreamKey.BroadcasterID k) (map Broadcaster.ID (broadcasters db))) then Some "stream_keys_broadcaster_id_fkey"
  else None.

(** The constraint, if any, that rejects [INSERT INTO streams]; the last
    but one is the partial unique index on [stream_key_id] restricted to
    [status = 'active']. *)
Definition insert_stream_violation (s : Stream.t) (db : DB) : option string :=
  if negb (varchar 255 (Stream.Path s)) then Some "value too long for type character varying(255)"
  else if negb (varchar_opt 50 (Stream.SourceType s)) then Some "value too long for type character varying(50)"
  else if negb (varchar_opt 255 (Stream.SourceID s)) then Some "value too long for type character varying(255)"
  else if mem_uuid (Stream.ID s) (map Stream.ID (streams db)) then Some "streams_pkey"
  else if Stream.is_active s && existsb (active_of_key (Stream.StreamKeyID s)) (streams db) then Some "idx_streams_one_active_per_key"
  else if negb (mem_uuid (Stream.StreamKeyID s) (map StreamKey.ID (stream_keys db))) then Some "streams_stream_key_id_fkey"
  else None.

(** The data-modifying statements issued by the repositories and services;
    [NOW] is the reading of the store's clock where the statement uses
    [NOW()]. *)
Inductive Write : Type :=
| InsertBroadcaster (b : Broadcaster.t)
| UpdateBroadcaster (id : UUID) (display_name : string) (metadata : JSONObject) (NOW : Time)
| DeleteBroadcaster (id : UUID)
| InsertStreamKey (k : StreamKey.t)
| UpdateStreamKeyStatus (id : UUID) (status : StreamKeyStatus) (revoked_at : option Time)
| UpdateStreamKeyLastUsed (id : UUID) (NOW : Time)
| UpdateStreamKeyExpired (id : UUID)
| InsertStream (s : Stream.t)
| UpdateEndStream (id : UUID) (NOW : Time)
| UpdateEndStreamByPath (path : string) (NOW : Time).

(** The columns written by [INSERT INTO stream_keys (id, key_value,
    broadcaster_id, status, created_at, expires_at)]; the others are NULL. *)
Definition inserted_stream_key (k : StreamKey.t) : StreamKey.t :=
  StreamKey.mk (StreamKey.ID k) (StreamKey.KeyValue k) (StreamKey.BroadcasterID k)
    (StreamKey.Status k) (StreamKey.CreatedAt k) (StreamKey.ExpiresAt k) None None.

(** The columns written by [INSERT INTO streams (id, stream_key_id, path,
    status, started_at, source_type, source_id, metadata)]. *)
Definition inserted_stream (s : Stream.t) : Stream.t :=
  Stream.mk (Stream.ID s) (Stream.StreamKeyID s) (Stream.Path s) (Stream.Status s)
    (Stream.StartedAt s) None (Stream.SourceType s) (Stream.SourceID s)
    (Stream.Metadata s) None.

Definition broadcaster_has_id (id : UUID) (b : Broadcaster.t) : bool :=
  Nat.eqb (Broadcaster.ID b) id.

(** [DELETE FROM broadcasters WHERE id = $1] with its cascades. *)
Definition delete_broadcaster (id : UUID) (db : DB) : DB :=
  let dead := map StreamKey.ID (filter (key_of_broadcaster id) (stream_keys db)) in
  mkDB (filter (fun b => negb (broadcaster_has_id id b)) (broadcasters db))
       (filter (fun k => negb (key_of_broadcaster id k)) (stream_keys db))
       (filter (fun s => negb (mem_uuid (Stream.StreamKeyID s) dead)) (streams db)).

(** One statement against the store: the command tag (rows affected) or the
    error, and the table contents afterwards. *)
Definition exec (w : Write) (db : DB) : result nat * DB :=
  match w with
  | InsertBroadcaster b =>
      match insert_broadcaster_violation b db with
      | Some c => (Err (PgError c), db)
      | None => (Ok 1, mkDB (broadcasters db ++ [b]) (stream_keys db) (streams db))
      end
  | UpdateBroadcaster id name meta dbnow =>
      if negb (varchar 255 name)
      then (Err (PgError "value too long for type character varying(255)"), db)
      else (Ok (rows_affected (broadcaster_has_id id) (broadcasters db)),
            mkDB (update_where (broadcaster_has_id id)
                    (fun b => Broadcaster.mk (Broadcaster.ID b) name meta (Broadcaster.CreatedAt b) dbnow)
                    (broadcasters db))
                 (stream_keys db) (streams db))
  | DeleteBroadcaster id =>
      (Ok (rows_affected (broadcaster_has_id id) (broadcasters db)), delete_broadcaster id db)
  | InsertStreamKey k =>
      match insert_stream_key_violation k db with
      | Some c => (Err (PgError c), db)
      | None => (Ok 1, mkDB (broadcasters db) (stream_keys db ++ [inserted_stream_key k]) (streams db))
      end
  | UpdateStreamKeyStatus id status revoked_at =>
      (Ok (rows_affected (key_has_id id) (stream_keys db)),
       mkDB (broadcasters db)
            (update_where (key_has_id id)
               (fun k => StreamKey.with_RevokedAt revoked_at (StreamKey.with_Status status k))
               (stream_keys db))
            (streams db))
  | UpdateStreamKeyLastUsed id dbnow =>
      (Ok (rows_affected (key_has_id id) (stream_keys db)),
       mkDB (broadcasters db)
            (update_where (key_has_id id) (StreamKey.with_LastUsedAt (Some dbnow)) (stream_keys db))
            (streams db))
  | UpdateStreamKeyExpired id =>
      (Ok (rows_affected (key_has_id id) (stream_keys db)),
       mkDB (broadcasters db)
            (update_where (key_has_id id) (StreamKey.with_Status StreamKeyStatusExpired) (stream_keys db))
            (streams db))
  | InsertStream s =>
      match insert_stream_violation s db with
      | Some c => (Err (PgError c), db)
      | None => (Ok 1, mkDB (broadcasters db) (stream_keys db) (streams db ++ [inserted_stream s]))
      end
  | UpdateEndStream id dbnow =>
      (Ok (rows_affected (active_with_id id) (streams db)),
       mkDB (broadcasters db) (stream_keys db)
            (update_where (active_with_id id) (Stream.ended dbnow) (streams db)))
  | UpdateEndStreamByPath path dbnow =>
      (Ok (rows_affected (active_on_path path) (streams db)),
       mkDB (broadcasters db) (stream_keys db)
            (update_where (active_on_path path) (Stream.ended dbnow) (streams db)))
  end.

(** The statements that only read. *)
Inductive Read : Type :=
| SelectStreamKeyByID (id : UUID)
| SelectStreamKeyByKeyValue (key_value : string) (for_update : bool)
| SelectStreamKeysByBroadcaster (broadcaster_id : UUID)
| SelectStreamKeys
| SelectStreamByID (id : UUID)
| SelectActiveStreamByPath (path : string)
| SelectActiveStreamByStreamKeyID (key_id : UUID)
| SelectActiveStreams.

(* ================================================================== *)
(** * Effects: the store, the logger and the MediaMTX API *)
(* ================================================================== *)

Inductive Level : Type := LevelInfo | LevelWarn | LevelError.

Inductive MtxCall : Type :=
| RtmpConnsList
| RtmpConnsKick (id : string)
| RtspSessionsList
| RtspSessionsKick (id : string).

(** What an operation does besides returning: statements sent to the store,
    transaction brackets, log records and requests to MediaMTX, in order. *)
Inductive Event : Type :=
| EvRead (q : Read)
| EvWrite (w : Write)
| EvBegin
| EvCommit
| EvRollback
| EvLog (lvl : Level) (msg : string)
| EvMtx (c : MtxCall).

(** A computation over the store that also emits events. *)
Definition Eff (A : Type) : Type := DB -> A * DB * list Event.

Definition ret {A : Type} (a : A) : Eff A := fun db => (a, db, []).

Definition bind {A B : Type} (m : Eff A) (f : A -> Eff B) : Eff B :=
  fun db =>
    let '(a, db1, t1) := m db in
    let '(b, db2, t2) := f a db1 in
    (b, db2, t1 ++ t2).

Notation "x <- m ;; k" := (bind m (fun x => k))
  (at level 61, m at next level, right associativity).
Notation "m ;;; k" := (bind m (fun _ => k))
  (at level 61, right associativity).

Definition value {A : Type} (r : A * DB * list Event) : A := fst (fst r).
Definition store {A : Type} (r : A * DB * list Event) : DB := snd (fst r).
Definition events {A : Type} (r : A * DB * list Event) : list Event := snd r.

(** [slog]: one record at the given level. *)
Definition log (lvl : Level) (msg : string) : Eff unit :=
  fun db => (tt, db, [EvLog lvl msg]).

(** [QueryRow]/[Query]: a read-only statement and its answer. *)
Definition query {A : Type} (q : Read) (answer : DB -> A) : Eff A :=
  fun db => (answer db, db, [EvRead q]).

(** [Exec]: a data-modifying statement. *)
Definition Exec (w : Write) : Eff (result nat) :=
  fun db => let '(r, db1) := exec w db in (r, db1, [EvWrite w]).

(** [pgx.BeginFunc]: run [f] in a transaction, commit when it returns no
    error and roll back otherwise. *)
Definition BeginFunc {A : Type} (f : Eff (result A)) : Eff (result A) :=
  fun db =>
    let '(r, db1, t) := f db in
    match r with
    | Ok a => (Ok a, db1, EvBegin :: t ++ [EvCommit])
    | Err e => (Err e, db, EvBegin :: t ++ [EvRollback])
    end.

Definition is_store_event (e : Event) : bool :=
  match e with
  | EvRead _ | EvWrite _ | EvBegin | EvCommit | EvRollback => true
  | _ => false
  end.

Definition is_write_event (e : Event) : bool :=
  match e with
  | EvWrite _ => true
  | _ => false
  end.

Definition is_error_log (e : Event) : bool :=
  match e with
  | EvLog LevelError _ => true
  | _ => false
  end.

(* ================================================================== *)
(** * internal/database: repositories *)
(* ================================================================== *)

(** [Scan] of [QueryRow]: the first selected row, or [pgx.ErrNoRows] mapped
    to [domain.ErrNotFound]. *)
Definition scan_row {A : Type} (p : A -> bool) (rows : list A) : result A :=
  match find p rows with
  | Some r => Ok r
  | None => Err (Domain ErrNotFound)
  end.

(** [ORDER BY created_at DESC] *)
Fixpoint insert_by_created_at_desc (k : StreamKey.t) (l : list StreamKey.t) : list StreamKey.t :=
  match l with
  | [] => [k]
  | h :: t =>
      if (StreamKey.CreatedAt h <? StreamKey.CreatedAt k)%Z then k :: l
      else h :: insert_by_created_at_desc k t
  end.

Definition order_by_created_at_desc (l : list StreamKey.t) : list StreamKey.t :=
  fold_right insert_by_created_at_desc [] l.

Definition StreamKeyRepo_Create (entropy : nat) (key : StreamKey.t) : Eff (option error) :=
  let key' := if Nat.eqb (StreamKey.ID key) uuid_Nil
              then StreamKey.mk (uuid_New entropy) (StreamKey.KeyValue key)
                     (StreamKey.BroadcasterID key) (StreamKey.Status key)
                     (StreamKey.CreatedAt key) (StreamKey.ExpiresAt key)
                     (StreamKey.RevokedAt key) (StreamKey.LastUsedAt key)
              else key in
  r <- Exec (InsertStreamKey key') ;;
  match r with
  | Err e => ret (Some (Wrap "failed to create stream key" e))
  | Ok _ => ret None
  end.

Definition StreamKeyRepo_GetByID (id : UUID) : Eff (result StreamKey.t) :=
  query (SelectStreamKeyByID id) (fun db => scan_row (key_has_id id) (stream_keys db)).

Definition StreamKeyRepo_GetByKeyValue (keyValue : string) : Eff (result StreamKey.t) :=
  query (SelectStreamKeyByKeyValue keyValue false)
        (fun db => scan_row (key_has_value keyValue) (stream_keys db)).

Definition StreamKeyRepo_GetAndLockByKeyValue (keyValue : string) : Eff (result StreamKey.t) :=
  query (SelectStreamKeyByKeyValue keyValue true)
        (fun db => scan_row (key_has_value keyValue) (stream_keys db)).

Definition StreamKeyRepo_ListByBroadcaster (broadcasterID : UUID) : Eff (result (list StreamKey.t)) :=
  query (SelectStreamKeysByBroadcaster broadcasterID)
        (fun db => Ok (order_by_created_at_desc
                         (filter (key_of_broadcaster broadcasterID) (stream_keys db)))).

Definition StreamKeyRepo_ListAll : Eff (result (list StreamKey.t)) :=
  query SelectStreamKeys (fun db => Ok (order_by_created_at_desc (stream_keys db))).

Definition StreamKeyRepo_UpdateStatus (id : UUID) (status : StreamKeyStatus)
    (revokedAt : option Time) : Eff (option error) :=
  r <- Exec (UpdateStreamKeyStatus id status revokedAt) ;;
  match r with
  | Err e => ret (Some (Wrap "failed to update stream key status" e))
  | Ok n => if Nat.eqb n 0 then ret (Some (Domain ErrNotFound)) else ret None
  end.

Definition StreamKeyRepo_UpdateLastUsed (dbnow : Time) (id : UUID) : Eff (option error) :=
  r <- Exec (UpdateStreamKeyLastUsed id dbnow) ;;
  match r with
  | Err e => ret (Some (Wrap "failed to update last used" e))
  | Ok n => if Nat.eqb n 0 then ret (Some (Domain ErrNotFound)) else ret None
  end.

Definition StreamRepo_Create (entropy : nat) (stream : Stream.t) : Eff (option error) :=
  let stream' := if Nat.eqb (Stream.ID stream) uuid_Nil
                 then Stream.with_ID (uuid_New entropy) stream
                 else stream in
  r <- Exec (InsertStream stream') ;;
  match r with
  | Err e => ret (Some (Wrap "failed to create stream" e))
  | Ok _ => ret None
  end.

Definition StreamRepo_GetByID (id : UUID) : Eff (result Stream.t) :=
  query (SelectStreamByID id) (fun db => scan_row (stream_has_id id) (streams db)).

Definition StreamRepo_GetActiveByPath (path : string) : Eff (result Stream.t) :=
  query (SelectActiveStreamByPath path) (fun db => scan_row (active_on_path path) (streams db)).

Definition StreamRepo_GetActiveByStreamKeyID (keyID : UUID) : Eff (result Stream.t) :=
  query (SelectActiveStreamByStreamKeyID keyID)
        (fun db => scan_row (active_of_key keyID) (streams db)).

Definition StreamRepo_EndStream (dbnow : Time) (id : UUID) : Eff (option error) :=
  r <- Exec (UpdateEndStream id dbnow) ;;
  match r with
  | Err e => ret (Some (Wrap "failed to end stream" e))
  | Ok n => if Nat.eqb n 0 then ret (Some (Domain ErrNotFound)) else ret None
  end.

Definition StreamRepo_EndStreamByPath (dbnow : Time) (path : string) : Eff (option error) :=
  r <- Exec (UpdateEndStreamByPath path dbnow) ;;
  match r with
  | Err e => ret (Some (Wrap "failed to end stream by path" e))
  | Ok n => if Nat.eqb n 0 then ret (Some (Domain ErrNotFound)) else ret None
  end.

(* ================================================================== *)
(** * internal/service: MediaMTX client *)
(* ================================================================== *)

(** One RTMP connection or RTSP session as listed by the MediaMTX API. *)
Module Conn.
Record t : Type := mk {
  Id : option string;
  Path : option string
}.
End Conn.

Record ConnList : Type := mkConnList {
  Items : option (list Conn.t)
}.

Record ListResponse : Type := mkListResponse {
  JSON200 : option ConnList
}.

(** The MediaMTX control API as seen by one call of [KickPath]: what each
    list request answers and whether kicking a given connection fails. *)
Record MediaMTX : Type := mkMediaMTX {
  RtmpConnsListWithResponse : result ListResponse;
  RtmpConnsKickWithResponse : string -> option error;
  RtspSessionsListWithResponse : result ListResponse;
  RtspSessionsKickWithResponse : string -> option error
}.

Definition mtx_call (c : MtxCall) : Eff unit :=
  fun db => (tt, db, [EvMtx c]).

(** The [for _, conn := range items] loops of [KickPath]. *)
Fixpoint kick_matching (kick : string -> option error) (call : string -> MtxCall)
    (failed kicked : string) (path : string) (items : list Conn.t) : Eff unit :=
  match items with
  | [] => ret tt
  | conn :: rest =>
      (match Conn.Path conn, Conn.Id conn with
       | Some p, Some id =>
           if String.eqb p path then
             mtx_call (call id) ;;;
             match kick id with
             | Some _ => log LevelWarn failed
             | None => log LevelInfo kicked
             end
           else ret tt
       | _, _ => ret tt
       end) ;;;
      kick_matching kick call failed kicked path rest
  end.

Definition kick_listed (listing : result ListResponse) (kick : string -> option error)
    (call : string -> MtxCall) (list_failed failed kicked : string) (path : string) : Eff unit :=
  match listing with
  | Err _ => log LevelWarn list_failed
  | Ok resp =>
      match JSON200 resp with
      | Some l =>
          match Items l with
          | Some items => kick_matching kick call failed kicked path items
          | None => ret tt
          end
      | None => ret tt
      end
  end.

Definition MediaMTXClient_KickPath (c : MediaMTX) (path : string) : Eff (option error) :=
  mtx_call RtmpConnsList ;;;
  kick_listed (RtmpConnsListWithResponse c) (RtmpConnsKickWithResponse c) RtmpConnsKick
    "failed to list RTMP connections" "failed to kick RTMP connection"
    "kicked RTMP connection" path ;;;
  mtx_call RtspSessionsList ;;;
  kick_listed (RtspSessionsListWithResponse c) (RtspSessionsKickWithResponse c) RtspSessionsKick
    "failed to list RTSP sessions" "failed to kick RTSP session"
    "kicked RTSP session" path ;;;
  ret None.

(* ================================================================== *)
(** * internal/service: StreamKeyService *)
(* ================================================================== *)

Definition StreamKeyService_List : Eff (result (list StreamKey.t)) :=
  r <- StreamKeyRepo_ListAll ;;
  match r with
  | Err e => ret (Err e)
  | Ok keys => ret (Ok (map (StreamKey.with_KeyValue "") keys))
  end.

Definition StreamKeyService_ListByBroadcaster (broadcasterID : UUID)
    : Eff (result (list StreamKey.t)) :=
  r <- StreamKeyRepo_ListByBroadcaster broadcasterID ;;
  match r with
  | Err e => ret (Err e)
  | Ok keys => ret (Ok (map (StreamKey.with_KeyValue "") keys))
  end.

(** The tail of [Revoke]: [UpdateStatus(ctx, id, StreamKeyStatusRevoked, &now)]. *)
Definition revoke_key (now : Time) (id : UUID) : Eff (option error) :=
  e <- StreamKeyRepo_UpdateStatus id StreamKeyStatusRevoked (Some now) ;;
  match e with
  | Some err => ret (Some err)
  | None => log LevelInfo "stream key revoked" ;;; ret None
  end.

(** [Revoke] with Go clock reading [now] and store clock reading [dbnow]. *)
Definition StreamKeyService_Revoke (mediaMTXClient : MediaMTX) (now dbnow : Time)
    (id : UUID) : Eff (option error) :=
  k <- StreamKeyRepo_GetByID id ;;
  match k with
  | Err err => ret (Some err)
  | Ok key =>
      if negb (StreamKeyStatus_eqb (StreamKey.Status key) StreamKeyStatusActive)
      then ret (Some (Domain ErrInvalidStatus))
      else
        a <- StreamRepo_GetActiveByStreamKeyID id ;;
        match a with
        | Err err =>
            if negb (error_is_sentinel err ErrNotFound)
            then ret (Some (Wrap "failed to check active stream" err))
            else revoke_key now id
        | Ok activeStream =>
            log LevelInfo "terminating active stream due to key revocation" ;;;
            ke <- MediaMTXClient_KickPath mediaMTXClient (Stream.Path activeStream) ;;
            (match ke with
             | Some _ => log LevelWarn "failed to kick path from MediaMTX"
             | None => ret tt
             end) ;;;
            ee <- StreamRepo_EndStream dbnow (Stream.ID activeStream) ;;
            (match ee with
             | Some _ => log LevelWarn "failed to end stream"
             | None => ret tt
             end) ;;;
            revoke_key now id
        end
  end.

(* ================================================================== *)
(** * internal/service: AuthService *)
(* ================================================================== *)

Module AuthRequest.
Record t : Type := mk {
  User : string;
  Password : string;
  IP : string;
  Action : string;
  Path : string;
  Protocol : string;
  ID : string;
  Query : string
}.
End AuthRequest.

Module AuthResult.
Record t : Type := mk {
  Allowed : bool;
  StreamKeyID : option UUID;
  Reason : string
}.
End AuthResult.

(** The stream key of a request: the password, or else the path without
    its leading slash. *)
Definition request_key_value (req : AuthRequest.t) : string :=
  if String.eqb (AuthRequest.Password req) ""
  then match AuthRequest.Path req with
       | String "/" rest => rest
       | p => p
       end
  else AuthRequest.Password req.

Definition AuthService_getAndLockStreamKey (keyValue : string) : Eff (result StreamKey.t) :=
  query (SelectStreamKeyByKeyValue keyValue true)
        (fun db => scan_row (key_has_value keyValue) (stream_keys db)).

(** Only [id, stream_key_id, path, status, started_at] are scanned. *)
Definition AuthService_getActiveStreamByKeyID (keyID : UUID) : Eff (result Stream.t) :=
  query (SelectActiveStreamByStreamKeyID keyID)
        (fun db =>
           match scan_row (active_of_key keyID) (streams db) with
           | Ok s => Ok (Stream.mk (Stream.ID s) (Stream.StreamKeyID s) (Stream.Path s)
                           (Stream.Status s) (Stream.StartedAt s) None None None [] None)
           | Err e => Err e
           end).

Definition reject (reason : string) : AuthResult.t :=
  AuthResult.mk false None reason.

(** The function passed to [pgx.BeginFunc] by [Authenticate]; [Ok r] is a
    nil error with [result] set to [r]. *)
Definition authenticate_tx (now dbnow : Time) (keyValue : string) : Eff (result AuthResult.t) :=
  k <- AuthService_getAndLockStreamKey keyValue ;;
  match k with
  | Err err =>
      if errors_Is err ErrNotFound
      then ret (Ok (reject "invalid stream key"))
      else ret (Err (Wrap "failed to get stream key" err))
  | Ok key =>
      if StreamKeyStatus_eqb (StreamKey.Status key) StreamKeyStatusRevoked
      then ret (Ok (reject "stream key revoked"))
      else if StreamKeyStatus_eqb (StreamKey.Status key) StreamKeyStatusExpired
      then ret (Ok (reject "stream key expired"))
      else if expired_at now key
      then
        r <- Exec (UpdateStreamKeyExpired (StreamKey.ID key)) ;;
        match r with
        | Err err => ret (Err (Wrap "failed to update expired status" err))
        | Ok _ => ret (Ok (reject "stream key expired"))
        end
      else
        a <- AuthService_getActiveStreamByKeyID (StreamKey.ID key) ;;
        match a with
        | Ok _ => ret (Ok (reject "stream key already in use"))
        | Err err =>
            if negb (errors_Is err ErrNotFound)
            then ret (Err (Wrap "failed to check active stream" err))
            else
              r <- Exec (UpdateStreamKeyLastUsed (StreamKey.ID key) dbnow) ;;
              match r with
              | Err err => ret (Err (Wrap "failed to update last used" err))
              | Ok _ =>
                  log LevelInfo "stream key authenticated" ;;;
                  ret (Ok (AuthResult.mk true (Some (StreamKey.ID key))
                             "authentication successful"))
              end
        end
  end.

(** [Authenticate] with Go clock reading [now] and store clock reading
    [dbnow]. *)
Definition AuthService_Authenticate (now dbnow : Time) (req : AuthRequest.t)
    : Eff (result AuthResult.t) :=
  if negb (String.eqb (AuthRequest.Action req) "publish")
  then ret (Ok (AuthResult.mk true None "non-publish action allowed"))
  else
    let keyValue := request_key_value req in
    if String.eqb keyValue ""
    then ret (Ok (reject "missing stream key"))
    else
      r <- BeginFunc (authenticate_tx now dbnow keyValue) ;;
      match r with
      | Err err => ret (Err (Wrap "authentication transaction failed" err))
      | Ok result => ret (Ok result)
      end.

(* ================================================================== *)
(** * internal/handler *)
(* ================================================================== *)

(** An HTTP request as a handler sees it; [Body] is the outcome of
    [json.NewDecoder(r.Body).Decode(&req)], [None] when decoding fails. *)
Module Request.
Record t (B : Type) : Type := mk {
  Method : string;
  URLPath : string;
  Body : option B
}.
Arguments mk {B} _ _ _.
Arguments Method {B} _.
Arguments URLPath {B} _.
Arguments Body {B} _.
End Request.

(** RFC 9457 problem details. *)
Record Problem : Type := mkProblem {
  ProblemStatus : nat;
  ProblemType : string;
  ProblemTitle : string;
  ProblemDetail : string;
  ProblemInstance : string
}.

Inductive ResponseBody : Type :=
| NoBody
| ProblemJSON (p : Problem)
| StreamKeyListJSON (stream_keys : list StreamKey.t) (count : nat).

Module Response.
Record t : Type := mk {
  StatusCode : nat;
  Body : ResponseBody
}.
End Response.

Definition StatusOK := 200.
Definition StatusNoContent := 204.
Definition StatusBadRequest := 400.
Definition StatusUnauthorized := 401.
Definition StatusNotFound := 404.
Definition StatusConflict := 409.
Definition StatusInternalServerError := 500.

Record HTTPError : Type := mkHTTPError {
  Status : nat;
  Type_ : string;
  Title : string;
  Detail : string
}.

(** [handler.ErrNotFound] and [handler.ErrUnauthorized] carry a trailing
    underscore: the plain names are the sentinels of [domain]. *)
Definition ErrNotFound_ (detail : string) : HTTPError :=
  mkHTTPError StatusNotFound "/errors/not-found" "Not Found" detail.

Definition ErrInvalidRequest (detail : string) : HTTPError :=
  mkHTTPError StatusBadRequest "/errors/invalid-request" "Invalid Request" detail.

Definition ErrUnauthorized_ (detail : string) : HTTPError :=
  mkHTTPError StatusUnauthorized "/errors/unauthorized" "Unauthorized" detail.

Definition ErrConflict (detail : string) : HTTPError :=
  mkHTTPError StatusConflict "/errors/conflict" "Conflict" detail.

Definition ErrInternalServer (detail : string) : HTTPError :=
  mkHTTPError StatusInternalServerError "/errors/internal-error" "Internal Server Error" detail.

(** [WriteError(w, r, err)] *)
Definition WriteError (urlPath : string) (err : HTTPError) : Response.t :=
  Response.mk (Status err)
    (ProblemJSON (mkProblem (Status err) (Type_ err) (Title err) (Detail err) urlPath)).

(** [w.WriteHeader(status)] and nothing written after it. *)
Definition WriteHeader (status : nat) : Response.t := Response.mk status NoBody.

Definition MapDomainError (err : error) : HTTPError :=
  if errors_Is err ErrNotFound then ErrNotFound_ "The requested resource was not found"
  else if errors_Is err ErrAlreadyExists
  then ErrConflict "A resource with the same identifier already exists"
  else if errors_Is err ErrInvalidStatus then ErrInvalidRequest "Invalid status transition"
  else if errors_Is err ErrStreamKeyInUse
  then mkHTTPError StatusConflict "/errors/stream-key-in-use" "Stream Key In Use"
         "This stream key is already in use by an active stream"
  else if errors_Is err ErrStreamKeyRevoked
  then mkHTTPError StatusUnauthorized "/errors/stream-key-revoked" "Stream Key Revoked"
         "This stream key has been revoked"
  else if errors_Is err ErrStreamKeyExpired
  then mkHTTPError StatusUnauthorized "/errors/stream-key-expired" "Stream Key Expired"
         "This stream key has expired"
  else if errors_Is err ErrInvalidStreamKey
  then mkHTTPError StatusUnauthorized "/errors/invalid-stream-key" "Invalid Stream Key"
         "The provided stream key is invalid"
  else if errors_Is err ErrUnauthorized then ErrUnauthorized_ "Unauthorized"
  else ErrInternalServer "An unexpected error occurred".

(** [AuthHandler.ServeHTTP]: POST /auth from MediaMTX. *)
Definition AuthHandler_ServeHTTP (now dbnow : Time) (r : Request.t AuthRequest.t)
    : Eff Response.t :=
  if negb (String.eqb (Request.Method r) "POST")
  then ret (WriteError (Request.URLPath r) (ErrInvalidRequest "method not allowed"))
  else
    match Request.Body r with
    | None =>
        log LevelWarn "failed to decode auth request" ;;;
        ret (WriteError (Request.URLPath r) (ErrInvalidRequest "invalid request body"))
    | Some req =>
        a <- AuthService_Authenticate now dbnow req ;;
        match a with
        | Err _ =>
            log LevelError "authentication error" ;;;
            ret (WriteError (Request.URLPath r) (ErrInternalServer "authentication failed"))
        | Ok result =>
            if negb (AuthResult.Allowed result)
            then log LevelInfo "authentication rejected" ;;;
                 ret (WriteHeader StatusUnauthorized)
            else ret (WriteHeader StatusOK)
        end
    end.

Module WebhookReadyRequest.
Record t : Type := mk {
  Path : string;
  SourceType : string;
  SourceID : string
}.
End WebhookReadyRequest.

Module WebhookNotReadyRequest.
Record t : Type := mk {
  Path : string
}.
End WebhookNotReadyRequest.

(** A Go string copied into a [*string] field when it is not empty. *)
Definition non_empty (s : string) : option string :=
  if String.eqb s "" then None else Some s.

(** [WebhookHandler.handleReady]; the two draws of [uuid.New()] are the one
    of the handler and the one [StreamRepo.Create] makes for a nil id. *)
Definition WebhookHandler_handleReady (now : Time) (entropy entropy' : nat)
    (r : Request.t WebhookReadyRequest.t) : Eff Response.t :=
  match Request.Body r with
  | None =>
      log LevelWarn "failed to decode webhook ready request" ;;;
      ret (WriteError (Request.URLPath r) (ErrInvalidRequest "invalid request body"))
  | Some req =>
      if String.eqb (WebhookReadyRequest.Path req) ""
      then ret (WriteError (Request.URLPath r) (ErrInvalidRequest "path is required"))
      else
        log LevelInfo "stream ready webhook received" ;;;
        k <- StreamKeyRepo_GetByKeyValue (WebhookReadyRequest.Path req) ;;
        match k with
        | Err _ =>
            log LevelWarn "stream key not found for path" ;;;
            ret (WriteHeader StatusNoContent)
        | Ok streamKey =>
            let stream :=
              Stream.mk (uuid_New entropy) (StreamKey.ID streamKey)
                (WebhookReadyRequest.Path req) StreamStatusActive now None
                (non_empty (WebhookReadyRequest.SourceType req))
                (non_empty (WebhookReadyRequest.SourceID req)) [] None in
            e <- StreamRepo_Create entropy' stream ;;
            match e with
            | Some _ =>
                log LevelError "failed to create stream record" ;;;
                ret (WriteHeader StatusNoContent)
            | None =>
                log LevelInfo "stream started" ;;;
                ret (WriteHeader StatusNoContent)
            end
        end
  end.

(** [WebhookHandler.handleNotReady] with store clock reading [dbnow]. *)
Definition WebhookHandler_handleNotReady (dbnow : Time)
    (r : Request.t WebhookNotReadyRequest.t) : Eff Response.t :=
  match Request.Body r with
  | None =>
      log LevelWarn "failed to decode webhook not-ready request" ;;;
      ret (WriteError (Request.URLPath r) (ErrInvalidRequest "invalid request body"))
  | Some req =>
      if String.eqb (WebhookNotReadyRequest.Path req) ""
      then ret (WriteError (Request.URLPath r) (ErrInvalidRequest "path is required"))
      else
        log LevelInfo "stream not-ready webhook received" ;;;
        e <- StreamRepo_EndStreamByPath dbnow (WebhookNotReadyRequest.Path req) ;;
        (match e with
         | Some err =>
             if negb (error_is_sentinel err ErrNotFound)
             then log LevelError "failed to end stream"
             else log LevelWarn "no active stream found for path"
         | None => log LevelInfo "stream ended"
         end) ;;;
        ret (WriteHeader StatusNoContent)
  end.

(** [StreamKeyHandler.listStreamKeys] *)
Definition StreamKeyHandler_listStreamKeys (urlPath : string) : Eff Response.t :=
  r <- StreamKeyService_List ;;
  match r with
  | Err _ =>
      log LevelError "failed to list stream keys" ;;;
      ret (WriteError urlPath (ErrInternalServer "failed to list stream keys"))
  | Ok keys => ret (Response.mk StatusOK (StreamKeyListJSON keys (List.length keys)))
  end.

(** [StreamKeyHandler.revokeStreamKey]; [id] is the outcome of
    [uuid.Parse(idStr)], [None] when parsing fails. *)
Definition StreamKeyHandler_revokeStreamKey (mediaMTXClient : MediaMTX) (now dbnow : Time)
    (urlPath : string) (id : option UUID) : Eff Response.t :=
  match id with
  | None => ret (WriteError urlPath (ErrInvalidRequest "invalid stream key ID"))
  | Some id' =>
      e <- StreamKeyService_Revoke mediaMTXClient now dbnow id' ;;
      match e with
      | Some err => ret (WriteError urlPath (MapDomainError err))
      | None => ret (WriteHeader StatusNoContent)
      end
  end.

(* ================================================================== *)
(** * Reachable stores and the declared constraints *)
(* ================================================================== *)

(** The request-level operations on the store. *)
Inductive Operation : Type :=
| OpAuthenticate (now dbnow : Time) (r : Request.t AuthRequest.t)
| OpReady (now : Time) (entropy entropy' : nat) (r : Request.t WebhookReadyRequest.t)
| OpNotReady (dbnow : Time) (r : Request.t WebhookNotReadyRequest.t)
| OpRevoke (mediaMTXClient : MediaMTX) (now dbnow : Time) (urlPath : string) (id : option UUID)
| OpListStreamKeys (urlPath : string).

Definition run_operation (op : Operation) : Eff Response.t :=
  match op with
  | OpAuthenticate now dbnow r => AuthHandler_ServeHTTP now dbnow r
  | OpReady now entropy entropy' r => WebhookHandler_handleReady now entropy entropy' r
  | OpNotReady dbnow r => WebhookHandler_handleNotReady dbnow r
  | OpRevoke c now dbnow urlPath id => StreamKeyHandler_revokeStreamKey c now dbnow urlPath id
  | OpListStreamKeys urlPath => StreamKeyHandler_listStreamKeys urlPath
  end.

(** [steps db db']: the store [db'] results from [db] by a sequence of
    statements. *)
Inductive steps (db : DB) : DB -> Prop :=
| steps_refl : steps db db
| steps_exec (w : Write) (db' : DB) : steps db db' -> steps db (snd (exec w db')).

(** The stores that arise from the freshly migrated (empty) one.  A step is
    either a whole operation, or a single statement of one of the kinds the
    code issues, with any arguments: the second is what the store sees when
    operations run concurrently and their statements interleave, and when
    rows are inserted by the administrative endpoints. *)
Inductive reachable : DB -> Prop :=
| reach_empty : reachable empty_db
| reach_exec (w : Write) (db : DB) : reachable db -> reachable (snd (exec w db))
| reach_run (op : Operation) (db : DB) :
    reachable db -> reachable (store (run_operation op db)).

(** The uniqueness constraints of the migration. *)
Record constraints_hold (db : DB) : Prop := mkConstraints {
  stream_keys_pkey : NoDup (map StreamKey.ID (stream_keys db));
  stream_keys_key_value_key : NoDup (map StreamKey.KeyValue (stream_keys db));
  streams_pkey : NoDup (map Stream.ID (streams db));
  idx_streams_one_active_per_key : forall keyID, active_count keyID db <= 1
}.

(** A computation changes the store only through statements. *)
Definition stepwise {A : Type} (m : Eff A) : Prop :=
  forall db, steps db (store (m db)).

(* ================================================================== *)
(** * Example stores *)
(* ================================================================== *)

Definition alpha : Broadcaster.t := Broadcaster.mk 1 "Team Alpha" [] 100%Z 100%Z.

Definition key_live : StreamKey.t :=
  StreamKey.mk 7 "sk_live" 1 StreamKeyStatusActive 100%Z None None None.

(** Active, with an expiry at instant 150. *)
Definition key_old : StreamKey.t :=
  StreamKey.mk 8 "sk_old" 1 StreamKeyStatusActive 110%Z (Some 150%Z) None None.

Definition key_gone : StreamKey.t :=
  StreamKey.mk 9 "sk_gone" 1 StreamKeyStatusRevoked 120%Z None (Some 130%Z) None.

(** One broadcaster with three stream keys and no stream. *)
Definition db_idle : DB := mkDB [alpha] [key_live; key_old; key_gone] [].

Definition stream_live : Stream.t :=
  Stream.mk 21 7 "sk_live" StreamStatusActive 200%Z None (Some "rtmpConn") (Some "c1") [] None.

(** The same with an active stream on [key_live]. *)
Definition db_live : DB := mkDB [alpha] [key_live; key_old; key_gone] [stream_live].

(** An active stream on [key_live] that carries no source descriptors. *)
Definition stream_bare : Stream.t :=
  Stream.mk 22 7 "sk_live" StreamStatusActive 200%Z None None None [] None.

Definition db_bare : DB := mkDB [alpha] [key_live; key_old; key_gone] [stream_bare].

Definition publish (password path : string) : AuthRequest.t :=
  AuthRequest.mk "" password "192.168.1.1" "publish" path "rtmp" "conn-123" "".

Definition ready_request (path sourceType sourceID : string) : Request.t WebhookReadyRequest.t :=
  Request.mk "POST" "/webhook/ready" (Some (WebhookReadyRequest.mk path sourceType sourceID)).

Definition not_ready_request (path : string) : Request.t WebhookNotReadyRequest.t :=
  Request.mk "POST" "/webhook/not-ready" (Some (WebhookNotReadyRequest.mk path)).

(** A MediaMTX whose every request fails. *)
Definition mediamtx_down : MediaMTX :=
  mkMediaMTX (Err (NetError "connection refused")) (fun _ => Some (NetError "connection refused"))
             (Err (NetError "connection refused")) (fun _ => Some (NetError "connection refused")).

(** A MediaMTX that lists the publisher of [key_live] and fails to kick it. *)
Definition mediamtx_kick_fails : MediaMTX :=
  mkMediaMTX
    (Ok (mkListResponse (Some (mkConnList (Some [Conn.mk (Some "c1") (Some "sk_live")])))))
    (fun _ => Some (NetError "timeout"))
    (Ok (mkListResponse (Some (mkConnList (Some [])))))
    (fun _ => Some (NetError "timeout")).

(* ================================================================== *)
(** * What a request may change *)
(* ================================================================== *)

(** The stream keys are as before, or the rows carrying the id of one
    active key were rewritten. *)
Definition keys_effect (db db' : DB) : Prop :=
  stream_keys db' = stream_keys db \/
  exists key f,
    In key (stream_keys db) /\ StreamKey.Status key = StreamKeyStatusActive /\
    stream_keys db' = update_where (key_has_id (StreamKey.ID key)) f (stream_keys db).

(** The streams are as before, or one row was appended, or some active
    rows were ended. *)
Definition streams_effect (db db' : DB) : Prop :=
  streams db' = streams db \/
  (exists s, streams db' = streams db ++ [s]) \/
  (exists p t, (forall x, p x = true -> Stream.is_active x = true) /\
               streams db' = update_where p (Stream.ended t) (streams db)).

(** The foreign keys of the migration: every stream key belongs to a stored
    broadcaster and every stream to a stored stream key. *)
Definition references_hold (db : DB) : Prop :=
  (forall k, In k (stream_keys db) ->
             In (StreamKey.BroadcasterID k) (map Broadcaster.ID (broadcasters db))) /\
  (forall s, In s (streams db) ->
             In (Stream.StreamKeyID s) (map StreamKey.ID (stream_keys db))).

(* ================================================================== *)
(** * internal/service: what [KickPath] asks of MediaMTX *)
(* ================================================================== *)

(** The requests sent to MediaMTX among the events of a computation. *)
Definition mtx_calls (t : list Event) : list MtxCall :=
  flat_map (fun e => match e with
                     | EvMtx c => [c]
                     | _ => []
                     end) t.

(** The connections a list request returned, none when it failed or
    carried no items. *)
Definition listed_items (listing : result ListResponse) : list Conn.t :=
  match listing with
  | Ok resp =>
      match JSON200 resp with
      | Some l =>
          match Items l with
          | Some items => items
          | None => []
          end
      | None => []
      end
  | Err _ => []
  end.

(** The ids of the listed connections that publish or read [path]. *)
Definition ids_on_path (path : string) (items : list Conn.t) : list string :=
  flat_map (fun conn =>
              match Conn.Path conn, Conn.Id conn with
              | Some p, Some id => if String.eqb p path then [id] else []
              | _, _ => []
              end) items.

(* ================================================================== *)
(** * internal/service: creating stream keys *)
(* ================================================================== *)

(** The alphabet of [base64.RawURLEncoding]. *)
Definition encodeURL : string :=
  "ABCDEFGHIJKLMNOPQRSTUVWXYZabcdefghijklmnopqrstuvwxyz0123456789-_".

(** [enc.encode[v & 0x3F]] *)
Definition sextet (v : N) : ascii :=
  match String.get (N.to_nat (N.land v 63)) encodeURL with
  | Some c => c
  | None => "A"%char
  end.

(** [base64.RawURLEncoding.EncodeToString]: three bytes give four
    characters; a remainder of one or two bytes gives two or three, with no
    padding. *)
Fixpoint EncodeToString (src : list Byte.byte) : string :=
  match src with
  | [] => ""
  | [a] =>
      let val := N.shiftl (Byte.to_N a) 16 in
      String (sextet (N.shiftr val 18)) (String (sextet (N.shiftr val 12)) "")
  | [a; b] =>
      let val := N.lor (N.shiftl (Byte.to_N a) 16) (N.shiftl (Byte.to_N b) 8) in
      String (sextet (N.shiftr val 18))
        (String (sextet (N.shiftr val 12)) (String (sextet (N.shiftr val 6)) ""))
  | a :: b :: c :: rest =>
      let val := N.lor (N.lor (N.shiftl (Byte.to_N a) 16) (N.shiftl (Byte.to_N b) 8))
                       (Byte.to_N c) in
      String (sextet (N.shiftr val 18))
        (String (sextet (N.shiftr val 12))
           (String (sextet (N.shiftr val 6))
              (String (sextet val) (EncodeToString rest))))
  end.

(** [generateStreamKey]; [random] is the outcome of [rand.Read] on a buffer
    of 32 bytes: the bytes read, or the error. *)
Definition generateStreamKey (random : result (list Byte.byte)) : result string :=
  match random with
  | Err err => Err err
  | Ok bytes => Ok (String.append "sk_" (EncodeToString bytes))
  end.

Module CreateRequest.
Record t : Type := mk {
  BroadcasterID : UUID;
  ExpiresAt : option Time
}.
End CreateRequest.

(** [StreamKeyService.Create] with the outcome of [rand.Read], the draws of
    [uuid.New()] made by the service and (for a nil id) by the repository,
    and the Go clock reading. *)
Definition StreamKeyService_Create (random : result (list Byte.byte)) (entropy entropy' : nat)
    (now : Time) (req : CreateRequest.t) : Eff (result StreamKey.t) :=
  match generateStreamKey random with
  | Err err => ret (Err (Wrap "failed to generate stream key" err))
  | Ok keyValue =>
      let key := StreamKey.mk (uuid_New entropy) keyValue (CreateRequest.BroadcasterID req)
                   StreamKeyStatusActive now (CreateRequest.ExpiresAt req) None None in
      e <- StreamKeyRepo_Create entropy' key ;;
      match e with
      | Some err => ret (Err err)
      | None => log LevelInfo "stream key created" ;;; ret (Ok key)
      end
  end.

Definition StreamKeyService_GetByID (id : UUID) : Eff (result StreamKey.t) :=
  StreamKeyRepo_GetByID id.

(** What a handler writes: a problem document, or [WriteJSON(w, status, v)]. *)
Inductive Reply (A : Type) : Type :=
| ReplyError (r : Response.t)
| ReplyJSON (status : nat) (v : A).

Arguments ReplyError {A} r.
Arguments ReplyJSON {A} status v.

(** [StreamKeyHandler.getStreamKey]; [id] is the outcome of
    [uuid.Parse(idStr)]. *)
Definition StreamKeyHandler_getStreamKey (urlPath : string) (id : option UUID)
    : Eff (Reply StreamKey.t) :=
  match id with
  | None => ret (ReplyError (WriteError urlPath (ErrInvalidRequest "invalid stream key ID")))
  | Some id' =>
      r <- StreamKeyService_GetByID id' ;;
      match r with
      | Err err => ret (ReplyError (WriteError urlPath (MapDomainError err)))
      | Ok key => ret (ReplyJSON StatusOK (StreamKey.with_KeyValue "" key))
      end
  end.

(* ================================================================== *)
(** * internal/service: listing active streams *)
(* ================================================================== *)

(** [ORDER BY started_at DESC] *)
Fixpoint insert_by_started_at_desc (s : Stream.t) (l : list Stream.t) : list Stream.t :=
  match l with
  | [] => [s]
  | h :: t =>
      if (Stream.StartedAt h <? Stream.StartedAt s)%Z then s :: l
      else h :: insert_by_started_at_desc s t
  end.

Definition order_by_started_at_desc (l : list Stream.t) : list Stream.t :=
  fold_right insert_by_started_at_desc [] l.

Definition StreamRepo_ListActive : Eff (result (list Stream.t)) :=
  query SelectActiveStreams
        (fun db => Ok (order_by_started_at_desc (filter Stream.is_active (streams db)))).

Record StreamURLs : Type := mkStreamURLs {
  HLS : string;
  WebRTC : string
}.

Record StreamWithURLs : Type := mkStreamWithURLs {
  Stream_ : Stream.t;
  URLs : StreamURLs
}.

(** [fmt.Sprintf("%s/%s/index.m3u8", c.publicURL, path)] *)
Definition MediaMTXClient_GetHLSURL (publicURL path : string) : string :=
  String.append publicURL (String.append "/" (String.append path "/index.m3u8")).

(** [fmt.Sprintf("%s/%s/whep", c.publicURL, path)] *)
Definition MediaMTXClient_GetWebRTCURL (publicURL path : string) : string :=
  String.append publicURL (String.append "/" (String.append path "/whep")).

Definition with_urls (publicURL : string) (stream : Stream.t) : StreamWithURLs :=
  mkStreamWithURLs stream
    (mkStreamURLs (MediaMTXClient_GetHLSURL publicURL (Stream.Path stream))
                  (MediaMTXClient_GetWebRTCURL publicURL (Stream.Path stream))).

Definition StreamService_ListActive (publicURL : string) : Eff (result (list StreamWithURLs)) :=
  r <- StreamRepo_ListActive ;;
  match r with
  | Err err => ret (Err err)
  | Ok streams => ret (Ok (map (with_urls publicURL) streams))
  end.

Definition StreamService_GetByID (publicURL : string) (id : UUID) : Eff (result StreamWithURLs) :=
  r <- StreamRepo_GetByID id ;;
  match r with
  | Err err => ret (Err err)
  | Ok stream => ret (Ok (with_urls publicURL stream))
  end.

(** [StreamHandler.listStreams]: the streams and their count. *)
Definition StreamHandler_listStreams (publicURL urlPath : string)
    : Eff (Reply (list StreamWithURLs * nat)) :=
  r <- StreamService_ListActive publicURL ;;
  match r with
  | Err _ =>
      log LevelError "failed to list streams" ;;;
      ret (ReplyError (WriteError urlPath (ErrInternalServer "failed to list streams")))
  | Ok streams => ret (ReplyJSON StatusOK (streams, List.length streams))
  end.

(** [StreamHandler.getStream]; [id] is the outcome of [uuid.Parse(idStr)]. *)
Definition StreamHandler_getStream (publicURL urlPath : string) (id : option UUID)
    : Eff (Reply StreamWithURLs) :=
  match id with
  | None => ret (ReplyError (WriteError urlPath (ErrInvalidRequest "invalid stream ID")))
  | Some id' =>
      r <- StreamService_GetByID publicURL id' ;;
      match r with
      | Err err => ret (ReplyError (WriteError urlPath (MapDomainError err)))
      | Ok stream => ret (ReplyJSON StatusOK stream)
      end
  end.

(* ================================================================== *)
(** * internal/database and internal/service: deleting broadcasters *)
(* ================================================================== *)

Definition BroadcasterRepo_Delete (id : UUID) : Eff (option error) :=
  r <- Exec (DeleteBroadcaster id) ;;
  match r with
  | Err e => ret (Some (Wrap "failed to delete broadcaster" e))
  | Ok n => if Nat.eqb n 0 then ret (Some (Domain ErrNotFound)) else ret None
  end.

Definition BroadcasterService_Delete (id : UUID) : Eff (option error) :=
  e <- BroadcasterRepo_Delete id ;;
  match e with
  | Some err => ret (Some err)
  | None => log LevelInfo "broadcaster deleted" ;;; ret None
  end.

(** The order of a listing: no later row is newer than an earlier one. *)
Definition newer_first (a b : Stream.t) : Prop :=
  (Stream.StartedAt b <= Stream.StartedAt a)%Z.

Definition newer_key_first (a b : StreamKey.t) : Prop :=
  (StreamKey.CreatedAt b <= StreamKey.CreatedAt a)%Z.

(* ================================================================== *)
(** * internal/handler: key stores and the HMAC middleware *)
(* ================================================================== *)

(** [KeyStore.GetSecret]: the secret, or [None] for a non-nil error (the
    middleware only tests the error against nil). *)
Definition KeyStore : Type := string -> option string.

Definition StaticKeyStore_GetSecret (apiKey secret : string) : KeyStore :=
  fun presented => if String.eqb presented apiKey then Some secret else None.

Definition EnvKeyStore_GetSecret (secret : string) : KeyStore :=
  fun presented => if String.eqb presented "" then None else Some secret.

Definition is_digit (c : ascii) : bool :=
  (48 <=? nat_of_ascii c) && (nat_of_ascii c <=? 57).

(** The loop of [strconv.ParseUint] in base 10, without its overflow
    check: every character must be a decimal digit. *)
Fixpoint parse_digits (s : string) (acc : Z) : option Z :=
  match s with
  | EmptyString => Some acc
  | String c r =>
      if is_digit c
      then parse_digits r (10 * acc + Z.of_nat (nat_of_ascii c - 48))
      else None
  end.

(** [strconv.ParseInt(s, 10, 64)]: an optional sign, at least one digit,
    and a value that fits in 64 bits; [None] for a syntax or range error. *)
Definition ParseInt (s : string) : option Z :=
  match s with
  | EmptyString => None
  | String c r =>
      let neg := Ascii.eqb c "-" in
      let digits := if Ascii.eqb c "+" || Ascii.eqb c "-" then r else s in
      match digits with
      | EmptyString => None
      | _ =>
          match parse_digits digits 0 with
          | None => None
          | Some un =>
              if neg
              then (if (un <=? 2 ^ 63)%Z then Some (- un)%Z else None)
              else (if (un <? 2 ^ 63)%Z then Some un else None)
          end
      end
  end.

(** The verb [%d] of [fmt.Sprintf] on an [int64]. *)
Definition format_int (z : Z) : string := NilZero.string_of_int (Z.to_int z).

(** [MaxTimestampDrift], five minutes, in nanoseconds. *)
Definition MaxTimestampDrift : Z := 5 * 60 * 1000000000.

(** A [time.Duration] saturates at the ends of the 64-bit range. *)
Definition saturate (d : Z) : Z := Z.max (- 2 ^ 63) (Z.min d (2 ^ 63 - 1)).

(** [time.Since(time.Unix(timestamp, 0))] when the clock reads
    [nowUnixNano] nanoseconds since the epoch. *)
Definition since_unix (nowUnixNano timestamp : Z) : Z :=
  saturate (nowUnixNano - timestamp * 1000000000).

(** A request to a protected route as the middleware reads it: the three
    headers ([Header.Get] gives the empty string for an absent header) and
    the outcome of [io.ReadAll(r.Body)]. *)
Module SignedRequest.
Record t : Type := mk {
  Method : string;
  URLPath : string;
  XAPIKey : string;
  XSignature : string;
  XTimestamp : string;
  Body : option string
}.
End SignedRequest.

(** What the middleware does with a request: answer it with a problem
    document, or hand it to the next handler with the API key in its
    context and its body restored. *)
Inductive Verdict : Type :=
| Refused (status : nat) (title detail instance : string)
| Forwarded (apiKey body : string).

Definition newline : string := String (ascii_of_nat 10) "".

Section Middleware.

(** [hex.EncodeToString] of the HMAC-SHA256 of a message under a secret. *)
Variable hmac_sha256_hex : string -> string -> string.

(** [fmt.Sprintf("%s\n%s\n%d\n%s", method, path, timestamp, body)] *)
Definition stringToSign (method path : string) (timestamp : Z) (body : string) : string :=
  String.append method
    (String.append newline
       (String.append path
          (String.append newline
             (String.append (format_int timestamp) (String.append newline body))))).

(** [AuthMiddleware.Authenticate]; log records are left out. *)
Definition AuthMiddleware_Authenticate (keyStore : KeyStore) (nowUnixNano : Z)
    (r : SignedRequest.t) : Verdict :=
  let apiKey := SignedRequest.XAPIKey r in
  let signature := SignedRequest.XSignature r in
  let timestampStr := SignedRequest.XTimestamp r in
  let refuse := fun detail =>
    Refused StatusUnauthorized "Unauthorized" detail (SignedRequest.URLPath r) in
  if String.eqb apiKey "" || String.eqb signature "" || String.eqb timestampStr ""
  then refuse "Missing authentication headers (X-API-Key, X-Signature, X-Timestamp)"
  else
    match ParseInt timestampStr with
    | None => refuse "Invalid timestamp format"
    | Some timestamp =>
        let timeDiff := since_unix nowUnixNano timestamp in
        if (timeDiff <? - MaxTimestampDrift)%Z || (MaxTimestampDrift <? timeDiff)%Z
        then refuse "Request timestamp is too old or in the future"
        else
          match keyStore apiKey with
          | None => refuse "Invalid API key"
          | Some secret =>
              match SignedRequest.Body r with
              | None =>
                  Refused StatusInternalServerError "Internal Server Error"
                    "Failed to read request body" (SignedRequest.URLPath r)
              | Some bodyBytes =>
                  let expectedSignature :=
                    hmac_sha256_hex secret
                      (stringToSign (SignedRequest.Method r) (SignedRequest.URLPath r)
                         timestamp bodyBytes) in
                  if negb (String.eqb signature expectedSignature)
                  then refuse "Invalid signature"
                  else Forwarded apiKey bodyBytes
              end
          end
    end.

End Middleware.


(* ================================================================== *)
(** * internal/handler: routing of the webhook endpoints *)
(* ================================================================== *)

(** [strings.HasSuffix]:
    [len(s) >= len(suffix) && s[len(s)-len(suffix):] == suffix]. *)
Definition HasSuffix (s suffix : string) : bool :=
  (String.length suffix <=? String.length s) &&
  String.eqb (substring (String.length s - String.length suffix) (String.length suffix) s)
             suffix.

(** A request to [/webhook/...] as [WebhookHandler.ServeHTTP] reads it:
    [Route] is [None] when [mux.CurrentRoute] is nil and [Some None] when
    [GetPathTemplate] fails; the body is given by what each of the two
    handlers decodes from it. *)
Module WebhookRequest.
Record t : Type := mk {
  Method : string;
  URLPath : string;
  Route : option (option string);
  AsReady : option WebhookReadyRequest.t;
  AsNotReady : option WebhookNotReadyRequest.t
}.
End WebhookRequest.

(** The chain of suffix tests that [ServeHTTP] applies to the path
    template, or to the URL path when there is no route. *)
Definition route_by_suffix (now dbnow : Time) (entropy entropy' : nat)
    (r : WebhookRequest.t) (path : string) : Eff Response.t :=
  if HasSuffix path "/ready"
  then WebhookHandler_handleReady now entropy entropy'
         (Request.mk (WebhookRequest.Method r) (WebhookRequest.URLPath r)
                     (WebhookRequest.AsReady r))
  else if HasSuffix path "/not-ready"
  then WebhookHandler_handleNotReady dbnow
         (Request.mk (WebhookRequest.Method r) (WebhookRequest.URLPath r)
                     (WebhookRequest.AsNotReady r))
  else ret (WriteError (WebhookRequest.URLPath r) (ErrNotFound_ "unknown webhook endpoint")).

(** [WebhookHandler.ServeHTTP] *)
Definition WebhookHandler_ServeHTTP (now dbnow : Time) (entropy entropy' : nat)
    (r : WebhookRequest.t) : Eff Response.t :=
  if negb (String.eqb (WebhookRequest.Method r) "POST")
  then ret (WriteError (WebhookRequest.URLPath r) (ErrInvalidRequest "method not allowed"))
  else
    match WebhookRequest.Route r with
    | None => route_by_suffix now dbnow entropy entropy' r (WebhookRequest.URLPath r)
    | Some None =>
        ret (WriteError (WebhookRequest.URLPath r)
               (ErrInternalServer "failed to get route template"))
    | Some (Some path) => route_by_suffix now dbnow entropy entropy' r path
    end.

(* ================================================================== *)
(** * Further sample data *)
(* ================================================================== *)

(** The stream of [key_live] after it ended at instant 250. *)
Definition stream_done : Stream.t := Stream.ended 250%Z stream_live.

Definition db_done : DB := mkDB [alpha] [key_live; key_old; key_gone] [stream_done].

(** Thirty-two bytes as [rand.Read] may return them. *)
Definition zero_bytes : list Byte.byte := repeat Byte.x00 32.

Definition create_request : CreateRequest.t := CreateRequest.mk 1 None.

(** A stand-in for the MAC in examples; the middleware only compares what
    the MAC returns. *)
Definition sample_mac (secret message : string) : string :=
  String.append secret (String.append ":" message).

(** The clock one minute after the Unix second 1700000000. *)
Definition sample_clock : Z := 1700000060 * 1000000000.

(* ================================================================== *)
(** * Facts about rows and WHERE clauses *)
(* ================================================================== *)

Section Rows.
Context {A : Type}.
Implicit Types (p q : A -> bool) (f : A -> A) (l : list A).

Lemma update_where_none p f l :
  (forall x, In x l -> p x = false) -> update_where p f l = l.
Proof.
  induction l as [|a l IH]; intros H; simpl; [reflexivity|].
  rewrite (H a (or_introl eq_refl)). f_equal. apply IH.
  intros x Hx. apply H. now right.
Qed.

Lemma map_update_where {B : Type} (g : A -> B) p f l :
  (forall x, g (f x) = g x) -> map g (update_where p f l) = map g l.
Proof.
  intros H. unfold update_where. rewrite map_map. apply map_ext.
  intros a. destruct (p a); auto.
Qed.

Lemma In_update_where p f l y :
  In y (update_where p f l) ->
  exists x, In x l /\ y = (if p x then f x else x).
Proof.
  unfold update_where. rewrite in_map_iff. intros [x [E I]]. eauto.
Qed.

Lemma filter_update_where_length p q f l :
  (forall x, q (f x) = false) ->
  List.length (filter q (update_where p f l)) <= List.length (filter q l).
Proof.
  intros H. induction l as [|a l IH]; simpl; [lia|].
  destruct (p a).
  - rewrite H. destruct (q a); simpl; lia.
  - destruct (q a); simpl; lia.
Qed.

Lemma filter_filter_length p q l :
  List.length (filter q (filter p l)) <= List.length (filter q l).
Proof.
  induction l as [|a l IH]; simpl; [lia|].
  destruct (p a); simpl; destruct (q a); simpl; lia.
Qed.

Lemma filter_nil_iff p l :
  filter p l = [] <-> (forall x, In x l -> p x = false).
Proof.
  induction l as [|a l IH]; simpl.
  - split; [intros _ x []|reflexivity].
  - destruct (p a) eqn:E.
    + split; [discriminate|]. intros H. rewrite (H a (or_introl eq_refl)) in E. discriminate.
    + rewrite IH. split.
      * intros H x [<-|Hx]; auto.
      * intros H x Hx. apply H. now right.
Qed.

Lemma existsb_false_filter p l : existsb p l = false -> filter p l = [].
Proof.
  intros H. apply filter_nil_iff. intros x Hx.
  destruct (p x) eqn:E; [|reflexivity].
  assert (existsb p l = true) by (apply existsb_exists; eauto). congruence.
Qed.

Lemma find_none_filter p l : find p l = None -> filter p l = [].
Proof.
  intros H. apply filter_nil_iff. intros x Hx. exact (find_none p l H x Hx).
Qed.

Lemma find_some_rows_affected p l x : find p l = Some x -> rows_affected p l <> 0.
Proof.
  unfold rows_affected. intros H. apply find_some in H as [I P].
  induction l as [|a l IH]; simpl in *; [contradiction|].
  destruct I as [->|I].
  - rewrite P. simpl. lia.
  - destruct (p a); simpl; [lia|auto].
Qed.

(** With at most one selected row, two selected rows are the same row. *)
Lemma selected_unique p l x y :
  List.length (filter p l) <= 1 ->
  In x l -> p x = true -> In y l -> p y = true -> x = y.
Proof.
  intros H Ix Px Iy Py.
  assert (Fx : In x (filter p l)) by (apply filter_In; auto).
  assert (Fy : In y (filter p l)) by (apply filter_In; auto).
  destruct (filter p l) as [|a [|b r]]; simpl in *; try lia; try contradiction.
  destruct Fx as [<-|[]], Fy as [<-|[]]. reflexivity.
Qed.

Lemma NoDup_map_filter {B : Type} (g : A -> B) p l :
  NoDup (map g l) -> NoDup (map g (filter p l)).
Proof.
  induction l as [|a l IH]; simpl; intros H; [constructor|].
  inversion H as [|? ? N D]; subst.
  destruct (p a); simpl; auto.
  constructor; auto.
  intros I. apply N. apply in_map_iff in I as [x [E F]].
  apply filter_In in F as [F _]. apply in_map_iff. eauto.
Qed.

Lemma NoDup_map_snoc {B : Type} (g : A -> B) l a :
  NoDup (map g l) -> ~ In (g a) (map g l) -> NoDup (map g (l ++ [a])).
Proof.
  intros D N. rewrite map_app. simpl.
  apply NoDup_app; auto.
  - repeat constructor. intros [].
  - intros x I [<-|[]]. contradiction.
Qed.

(** A primary key selects the row that carries it. *)
Lemma find_by_key (g : A -> nat) l x :
  NoDup (map g l) -> In x l -> find (fun y => Nat.eqb (g y) (g x)) l = Some x.
Proof.
  induction l as [|a l IH]; simpl; intros D I; [contradiction|].
  inversion D as [|? ? N D']; subst.
  destruct I as [->|I].
  - now rewrite Nat.eqb_refl.
  - destruct (Nat.eqb (g a) (g x)) eqn:E; auto.
    apply Nat.eqb_eq in E. exfalso. apply N. rewrite E. now apply in_map.
Qed.

Lemma find_update_where p q f l :
  (forall x, q (f x) = q x) ->
  find q (update_where p f l) = option_map (fun x => if p x then f x else x) (find q l).
Proof.
  intros H. induction l as [|a l IH]; simpl; [reflexivity|].
  destruct (p a) eqn:P.
  - rewrite H. destruct (q a); simpl; [now rewrite P|exact IH].
  - destruct (q a); simpl; [now rewrite P|exact IH].
Qed.

End Rows.

Lemma mem_uuid_false x l : mem_uuid x l = false -> ~ In x l.
Proof.
  unfold mem_uuid. intros H I.
  assert (existsb (Nat.eqb x) l = true).
  { apply existsb_exists. exists x. split; auto. apply Nat.eqb_refl. }
  congruence.
Qed.

Lemma key_value_absent v (l : list StreamKey.t) :
  existsb (key_has_value v) l = false -> ~ In v (map StreamKey.KeyValue l).
Proof.
  intros H I. apply in_map_iff in I as [k [E I]].
  assert (existsb (key_has_value v) l = true).
  { apply existsb_exists. exists k. split; auto.
    unfold key_has_value. rewrite E. apply String.eqb_refl. }
  congruence.
Qed.

Lemma ended_not_active dbnow s : Stream.is_active (Stream.ended dbnow s) = false.
Proof. reflexivity. Qed.

Lemma ended_not_active_of_key keyID dbnow s :
  active_of_key keyID (Stream.ended dbnow s) = false.
Proof. unfold active_of_key. rewrite ended_not_active. apply andb_false_r. Qed.

Lemma ended_not_active_on_path path dbnow s :
  active_on_path path (Stream.ended dbnow s) = false.
Proof. unfold active_on_path. rewrite ended_not_active. apply andb_false_r. Qed.

Lemma ended_not_active_with_id id dbnow s :
  active_with_id id (Stream.ended dbnow s) = false.
Proof. unfold active_with_id. rewrite ended_not_active. apply andb_false_r. Qed.

(* ================================================================== *)
(** * Every statement preserves the declared constraints *)
(* ================================================================== *)

Lemma constraints_hold_empty : constraints_hold empty_db.
Proof.
  split; simpl; [constructor|constructor|constructor|].
  intros keyID. unfold active_count. simpl. lia.
Qed.

(** Statements that leave [stream_keys] and [streams] alone. *)
Lemma constraints_hold_same_tables db db' :
  stream_keys db' = stream_keys db -> streams db' = streams db ->
  constraints_hold db -> constraints_hold db'.
Proof.
  intros K S [H1 H2 H3 H4]. split; try (rewrite ?K, ?S; assumption).
  intros keyID. unfold active_count. rewrite S. apply H4.
Qed.

(** Updates of [stream_keys] keep [id] and [key_value]. *)
Lemma constraints_hold_update_keys db p f :
  (forall k, StreamKey.ID (f k) = StreamKey.ID k) ->
  (forall k, StreamKey.KeyValue (f k) = StreamKey.KeyValue k) ->
  constraints_hold db ->
  constraints_hold (mkDB (broadcasters db) (update_where p f (stream_keys db)) (streams db)).
Proof.
  intros I V [H1 H2 H3 H4]. split; simpl.
  - now rewrite map_update_where.
  - now rewrite map_update_where.
  - assumption.
  - exact H4.
Qed.

(** Ending streams keeps [id] and cannot add an active row. *)
Lemma constraints_hold_end_streams db p dbnow :
  constraints_hold db ->
  constraints_hold (mkDB (broadcasters db) (stream_keys db)
                         (update_where p (Stream.ended dbnow) (streams db))).
Proof.
  intros [H1 H2 H3 H4]. split; simpl; try assumption.
  - now rewrite map_update_where.
  - intros keyID. unfold active_count. simpl.
    eapply Nat.le_trans; [|apply (H4 keyID)].
    apply filter_update_where_length. intros x. apply ended_not_active_of_key.
Qed.

Lemma constraints_hold_delete_broadcaster db id :
  constraints_hold db -> constraints_hold (delete_broadcaster id db).
Proof.
  intros [H1 H2 H3 H4]. unfold delete_broadcaster. split; simpl.
  - now apply NoDup_map_filter.
  - now apply NoDup_map_filter.
  - now apply NoDup_map_filter.
  - intros keyID. unfold active_count. simpl.
    eapply Nat.le_trans; [apply filter_filter_length|apply (H4 keyID)].
Qed.

Lemma constraints_hold_insert_stream_key db k :
  insert_stream_key_violation k db = None ->
  constraints_hold db ->
  constraints_hold (mkDB (broadcasters db) (stream_keys db ++ [inserted_stream_key k]) (streams db)).
Proof.
  unfold insert_stream_key_violation. intros V [H1 H2 H3 H4].
  destruct (negb (varchar 64 (StreamKey.KeyValue k))); [discriminate|].
  destruct (mem_uuid (StreamKey.ID k) (map StreamKey.ID (stream_keys db))) eqn:M; [discriminate|].
  destruct (existsb (key_has_value (StreamKey.KeyValue k)) (stream_keys db)) eqn:E; [discriminate|].
  split; simpl; try assumption.
  - apply NoDup_map_snoc; auto. simpl. now apply mem_uuid_false.
  - apply NoDup_map_snoc; auto. simpl. now apply key_value_absent.
Qed.

(** The partial unique index at work: an active row is accepted only when
    its stream key has no active row yet. *)
Lemma constraints_hold_insert_stream db s :
  insert_stream_violation s db = None ->
  constraints_hold db ->
  constraints_hold (mkDB (broadcasters db) (stream_keys db) (streams db ++ [inserted_stream s])).
Proof.
  unfold insert_stream_violation. intros V [H1 H2 H3 H4].
  destruct (negb (varchar 255 (Stream.Path s))); [discriminate|].
  destruct (negb (varchar_opt 50 (Stream.SourceType s))); [discriminate|].
  destruct (negb (varchar_opt 255 (Stream.SourceID s))); [discriminate|].
  destruct (mem_uuid (Stream.ID s) (map Stream.ID (streams db))) eqn:M; [discriminate|].
  destruct (Stream.is_active s && existsb (active_of_key (Stream.StreamKeyID s)) (streams db))
    eqn:U; [discriminate|].
  split; simpl; try assumption.
  - apply NoDup_map_snoc; auto. simpl. now apply mem_uuid_false.
  - intros keyID. unfold active_count. simpl.
    rewrite filter_app, length_app. simpl.
    destruct (active_of_key keyID (inserted_stream s)) eqn:Act; simpl.
    + unfold active_of_key in Act. simpl in Act.
      apply andb_true_iff in Act as [K Act]. apply Nat.eqb_eq in K. subst keyID.
      unfold Stream.is_active in Act, U. simpl in Act. rewrite Act in U. simpl in U.
      rewrite (existsb_false_filter _ _ U). simpl. lia.
    + specialize (H4 keyID). unfold active_count in H4. lia.
Qed.

Lemma exec_preserves_constraints w db :
  constraints_hold db -> constraints_hold (snd (exec w db)).
Proof.
  intros H. destruct w; simpl.
  - destruct (insert_broadcaster_violation b db); simpl; auto.
    now apply (constraints_hold_same_tables db).
  - destruct (negb (varchar 255 display_name)); simpl; auto.
    now apply (constraints_hold_same_tables db).
  - now apply constraints_hold_delete_broadcaster.
  - destruct (insert_stream_key_violation k db) eqn:V; simpl; auto.
    now apply constraints_hold_insert_stream_key.
  - now apply constraints_hold_update_keys.
  - now apply constraints_hold_update_keys.
  - now apply constraints_hold_update_keys.
  - destruct (insert_stream_violation s db) eqn:V; simpl; auto.
    now apply constraints_hold_insert_stream.
  - now apply constraints_hold_end_streams.
  - now apply constraints_hold_end_streams.
Qed.

Lemma steps_preserve_constraints db db' :
  steps db db' -> constraints_hold db -> constraints_hold db'.
Proof.
  intros S C. induction S; auto using exec_preserves_constraints.
Qed.

Lemma steps_trans db1 db2 db3 : steps db1 db2 -> steps db2 db3 -> steps db1 db3.
Proof.
  intros H12 H23. induction H23; auto. now apply steps_exec.
Qed.

(* ================================================================== *)
(** * Operations change the store only through statements *)
(* ================================================================== *)

Lemma stepwise_ret {A : Type} (a : A) : stepwise (ret a).
Proof. intros db. apply steps_refl. Qed.

Lemma stepwise_log lvl msg : stepwise (log lvl msg).
Proof. intros db. apply steps_refl. Qed.

Lemma stepwise_mtx_call c : stepwise (mtx_call c).
Proof. intros db. apply steps_refl. Qed.

Lemma stepwise_query {A : Type} q (answer : DB -> A) : stepwise (query q answer).
Proof. intros db. apply steps_refl. Qed.

Lemma stepwise_Exec w : stepwise (Exec w).
Proof.
  intros db. unfold Exec, store.
  pose proof (steps_exec db w db (steps_refl db)) as H.
  destruct (exec w db) as [r db1]. exact H.
Qed.

Lemma stepwise_bind {A B : Type} (m : Eff A) (f : A -> Eff B) :
  stepwise m -> (forall a, stepwise (f a)) -> stepwise (bind m f).
Proof.
  intros Hm Hf db. unfold bind, store.
  specialize (Hm db). unfold store in Hm.
  destruct (m db) as [[a db1] t1]. simpl in Hm.
  specialize (Hf a db1). unfold store in Hf.
  destruct (f a db1) as [[b db2] t2]. simpl in *.
  eapply steps_trans; eauto.
Qed.

Lemma stepwise_BeginFunc {A : Type} (f : Eff (result A)) :
  stepwise f -> stepwise (BeginFunc f).
Proof.
  intros Hf db. unfold BeginFunc, store.
  specialize (Hf db). unfold store in Hf.
  destruct (f db) as [[[a|e] db1] t]; simpl in *; [assumption|apply steps_refl].
Qed.

Ltac stepwise_step :=
  first
    [ apply stepwise_ret
    | apply stepwise_log
    | apply stepwise_mtx_call
    | apply stepwise_query
    | apply stepwise_Exec
    | apply stepwise_BeginFunc
    | apply stepwise_bind; [|intros ?]
    | match goal with
      | |- stepwise (match ?x with _ => _ end) => destruct x
      end ].

Ltac stepwise_auto := repeat stepwise_step.

Lemma stepwise_kick_matching kick call failed kicked path items :
  stepwise (kick_matching kick call failed kicked path items).
Proof.
  induction items as [|conn rest IH]; simpl; [apply stepwise_ret|].
  apply stepwise_bind; [|intros _; exact IH].
  stepwise_auto.
Qed.

Lemma stepwise_KickPath c path : stepwise (MediaMTXClient_KickPath c path).
Proof.
  unfold MediaMTXClient_KickPath, kick_listed.
  repeat first [apply stepwise_kick_matching | stepwise_step].
Qed.

Lemma stepwise_Revoke c now dbnow id : stepwise (StreamKeyService_Revoke c now dbnow id).
Proof.
  unfold StreamKeyService_Revoke, revoke_key, StreamKeyRepo_GetByID,
    StreamRepo_GetActiveByStreamKeyID, StreamRepo_EndStream, StreamKeyRepo_UpdateStatus.
  repeat first [apply stepwise_KickPath | stepwise_step].
Qed.

Lemma stepwise_Authenticate now dbnow req : stepwise (AuthService_Authenticate now dbnow req).
Proof.
  unfold AuthService_Authenticate, authenticate_tx, AuthService_getAndLockStreamKey,
    AuthService_getActiveStreamByKeyID.
  stepwise_auto.
Qed.

Lemma stepwise_List : stepwise StreamKeyService_List.
Proof.
  unfold StreamKeyService_List, StreamKeyRepo_ListAll. stepwise_auto.
Qed.

Lemma stepwise_run_operation op : stepwise (run_operation op).
Proof.
  destruct op; simpl.
  - unfold AuthHandler_ServeHTTP.
    repeat first [apply stepwise_Authenticate | stepwise_step].
  - unfold WebhookHandler_handleReady, StreamKeyRepo_GetByKeyValue, StreamRepo_Create.
    stepwise_auto.
  - unfold WebhookHandler_handleNotReady, StreamRepo_EndStreamByPath.
    stepwise_auto.
  - unfold StreamKeyHandler_revokeStreamKey.
    repeat first [apply stepwise_Revoke | stepwise_step].
  - unfold StreamKeyHandler_listStreamKeys.
    repeat first [apply stepwise_List | stepwise_step].
Qed.

Lemma reachable_constraints_hold db : reachable db -> constraints_hold db.
Proof.
  induction 1 as [|w db R IH|op db R IH].
  - apply constraints_hold_empty.
  - now apply exec_preserves_constraints.
  - eapply steps_preserve_constraints; [apply stepwise_run_operation|exact IH].
Qed.

(** C1. At every reachable store, whatever the sequence of whole operations
    (admission checks, ready and not-ready webhooks, revocations) and of
    single statements interleaved between them, each stream key is
    referenced by at most one stream whose status is active.  The proof
    rests on the partial unique index checked by the store at every insert,
    not on the checks the services make. *)
Theorem one_active_stream_per_key :
  forall db, reachable db -> forall keyID, active_count keyID db <= 1.
Proof.
  intros db R. exact (idx_streams_one_active_per_key db (reachable_constraints_hold db R)).
Qed.

Lemma reachable_db_idle : reachable db_idle.
Proof.
  exact (reach_exec (UpdateStreamKeyStatus 9 StreamKeyStatusRevoked (Some 130%Z)) _
          (reach_exec (InsertStreamKey (StreamKey.with_Status StreamKeyStatusActive key_gone)) _
            (reach_exec (InsertStreamKey key_old) _
              (reach_exec (InsertStreamKey key_live) _
                (reach_exec (InsertBroadcaster alpha) _ reach_empty))))).
Qed.

Lemma reachable_db_live : reachable db_live.
Proof.
  exact (reach_run (OpReady 200%Z 20 0 (ready_request "sk_live" "rtmpConn" "c1")) _
          reachable_db_idle).
Qed.

Lemma one_active_stream_per_key_witness :
  active_count 7 db_live = 1 /\ active_count 7 db_live <= 1.
Proof.
  split; [reflexivity|].
  apply one_active_stream_per_key. exact reachable_db_live.
Defined.

(* ================================================================== *)
(** * Running computations *)
(* ================================================================== *)

Lemma bind_value {A B : Type} (m : Eff A) (f : A -> Eff B) db :
  value (bind m f db) = value (f (value (m db)) (store (m db))).
Proof.
  unfold bind, value, store. destruct (m db) as [[a db1] t1]. simpl.
  destruct (f a db1) as [[b db2] t2]. reflexivity.
Qed.

Lemma bind_store {A B : Type} (m : Eff A) (f : A -> Eff B) db :
  store (bind m f db) = store (f (value (m db)) (store (m db))).
Proof.
  unfold bind, value, store. destruct (m db) as [[a db1] t1]. simpl.
  destruct (f a db1) as [[b db2] t2]. reflexivity.
Qed.

Lemma bind_events {A B : Type} (m : Eff A) (f : A -> Eff B) db :
  events (bind m f db) = events (m db) ++ events (f (value (m db)) (store (m db))).
Proof.
  unfold bind, value, store, events. destruct (m db) as [[a db1] t1]. simpl.
  destruct (f a db1) as [[b db2] t2]. reflexivity.
Qed.

Lemma rows_affected_selected {A : Type} (p : A -> bool) l x :
  In x l -> p x = true -> Nat.eqb (rows_affected p l) 0 = false.
Proof.
  intros I P. apply Nat.eqb_neq. unfold rows_affected.
  induction l as [|a l IH]; simpl in *; [contradiction|].
  destruct I as [->|I].
  - rewrite P. simpl. lia.
  - destruct (p a); simpl; [lia|auto].
Qed.

Lemma kick_matching_store kick call failed kicked path items db :
  store (kick_matching kick call failed kicked path items db) = db.
Proof.
  revert db. induction items as [|conn rest IH]; intros db; simpl; [reflexivity|].
  rewrite bind_store, IH.
  destruct (Conn.Path conn) as [p|], (Conn.Id conn) as [i|]; try reflexivity.
  destruct (String.eqb p path); [|reflexivity].
  rewrite bind_store. destruct (kick i); reflexivity.
Qed.

Lemma kick_listed_store listing kick call list_failed failed kicked path db :
  store (kick_listed listing kick call list_failed failed kicked path db) = db.
Proof.
  unfold kick_listed. destruct listing as [[j]|e]; simpl; [|reflexivity].
  destruct j as [[i]|]; simpl; [|reflexivity].
  destruct i as [items|]; [|reflexivity].
  apply kick_matching_store.
Qed.

(** [KickPath] returns nil whatever MediaMTX answers, and does not touch
    the store. *)
Lemma KickPath_returns_nil c path db :
  value (MediaMTXClient_KickPath c path db) = None /\
  store (MediaMTXClient_KickPath c path db) = db.
Proof.
  unfold MediaMTXClient_KickPath. split.
  - rewrite !bind_value. reflexivity.
  - rewrite !bind_store. simpl. rewrite !kick_listed_store. reflexivity.
Qed.

Lemma ret_value {A : Type} (a : A) db : value (ret a db) = a.
Proof. reflexivity. Qed.

Lemma ret_store {A : Type} (a : A) db : store (ret a db) = db.
Proof. reflexivity. Qed.

Lemma ret_events {A : Type} (a : A) db : events (ret a db) = [].
Proof. reflexivity. Qed.

Lemma log_store lvl msg db : store (log lvl msg db) = db.
Proof. reflexivity. Qed.

Lemma log_events lvl msg db : events (log lvl msg db) = [EvLog lvl msg].
Proof. reflexivity. Qed.

Lemma query_value {A : Type} q (answer : DB -> A) db : value (query q answer db) = answer db.
Proof. reflexivity. Qed.

Lemma query_store {A : Type} q (answer : DB -> A) db : store (query q answer db) = db.
Proof. reflexivity. Qed.

Lemma query_events {A : Type} q (answer : DB -> A) db : events (query q answer db) = [EvRead q].
Proof. reflexivity. Qed.

Lemma Exec_value w db : value (Exec w db) = fst (exec w db).
Proof. unfold Exec, value. destruct (exec w db). reflexivity. Qed.

Lemma Exec_store w db : store (Exec w db) = snd (exec w db).
Proof. unfold Exec, store. destruct (exec w db). reflexivity. Qed.

Lemma Exec_events w db : events (Exec w db) = [EvWrite w].
Proof. unfold Exec, events. destruct (exec w db). reflexivity. Qed.

Lemma BeginFunc_value {A : Type} (f : Eff (result A)) db :
  value (BeginFunc f db) = value (f db).
Proof.
  unfold BeginFunc, value. destruct (f db) as [[[a|e] db1] t]; reflexivity.
Qed.

Lemma BeginFunc_store {A : Type} (f : Eff (result A)) db :
  store (BeginFunc f db) =
  match value (f db) with
  | Ok _ => store (f db)
  | Err _ => db
  end.
Proof.
  unfold BeginFunc, value, store. destruct (f db) as [[[a|e] db1] t]; reflexivity.
Qed.

Lemma BeginFunc_events {A : Type} (f : Eff (result A)) db :
  events (BeginFunc f db) =
  EvBegin :: events (f db) ++
    [match value (f db) with
     | Ok _ => EvCommit
     | Err _ => EvRollback
     end].
Proof.
  unfold BeginFunc, value, events. destruct (f db) as [[[a|e] db1] t]; reflexivity.
Qed.

Create Rewrite HintDb run.

#[local] Hint Rewrite @bind_value @bind_store @bind_events @ret_value @ret_store @ret_events
  log_store log_events @query_value @query_store @query_events
  Exec_value Exec_store Exec_events
  @BeginFunc_value @BeginFunc_store @BeginFunc_events : run.

Ltac run :=
  repeat (progress (autorewrite with run;
                    cbn [exec fst snd stream_keys streams broadcasters];
                    cbv beta iota)).

Lemma Revoke_live_run c now dbnow id db key s :
  find (key_has_id id) (stream_keys db) = Some key ->
  StreamKey.Status key = StreamKeyStatusActive ->
  find (active_of_key id) (streams db) = Some s ->
  let out := StreamKeyService_Revoke c now dbnow id db in
  value out = None /\
  store out =
    mkDB (broadcasters db)
         (update_where (key_has_id id)
            (fun k => StreamKey.with_RevokedAt (Some now)
                        (StreamKey.with_Status StreamKeyStatusRevoked k))
            (stream_keys db))
         (update_where (active_with_id (Stream.ID s)) (Stream.ended dbnow) (streams db)) /\
  events out =
    [EvRead (SelectStreamKeyByID id); EvRead (SelectActiveStreamByStreamKeyID id);
     EvLog LevelInfo "terminating active stream due to key revocation"] ++
    events (MediaMTXClient_KickPath c (Stream.Path s) db) ++
    [EvWrite (UpdateEndStream (Stream.ID s) dbnow);
     EvWrite (UpdateStreamKeyStatus id StreamKeyStatusRevoked (Some now));
     EvLog LevelInfo "stream key revoked"].
Proof.
  intros Hk Hs Ha.
  pose proof (KickPath_returns_nil c (Stream.Path s) db) as [Kv Ks].
  assert (R1 : (rows_affected (active_with_id (Stream.ID s)) (streams db) =? 0) = false).
  { apply find_some in Ha as [I P]. apply (rows_affected_selected _ _ s I).
    unfold active_of_key in P. unfold active_with_id.
    apply andb_true_iff in P as [_ P]. now rewrite Nat.eqb_refl. }
  assert (R2 : (rows_affected (key_has_id id) (stream_keys db) =? 0) = false).
  { apply find_some in Hk as [I P]. exact (rows_affected_selected _ _ key I P). }
  unfold StreamKeyService_Revoke, revoke_key, StreamKeyRepo_GetByID,
    StreamRepo_GetActiveByStreamKeyID, StreamRepo_EndStream, StreamKeyRepo_UpdateStatus,
    scan_row.
  cbv zeta. run. rewrite Hk. run. rewrite Hs. cbn [negb StreamKeyStatus_eqb]. run.
  rewrite Ha. run. rewrite Kv, Ks. run. rewrite R1. run. rewrite R2. run.
  repeat split.
Qed.

(** C3. Revoking an active stream key that has a live stream ends that
    stream (status ended, [ended_at] set), marks the key revoked with its
    revocation time and returns no error, for every behaviour of MediaMTX,
    failures of every list and kick request included: [KickPath] itself
    never returns an error.  The list request that starts the disconnect is
    among the requests issued.  Stated for stores that satisfy the
    uniqueness constraints of the migration. *)
Theorem revoke_ends_live_stream :
  forall (c : MediaMTX) (now dbnow : Time) (id : UUID) (db : DB)
         (key : StreamKey.t) (s : Stream.t),
    constraints_hold db ->
    find (key_has_id id) (stream_keys db) = Some key ->
    StreamKey.Status key = StreamKeyStatusActive ->
    find (active_of_key id) (streams db) = Some s ->
    let out := StreamKeyService_Revoke c now dbnow id db in
    value (MediaMTXClient_KickPath c (Stream.Path s) db) = None /\
    value out = None /\
    find (stream_has_id (Stream.ID s)) (streams (store out)) = Some (Stream.ended dbnow s) /\
    Stream.Status (Stream.ended dbnow s) = StreamStatusEnded /\
    Stream.EndedAt (Stream.ended dbnow s) = Some dbnow /\
    active_count id (store out) = 0 /\
    find (key_has_id id) (stream_keys (store out)) =
      Some (StreamKey.mk (StreamKey.ID key) (StreamKey.KeyValue key)
              (StreamKey.BroadcasterID key) StreamKeyStatusRevoked (StreamKey.CreatedAt key)
              (StreamKey.ExpiresAt key) (Some now) (StreamKey.LastUsedAt key)) /\
    In (EvMtx RtmpConnsList) (events out).
Proof.
  intros c now dbnow id db key s C Hk Hs Ha out.
  destruct (Revoke_live_run c now dbnow id db key s Hk Hs Ha) as [Rv [Rs Re]].
  fold out in Rv, Rs, Re.
  destruct C as [_ _ Pk One].
  pose proof (find_some _ _ Ha) as [Is Ps].
  assert (Act : Stream.is_active s = true).
  { unfold active_of_key in Ps. now apply andb_true_iff in Ps. }
  split; [apply KickPath_returns_nil|].
  split; [exact Rv|].
  rewrite Rs. cbn [streams stream_keys].
  split.
  { rewrite find_update_where by reflexivity.
    unfold stream_has_id. rewrite (find_by_key Stream.ID _ s Pk Is). cbn [option_map].
    unfold active_with_id. now rewrite Nat.eqb_refl, Act. }
  split; [reflexivity|]. split; [reflexivity|].
  split.
  { unfold active_count. cbn [streams].
    apply length_zero_iff_nil, filter_nil_iff. intros y Iy.
    apply In_update_where in Iy as [x [Ix ->]].
    destruct (active_with_id (Stream.ID s) x) eqn:W.
    - apply ended_not_active_of_key.
    - destruct (active_of_key id x) eqn:P; [|reflexivity].
      assert (x = s).
      { apply (selected_unique (active_of_key id) (streams db)); auto. apply One. }
      subst x. unfold active_with_id in W. rewrite Nat.eqb_refl, Act in W. discriminate. }
  split.
  { rewrite find_update_where by reflexivity. rewrite Hk. cbn [option_map].
    apply find_some in Hk as [_ P]. rewrite P.
    unfold StreamKey.with_RevokedAt, StreamKey.with_Status. reflexivity. }
  rewrite Re. apply in_or_app. right. apply in_or_app. left.
  unfold MediaMTXClient_KickPath. rewrite bind_events. left. reflexivity.
Qed.

(** C6. Revoking a stream key whose status is not active returns
    [ErrInvalidStatus], which the handler answers with 400 "Invalid status
    transition"; the store is left as it was and only the key was read. *)
Theorem revoke_rejects_inactive_key :
  forall (c : MediaMTX) (now dbnow : Time) (urlPath : string) (id : UUID) (db : DB)
         (key : StreamKey.t),
    find (key_has_id id) (stream_keys db) = Some key ->
    StreamKey.Status key <> StreamKeyStatusActive ->
    let out := StreamKeyService_Revoke c now dbnow id db in
    let resp := StreamKeyHandler_revokeStreamKey c now dbnow urlPath (Some id) db in
    value out = Some (Domain ErrInvalidStatus) /\
    store out = db /\
    events out = [EvRead (SelectStreamKeyByID id)] /\
    value resp = WriteError urlPath (ErrInvalidRequest "Invalid status transition") /\
    store resp = db.
Proof.
  intros c now dbnow urlPath id db key Hk Hs out resp.
  assert (E : negb (StreamKeyStatus_eqb (StreamKey.Status key) StreamKeyStatusActive) = true).
  { destruct (StreamKey.Status key); try reflexivity. contradiction. }
  assert (R : value out = Some (Domain ErrInvalidStatus) /\ store out = db /\
              events out = [EvRead (SelectStreamKeyByID id)]).
  { subst out. unfold StreamKeyService_Revoke, StreamKeyRepo_GetByID, scan_row.
    run. rewrite Hk. run. rewrite E. run. auto. }
  destruct R as [Rv [Rs Re]].
  repeat split; auto.
  - subst resp. unfold StreamKeyHandler_revokeStreamKey. run.
    fold out. rewrite Rv. run. reflexivity.
  - subst resp. unfold StreamKeyHandler_revokeStreamKey. run.
    fold out. rewrite Rv, Rs. run. reflexivity.
Qed.

(** What [Authenticate] does with a publish request that carries a key:
    the result, the store afterwards and the statements issued, by cases on
    the stream key found and on its active stream. *)
Lemma Authenticate_publish_run now dbnow req db :
  AuthRequest.Action req = "publish" ->
  request_key_value req <> "" ->
  let kv := request_key_value req in
  let lock := EvRead (SelectStreamKeyByKeyValue kv true) in
  AuthService_Authenticate now dbnow req db =
  match find (key_has_value kv) (stream_keys db) with
  | None => (Ok (reject "invalid stream key"), db, [EvBegin; lock; EvCommit])
  | Some key =>
      match StreamKey.Status key with
      | StreamKeyStatusRevoked =>
          (Ok (reject "stream key revoked"), db, [EvBegin; lock; EvCommit])
      | StreamKeyStatusExpired =>
          (Ok (reject "stream key expired"), db, [EvBegin; lock; EvCommit])
      | StreamKeyStatusActive =>
          if expired_at now key
          then (Ok (reject "stream key expired"),
                mkDB (broadcasters db)
                     (update_where (key_has_id (StreamKey.ID key))
                        (StreamKey.with_Status StreamKeyStatusExpired) (stream_keys db))
                     (streams db),
                [EvBegin; lock; EvWrite (UpdateStreamKeyExpired (StreamKey.ID key)); EvCommit])
          else
            let active := EvRead (SelectActiveStreamByStreamKeyID (StreamKey.ID key)) in
            match find (active_of_key (StreamKey.ID key)) (streams db) with
            | Some _ =>
                (Ok (reject "stream key already in use"), db, [EvBegin; lock; active; EvCommit])
            | None =>
                (Ok (AuthResult.mk true (Some (StreamKey.ID key)) "authentication successful"),
                 mkDB (broadcasters db)
                      (update_where (key_has_id (StreamKey.ID key))
                         (StreamKey.with_LastUsedAt (Some dbnow)) (stream_keys db))
                      (streams db),
                 [EvBegin; lock; active;
                  EvWrite (UpdateStreamKeyLastUsed (StreamKey.ID key) dbnow);
                  EvLog LevelInfo "stream key authenticated"; EvCommit])
            end
      end
  end.
Proof.
  intros Ha Hk kv lock. subst lock.
  unfold AuthService_Authenticate. rewrite Ha. cbn [String.eqb Ascii.eqb Bool.eqb negb].
  fold kv. destruct (String.eqb_spec kv "") as [E|_]; [contradiction|].
  unfold BeginFunc, authenticate_tx, AuthService_getAndLockStreamKey,
    AuthService_getActiveStreamByKeyID, bind, query, Exec, log, ret, scan_row.
  destruct (find (key_has_value kv) (stream_keys db)) as [key|]; [|reflexivity].
  destruct (StreamKey.Status key); try reflexivity.
  cbn [StreamKeyStatus_eqb].
  destruct (expired_at now key); [reflexivity|].
  destruct (find (active_of_key (StreamKey.ID key)) (streams db)); reflexivity.
Qed.

Lemma expired_at_true now key :
  expired_at now key = true <->
  exists e, StreamKey.ExpiresAt key = Some e /\ (e < now)%Z.
Proof.
  unfold expired_at, After. destruct (StreamKey.ExpiresAt key) as [e|]; split.
  - intros H. exists e. split; auto. now apply Z.ltb_lt.
  - intros [e' [E L]]. inversion E; subst. now apply Z.ltb_lt.
  - discriminate.
  - intros [e [E _]]. discriminate.
Qed.

Lemma Authenticate_non_publish_run now dbnow req db :
  AuthRequest.Action req <> "publish" ->
  AuthService_Authenticate now dbnow req db =
  (Ok (AuthResult.mk true None "non-publish action allowed"), db, []).
Proof.
  intros H. unfold AuthService_Authenticate.
  destruct (String.eqb_spec (AuthRequest.Action req) "publish"); [contradiction|reflexivity].
Qed.

Lemma Authenticate_missing_key_run now dbnow req db :
  AuthRequest.Action req = "publish" ->
  request_key_value req = "" ->
  AuthService_Authenticate now dbnow req db = (Ok (reject "missing stream key"), db, []).
Proof.
  intros Ha Hk. unfold AuthService_Authenticate. rewrite Ha, Hk. reflexivity.
Qed.

(** [Authenticate] returns a result, never an error, and a rejection
    carries one of five reasons. *)
Lemma Authenticate_returns now dbnow req db :
  exists res, value (AuthService_Authenticate now dbnow req db) = Ok res /\
    (AuthResult.Allowed res = false ->
     In (AuthResult.Reason res)
        ["missing stream key"; "invalid stream key"; "stream key revoked";
         "stream key expired"; "stream key already in use"]).
Proof.
  destruct (String.eqb_spec (AuthRequest.Action req) "publish") as [Ha|Ha].
  - destruct (String.eqb_spec (request_key_value req) "") as [Hk|Hk].
    + rewrite Authenticate_missing_key_run by assumption.
      eexists. split; [reflexivity|]. intros _. simpl. auto.
    + rewrite Authenticate_publish_run by assumption. cbv zeta.
      destruct (find _ (stream_keys db)) as [key|].
      * destruct (StreamKey.Status key).
        -- destruct (expired_at now key).
           ++ eexists. split; [reflexivity|]. intros _. simpl. auto.
           ++ destruct (find _ (streams db)).
              ** eexists. split; [reflexivity|]. intros _. simpl. auto 6.
              ** eexists. split; [reflexivity|]. discriminate.
        -- eexists. split; [reflexivity|]. intros _. simpl. auto.
        -- eexists. split; [reflexivity|]. intros _. simpl. auto.
      * eexists. split; [reflexivity|]. intros _. simpl. auto.
  - rewrite Authenticate_non_publish_run by assumption.
    eexists. split; [reflexivity|]. discriminate.
Qed.

(** C2, as the code has it.  A publish request that is admitted (key found,
    active, not expired, no active stream) sets the key's [last_used_at] to
    the store's clock inside the transaction, commits and returns an
    admission carrying the key id.  It inserts no stream: the streams table
    is unchanged and the key still has no active stream afterwards.  (The
    stream row is inserted later, by the ready webhook.) *)
Theorem authenticate_admit_updates_last_used :
  forall (now dbnow : Time) (req : AuthRequest.t) (db : DB) (key : StreamKey.t),
    AuthRequest.Action req = "publish" ->
    request_key_value req <> "" ->
    find (key_has_value (request_key_value req)) (stream_keys db) = Some key ->
    StreamKey.Status key = StreamKeyStatusActive ->
    expired_at now key = false ->
    find (active_of_key (StreamKey.ID key)) (streams db) = None ->
    let out := AuthService_Authenticate now dbnow req db in
    value out = Ok (AuthResult.mk true (Some (StreamKey.ID key)) "authentication successful") /\
    find (key_has_value (request_key_value req)) (stream_keys (store out)) =
      Some (StreamKey.with_LastUsedAt (Some dbnow) key) /\
    stream_keys (store out) =
      update_where (key_has_id (StreamKey.ID key))
        (StreamKey.with_LastUsedAt (Some dbnow)) (stream_keys db) /\
    streams (store out) = streams db /\
    broadcasters (store out) = broadcasters db /\
    active_count (StreamKey.ID key) (store out) = 0 /\
    events out =
      [EvBegin; EvRead (SelectStreamKeyByKeyValue (request_key_value req) true);
       EvRead (SelectActiveStreamByStreamKeyID (StreamKey.ID key));
       EvWrite (UpdateStreamKeyLastUsed (StreamKey.ID key) dbnow);
       EvLog LevelInfo "stream key authenticated"; EvCommit].
Proof.
  intros now dbnow req db key Ha Hk Hf Hs He Hn out. subst out.
  rewrite Authenticate_publish_run by assumption. cbv zeta.
  rewrite Hf, Hs, He, Hn. unfold value, store, events. cbn [fst snd stream_keys streams broadcasters].
  repeat split.
  - rewrite find_update_where by reflexivity. rewrite Hf. cbn [option_map].
    unfold key_has_id. now rewrite Nat.eqb_refl.
  - unfold active_count. cbn [streams]. now rewrite (find_none_filter _ _ Hn).
Qed.

(** C5. A publish request for a key that is active but whose expiry lies in
    the past is rejected with "stream key expired", and the same
    transaction that locked the key sets its status to expired and commits.
    No other rejection issues a write or changes the store. *)
Theorem authenticate_marks_expired :
  (forall (now dbnow : Time) (req : AuthRequest.t) (db : DB) (key : StreamKey.t) (e : Time),
      AuthRequest.Action req = "publish" ->
      request_key_value req <> "" ->
      find (key_has_value (request_key_value req)) (stream_keys db) = Some key ->
      StreamKey.Status key = StreamKeyStatusActive ->
      StreamKey.ExpiresAt key = Some e ->
      (e < now)%Z ->
      let out := AuthService_Authenticate now dbnow req db in
      value out = Ok (reject "stream key expired") /\
      find (key_has_value (request_key_value req)) (stream_keys (store out)) =
        Some (StreamKey.with_Status StreamKeyStatusExpired key) /\
      store out =
        mkDB (broadcasters db)
             (update_where (key_has_id (StreamKey.ID key))
                (StreamKey.with_Status StreamKeyStatusExpired) (stream_keys db))
             (streams db) /\
      events out =
        [EvBegin; EvRead (SelectStreamKeyByKeyValue (request_key_value req) true);
         EvWrite (UpdateStreamKeyExpired (StreamKey.ID key)); EvCommit]) /\
  (forall (now dbnow : Time) (req : AuthRequest.t) (db : DB) (res : AuthResult.t),
      let out := AuthService_Authenticate now dbnow req db in
      value out = Ok res ->
      AuthResult.Allowed res = false ->
      existsb is_write_event (events out) = true \/ store out <> db ->
      exists key e,
        find (key_has_value (request_key_value req)) (stream_keys db) = Some key /\
        StreamKey.Status key = StreamKeyStatusActive /\
        StreamKey.ExpiresAt key = Some e /\ (e < now)%Z).
Proof.
  split.
  - intros now dbnow req db key e Ha Hk Hf Hs He Hlt out. subst out.
    assert (X : expired_at now key = true) by (apply expired_at_true; eauto).
    rewrite Authenticate_publish_run by assumption. cbv zeta.
    rewrite Hf, Hs, X. unfold value, store, events. cbn [fst snd stream_keys].
    repeat split.
    rewrite find_update_where by reflexivity. rewrite Hf. cbn [option_map].
    unfold key_has_id. now rewrite Nat.eqb_refl.
  - intros now dbnow req db res out Hv Hr Hw. subst out.
    destruct (String.eqb_spec (AuthRequest.Action req) "publish") as [Ha|Ha].
    + destruct (String.eqb_spec (request_key_value req) "") as [Hk|Hk].
      * rewrite Authenticate_missing_key_run in Hw by assumption.
        destruct Hw as [Hw|Hw]; [discriminate|now elim Hw].
      * rewrite Authenticate_publish_run in Hv, Hw by assumption. cbv zeta in Hv, Hw.
        destruct (find _ (stream_keys db)) as [key|];
          [|destruct Hw as [Hw|Hw]; [discriminate|now elim Hw]].
        destruct (StreamKey.Status key) eqn:Hs;
          try (destruct Hw as [Hw|Hw]; [discriminate|now elim Hw]).
        destruct (expired_at now key) eqn:X.
        -- apply expired_at_true in X as [e [He Hlt]]. exists key, e. auto.
        -- destruct (find _ (streams db)).
           ++ destruct Hw as [Hw|Hw]; [discriminate|now elim Hw].
           ++ unfold value in Hv. cbn in Hv. inversion Hv; subst res. discriminate.
    + rewrite Authenticate_non_publish_run in Hv by assumption.
      unfold value in Hv. cbn in Hv. inversion Hv; subst res. discriminate.
Qed.

(** C9. A request whose action is not "publish" is admitted with the
    reason "non-publish action allowed", whatever credential it carries; the
    store is unchanged and no statement, read or write, is sent to it. *)
Theorem non_publish_admitted_without_store_access :
  forall (now dbnow : Time) (req : AuthRequest.t) (urlPath : string) (db : DB),
    AuthRequest.Action req <> "publish" ->
    AuthService_Authenticate now dbnow req db =
      (Ok (AuthResult.mk true None "non-publish action allowed"), db, []) /\
    AuthHandler_ServeHTTP now dbnow (Request.mk "POST" urlPath (Some req)) db =
      (WriteHeader StatusOK, db, []).
Proof.
  intros now dbnow req urlPath db H. split.
  - now apply Authenticate_non_publish_run.
  - unfold AuthHandler_ServeHTTP. cbn [Request.Method Request.Body String.eqb Ascii.eqb Bool.eqb negb].
    unfold bind. rewrite Authenticate_non_publish_run by assumption. reflexivity.
Qed.

(** C8. Every rejected admission check gets the same answer: status 401
    with no body, whether the key was missing, unknown, revoked, expired or
    already in use; two rejected requests cannot be told apart by their
    responses. *)
Theorem rejections_are_uniform :
  forall (now1 dbnow1 now2 dbnow2 : Time) (url1 url2 : string)
         (req1 req2 : AuthRequest.t) (db1 db2 : DB) (res1 res2 : AuthResult.t),
    value (AuthService_Authenticate now1 dbnow1 req1 db1) = Ok res1 ->
    AuthResult.Allowed res1 = false ->
    value (AuthService_Authenticate now2 dbnow2 req2 db2) = Ok res2 ->
    AuthResult.Allowed res2 = false ->
    let resp1 := value (AuthHandler_ServeHTTP now1 dbnow1 (Request.mk "POST" url1 (Some req1)) db1) in
    let resp2 := value (AuthHandler_ServeHTTP now2 dbnow2 (Request.mk "POST" url2 (Some req2)) db2) in
    resp1 = Response.mk StatusUnauthorized NoBody /\
    resp1 = resp2 /\
    In (AuthResult.Reason res1)
       ["missing stream key"; "invalid stream key"; "stream key revoked";
        "stream key expired"; "stream key already in use"].
Proof.
  assert (R : forall now dbnow url req db res,
             value (AuthService_Authenticate now dbnow req db) = Ok res ->
             AuthResult.Allowed res = false ->
             value (AuthHandler_ServeHTTP now dbnow (Request.mk "POST" url (Some req)) db) =
             Response.mk StatusUnauthorized NoBody).
  { intros now dbnow url req db res Hv Hr. unfold AuthHandler_ServeHTTP.
    cbn [Request.Method Request.Body String.eqb Ascii.eqb Bool.eqb negb].
    run. rewrite Hv. run. rewrite Hr. cbn [negb]. run. reflexivity. }
  intros now1 dbnow1 now2 dbnow2 url1 url2 req1 req2 db1 db2 res1 res2 V1 A1 V2 A2 resp1 resp2.
  subst resp1 resp2.
  rewrite (R _ _ _ _ _ _ V1 A1), (R _ _ _ _ _ _ V2 A2).
  repeat split.
  destruct (Authenticate_returns now1 dbnow1 req1 db1) as [res [E I]].
  rewrite V1 in E. inversion E; subst res. auto.
Qed.

(** The stream record built by [handleReady] for a stream key. *)
Lemma handleReady_run now entropy entropy' r req db :
  Request.Body r = Some req ->
  WebhookReadyRequest.Path req <> "" ->
  let out := WebhookHandler_handleReady now entropy entropy' r db in
  value out = WriteHeader StatusNoContent /\
  store out =
    match find (key_has_value (WebhookReadyRequest.Path req)) (stream_keys db) with
    | None => db
    | Some key =>
        let stream :=
          Stream.mk (uuid_New entropy) (StreamKey.ID key) (WebhookReadyRequest.Path req)
            StreamStatusActive now None (non_empty (WebhookReadyRequest.SourceType req))
            (non_empty (WebhookReadyRequest.SourceID req)) [] None in
        match insert_stream_violation stream db with
        | Some _ => db
        | None => mkDB (broadcasters db) (stream_keys db) (streams db ++ [stream])
        end
    end.
Proof.
  intros Hb Hp out. subst out.
  unfold WebhookHandler_handleReady. rewrite Hb.
  destruct (String.eqb_spec (WebhookReadyRequest.Path req) "") as [E|_]; [contradiction|].
  unfold StreamKeyRepo_GetByKeyValue, StreamRepo_Create, scan_row.
  cbn [Stream.ID uuid_New uuid_Nil Nat.eqb]. run.
  destruct (find _ (stream_keys db)) as [key|]; run; [|split; reflexivity].
  destruct (insert_stream_violation _ db); run; split; reflexivity.
Qed.

Lemma streams_fkey_of_found v id (l : list StreamKey.t) key :
  find (key_has_value v) l = Some key -> id = StreamKey.ID key ->
  mem_uuid id (map StreamKey.ID l) = true.
Proof.
  intros H ->. apply find_some in H as [I _].
  unfold mem_uuid. apply existsb_exists. exists (StreamKey.ID key).
  split; [now apply in_map|apply Nat.eqb_refl].
Qed.

(** C4, as the code has it.  A ready notification with a non-empty path is
    always answered with 204.  When no stream key has that value the store
    is unchanged.  When a stream key has it, the handler inserts a new
    stream for that key (active, started now, on the notified path, with
    the non-empty source descriptors): if the key already has an active
    stream the store rejects the insert and nothing changes, the
    descriptors being attached to no existing row; if it has none, and the
    drawn id is unused and the values fit their columns, the row is added. *)
Theorem ready_inserts_stream_unless_active :
  forall (now : Time) (entropy entropy' : nat) (r : Request.t WebhookReadyRequest.t)
         (req : WebhookReadyRequest.t) (db : DB),
    Request.Body r = Some req ->
    WebhookReadyRequest.Path req <> "" ->
    let out := WebhookHandler_handleReady now entropy entropy' r db in
    value out = WriteHeader StatusNoContent /\
    (find (key_has_value (WebhookReadyRequest.Path req)) (stream_keys db) = None ->
     store out = db) /\
    (forall key,
        find (key_has_value (WebhookReadyRequest.Path req)) (stream_keys db) = Some key ->
        (existsb (active_of_key (StreamKey.ID key)) (streams db) = true -> store out = db) /\
        (existsb (active_of_key (StreamKey.ID key)) (streams db) = false ->
         mem_uuid (uuid_New entropy) (map Stream.ID (streams db)) = false ->
         varchar 255 (WebhookReadyRequest.Path req) = true ->
         varchar 50 (WebhookReadyRequest.SourceType req) = true ->
         varchar 255 (WebhookReadyRequest.SourceID req) = true ->
         store out =
           mkDB (broadcasters db) (stream_keys db)
                (streams db ++
                   [Stream.mk (uuid_New entropy) (StreamKey.ID key)
                      (WebhookReadyRequest.Path req) StreamStatusActive now None
                      (non_empty (WebhookReadyRequest.SourceType req))
                      (non_empty (WebhookReadyRequest.SourceID req)) [] None]))).
Proof.
  intros now entropy entropy' r req db Hb Hp out.
  destruct (handleReady_run now entropy entropy' r req db Hb Hp) as [Hv Hs].
  fold out in Hv, Hs. split; [exact Hv|]. split.
  - intros Hn. now rewrite Hs, Hn.
  - intros key Hf. rewrite Hs, Hf. cbv zeta.
    unfold insert_stream_violation.
    cbn [Stream.Path Stream.SourceType Stream.SourceID Stream.ID Stream.StreamKeyID
         Stream.is_active Stream.Status StreamStatus_eqb andb].
    split.
    + intros Act. rewrite Act.
      destruct (negb (varchar 255 (WebhookReadyRequest.Path req))); [reflexivity|].
      destruct (negb (varchar_opt 50 _)); [reflexivity|].
      destruct (negb (varchar_opt 255 _)); [reflexivity|].
      destruct (mem_uuid _ _); reflexivity.
    + intros Act Fresh Vp Vt Vi. rewrite Act, Fresh, Vp.
      rewrite (streams_fkey_of_found _ _ _ _ Hf eq_refl).
      assert (Vt' : varchar_opt 50 (non_empty (WebhookReadyRequest.SourceType req)) = true).
      { unfold non_empty. destruct (String.eqb _ ""); [reflexivity|exact Vt]. }
      assert (Vi' : varchar_opt 255 (non_empty (WebhookReadyRequest.SourceID req)) = true).
      { unfold non_empty. destruct (String.eqb _ ""); [reflexivity|exact Vi]. }
      rewrite Vt', Vi'. reflexivity.
Qed.

Lemma handleNotReady_run dbnow r req db :
  Request.Body r = Some req ->
  WebhookNotReadyRequest.Path req <> "" ->
  let path := WebhookNotReadyRequest.Path req in
  let out := WebhookHandler_handleNotReady dbnow r db in
  value out = WriteHeader StatusNoContent /\
  store out =
    mkDB (broadcasters db) (stream_keys db)
         (update_where (active_on_path path) (Stream.ended dbnow) (streams db)) /\
  events out =
    [EvLog LevelInfo "stream not-ready webhook received";
     EvWrite (UpdateEndStreamByPath path dbnow);
     if rows_affected (active_on_path path) (streams db) =? 0
     then EvLog LevelWarn "no active stream found for path"
     else EvLog LevelInfo "stream ended"].
Proof.
  intros Hb Hp path out. subst out path.
  unfold WebhookHandler_handleNotReady. rewrite Hb.
  destruct (String.eqb_spec (WebhookNotReadyRequest.Path req) "") as [E|_]; [contradiction|].
  unfold StreamRepo_EndStreamByPath. run.
  destruct (rows_affected _ (streams db) =? 0); run; repeat split.
Qed.

(** C7. Delivering the not-ready notification twice with the same
    (non-empty) path: the first delivery ends every active stream on that
    path, setting [ended_at]; the second changes nothing; both are answered
    with 204 and neither logs an error.  A delivery for a path with no
    active stream changes nothing either. *)
Theorem not_ready_twice_is_idempotent :
  forall (dbnow1 dbnow2 : Time) (r : Request.t WebhookNotReadyRequest.t)
         (req : WebhookNotReadyRequest.t) (db : DB),
    Request.Body r = Some req ->
    WebhookNotReadyRequest.Path req <> "" ->
    let path := WebhookNotReadyRequest.Path req in
    let out1 := WebhookHandler_handleNotReady dbnow1 r db in
    let out2 := WebhookHandler_handleNotReady dbnow2 r (store out1) in
    value out1 = WriteHeader StatusNoContent /\
    store out1 =
      mkDB (broadcasters db) (stream_keys db)
           (update_where (active_on_path path) (Stream.ended dbnow1) (streams db)) /\
    (forall s, In s (streams db) -> active_on_path path s = true ->
               In (Stream.ended dbnow1 s) (streams (store out1))) /\
    existsb is_error_log (events out1) = false /\
    value out2 = WriteHeader StatusNoContent /\
    store out2 = store out1 /\
    existsb is_error_log (events out2) = false /\
    ((forall s, In s (streams db) -> active_on_path path s = false) -> store out1 = db).
Proof.
  intros dbnow1 dbnow2 r req db Hb Hp path out1 out2.
  destruct (handleNotReady_run dbnow1 r req db Hb Hp) as [V1 [S1 E1]].
  fold path out1 in V1, S1, E1.
  destruct (handleNotReady_run dbnow2 r req (store out1) Hb Hp) as [V2 [S2 E2]].
  fold path out2 in V2, S2, E2.
  assert (Quiet : forall y, In y (streams (store out1)) -> active_on_path path y = false).
  { rewrite S1. cbn [streams]. intros y Iy.
    apply In_update_where in Iy as [x [_ ->]].
    destruct (active_on_path path x) eqn:P; [apply ended_not_active_on_path|exact P]. }
  split; [exact V1|]. split; [exact S1|]. split.
  { intros s Is Ps. rewrite S1. cbn [streams]. unfold update_where.
    apply in_map_iff. exists s. now rewrite Ps. }
  split.
  { rewrite E1. destruct (rows_affected _ (streams db) =? 0); reflexivity. }
  split; [exact V2|]. split.
  { rewrite S2. rewrite (update_where_none _ _ _ Quiet). now destruct (store out1). }
  split.
  { rewrite E2. destruct (rows_affected _ (streams (store out1)) =? 0); reflexivity. }
  intros None_. rewrite S1. rewrite (update_where_none _ _ _ None_). now destruct db.
Qed.

(** C10. Every stream key returned by [List] and by [ListByBroadcaster] has
    an empty [KeyValue], whatever is stored; both return the stored rows in
    [created_at] order with that one field cleared. *)
Theorem list_hides_key_values :
  forall (db : DB) (broadcasterID : UUID) (keys : list StreamKey.t),
    (value (StreamKeyService_List db) = Ok keys ->
     Forall (fun k => StreamKey.KeyValue k = "") keys /\
     keys = map (StreamKey.with_KeyValue "") (order_by_created_at_desc (stream_keys db))) /\
    (value (StreamKeyService_ListByBroadcaster broadcasterID db) = Ok keys ->
     Forall (fun k => StreamKey.KeyValue k = "") keys /\
     keys = map (StreamKey.with_KeyValue "")
              (order_by_created_at_desc
                 (filter (key_of_broadcaster broadcasterID) (stream_keys db)))).
Proof.
  assert (Cleared : forall l, Forall (fun k => StreamKey.KeyValue k = "")
                                (map (StreamKey.with_KeyValue "") l)).
  { intros l. apply Forall_forall. intros k I.
    apply in_map_iff in I as [x [<- _]]. reflexivity. }
  intros db broadcasterID keys. split.
  - unfold StreamKeyService_List, StreamKeyRepo_ListAll. run.
    intros H. inversion H; subst keys. split; [apply Cleared|reflexivity].
  - unfold StreamKeyService_ListByBroadcaster, StreamKeyRepo_ListByBroadcaster. run.
    intros H. inversion H; subst keys. split; [apply Cleared|reflexivity].
Qed.

(* ================================================================== *)
(** * The theorems at concrete stores *)
(* ================================================================== *)

(** C2 as stated fails: the publish request for [key_live] on a store with
    no stream is admitted, and afterwards no active stream references the
    key: the streams table is still empty. *)
Lemma authenticate_admit_creates_no_stream :
  let out := AuthService_Authenticate 300%Z 301%Z (publish "sk_live" "sk_live") db_idle in
  value out = Ok (AuthResult.mk true (Some 7) "authentication successful") /\
  streams (store out) = [] /\
  ~ (exists s, In s (streams (store out)) /\
               Stream.StreamKeyID s = 7 /\ Stream.Status s = StreamStatusActive).
Proof.
  cbv zeta. split; [reflexivity|]. split; [reflexivity|].
  intros [s [I _]]. exact I.
Qed.

Lemma authenticate_admit_updates_last_used_witness :
  let req := publish "sk_live" "sk_live" in
  let out := AuthService_Authenticate 300%Z 301%Z req db_idle in
  AuthRequest.Action req = "publish" /\
  request_key_value req <> "" /\
  find (key_has_value (request_key_value req)) (stream_keys db_idle) = Some key_live /\
  StreamKey.Status key_live = StreamKeyStatusActive /\
  expired_at 300%Z key_live = false /\
  find (active_of_key (StreamKey.ID key_live)) (streams db_idle) = None /\
  value out = Ok (AuthResult.mk true (Some 7) "authentication successful") /\
  find (key_has_value "sk_live") (stream_keys (store out)) =
    Some (StreamKey.with_LastUsedAt (Some 301%Z) key_live) /\
  streams (store out) = streams db_idle /\
  active_count 7 (store out) = 0.
Proof.
  cbv zeta.
  assert (H1 : AuthRequest.Action (publish "sk_live" "sk_live") = "publish") by reflexivity.
  assert (H2 : request_key_value (publish "sk_live" "sk_live") <> "") by discriminate.
  assert (H3 : find (key_has_value (request_key_value (publish "sk_live" "sk_live")))
                 (stream_keys db_idle) = Some key_live) by reflexivity.
  assert (H4 : StreamKey.Status key_live = StreamKeyStatusActive) by reflexivity.
  assert (H5 : expired_at 300%Z key_live = false) by reflexivity.
  assert (H6 : find (active_of_key (StreamKey.ID key_live)) (streams db_idle) = None)
    by reflexivity.
  pose proof (authenticate_admit_updates_last_used 300%Z 301%Z _ db_idle key_live
                H1 H2 H3 H4 H5 H6) as [R1 [R2 [_ [R4 [_ [R6 _]]]]]].
  split; [exact H1|]. split; [exact H2|]. split; [exact H3|]. split; [exact H4|].
  split; [exact H5|]. split; [exact H6|]. split; [exact R1|]. split; [exact R2|].
  split; [exact R4|exact R6].
Defined.

Lemma revoke_ends_live_stream_witness :
  let out := StreamKeyService_Revoke mediamtx_kick_fails 400%Z 401%Z 7 db_live in
  constraints_hold db_live /\
  find (key_has_id 7) (stream_keys db_live) = Some key_live /\
  StreamKey.Status key_live = StreamKeyStatusActive /\
  find (active_of_key 7) (streams db_live) = Some stream_live /\
  RtmpConnsKickWithResponse mediamtx_kick_fails "c1" = Some (NetError "timeout") /\
  value out = None /\
  find (stream_has_id 21) (streams (store out)) = Some (Stream.ended 401%Z stream_live) /\
  active_count 7 (store out) = 0 /\
  find (key_has_id 7) (stream_keys (store out)) =
    Some (StreamKey.mk 7 "sk_live" 1 StreamKeyStatusRevoked 100%Z None (Some 400%Z) None) /\
  In (EvMtx (RtmpConnsKick "c1")) (events out).
Proof.
  cbv zeta.
  assert (H1 : constraints_hold db_live)
    by exact (reachable_constraints_hold _ reachable_db_live).
  assert (H2 : find (key_has_id 7) (stream_keys db_live) = Some key_live) by reflexivity.
  assert (H3 : StreamKey.Status key_live = StreamKeyStatusActive) by reflexivity.
  assert (H4 : find (active_of_key 7) (streams db_live) = Some stream_live) by reflexivity.
  pose proof (revoke_ends_live_stream mediamtx_kick_fails 400%Z 401%Z 7 db_live key_live
                stream_live H1 H2 H3 H4) as [_ [R2 [R3 [_ [_ [R6 [R7 _]]]]]]].
  split; [exact H1|]. split; [exact H2|]. split; [exact H3|]. split; [exact H4|].
  split; [reflexivity|]. split; [exact R2|]. split; [exact R3|]. split; [exact R6|].
  split; [exact R7|].
  cbv. auto 10.
Defined.

(** C4 as stated fails on both counts.  With no active stream for the key,
    the ready notification changes the store: it inserts a stream.  With an
    active stream for the key, the supplied descriptors are not attached to
    it: the row keeps its empty descriptors and the store is unchanged. *)
Lemma ready_inserts_and_never_attaches :
  (let out := WebhookHandler_handleReady 200%Z 20 0 (ready_request "sk_live" "rtmp" "x") db_idle in
   find (active_of_key 7) (streams db_idle) = None /\
   value out = WriteHeader StatusNoContent /\
   streams (store out) =
     [Stream.mk 21 7 "sk_live" StreamStatusActive 200%Z None (Some "rtmp") (Some "x") [] None] /\
   store out <> db_idle) /\
  (let out := WebhookHandler_handleReady 300%Z 30 0 (ready_request "sk_live" "rtmp" "x") db_bare in
   find (active_of_key 7) (streams db_bare) = Some stream_bare /\
   value out = WriteHeader StatusNoContent /\
   store out = db_bare /\
   Stream.SourceType stream_bare = None /\ Stream.SourceID stream_bare = None).
Proof.
  cbv zeta. split.
  - split; [reflexivity|]. split; [reflexivity|]. split; [reflexivity|]. discriminate.
  - repeat split.
Qed.

Lemma ready_inserts_stream_unless_active_witness :
  let r := ready_request "sk_live" "rtmpConn" "c1" in
  let req := WebhookReadyRequest.mk "sk_live" "rtmpConn" "c1" in
  Request.Body r = Some req /\
  WebhookReadyRequest.Path req <> "" /\
  find (key_has_value "sk_live") (stream_keys db_idle) = Some key_live /\
  find (key_has_value "sk_live") (stream_keys db_live) = Some key_live /\
  store (WebhookHandler_handleReady 200%Z 20 0 r db_idle) = db_live /\
  store (WebhookHandler_handleReady 500%Z 50 0 r db_live) = db_live /\
  value (WebhookHandler_handleReady 500%Z 50 0 r db_live) = WriteHeader StatusNoContent.
Proof.
  cbv zeta.
  assert (H1 : Request.Body (ready_request "sk_live" "rtmpConn" "c1") =
               Some (WebhookReadyRequest.mk "sk_live" "rtmpConn" "c1")) by reflexivity.
  assert (H2 : WebhookReadyRequest.Path (WebhookReadyRequest.mk "sk_live" "rtmpConn" "c1") <> "")
    by discriminate.
  assert (H3 : find (key_has_value "sk_live") (stream_keys db_idle) = Some key_live)
    by reflexivity.
  assert (H4 : find (key_has_value "sk_live") (stream_keys db_live) = Some key_live)
    by reflexivity.
  pose proof (ready_inserts_stream_unless_active 200%Z 20 0 _ _ db_idle H1 H2)
    as [_ [_ Idle]].
  pose proof (ready_inserts_stream_unless_active 500%Z 50 0 _ _ db_live H1 H2)
    as [Live_v [_ Live]].
  destruct (Idle key_live H3) as [_ Ins].
  destruct (Live key_live H4) as [Rej _].
  split; [exact H1|]. split; [exact H2|]. split; [exact H3|]. split; [exact H4|].
  split; [exact (Ins eq_refl eq_refl eq_refl eq_refl eq_refl)|].
  split; [exact (Rej eq_refl)|exact Live_v].
Defined.

Lemma authenticate_marks_expired_witness :
  let req := publish "sk_old" "sk_old" in
  let out := AuthService_Authenticate 3750%Z 3751%Z req db_idle in
  AuthRequest.Action req = "publish" /\
  request_key_value req <> "" /\
  find (key_has_value (request_key_value req)) (stream_keys db_idle) = Some key_old /\
  StreamKey.Status key_old = StreamKeyStatusActive /\
  StreamKey.ExpiresAt key_old = Some 150%Z /\
  (150 < 3750)%Z /\
  value out = Ok (reject "stream key expired") /\
  find (key_has_value "sk_old") (stream_keys (store out)) =
    Some (StreamKey.with_Status StreamKeyStatusExpired key_old) /\
  existsb is_write_event (events out) = true.
Proof.
  cbv zeta.
  assert (H1 : AuthRequest.Action (publish "sk_old" "sk_old") = "publish") by reflexivity.
  assert (H2 : request_key_value (publish "sk_old" "sk_old") <> "") by discriminate.
  assert (H3 : find (key_has_value (request_key_value (publish "sk_old" "sk_old")))
                 (stream_keys db_idle) = Some key_old) by reflexivity.
  assert (H4 : StreamKey.Status key_old = StreamKeyStatusActive) by reflexivity.
  assert (H5 : StreamKey.ExpiresAt key_old = Some 150%Z) by reflexivity.
  assert (H6 : (150 < 3750)%Z) by lia.
  pose proof (proj1 authenticate_marks_expired 3750%Z 3751%Z _ db_idle key_old 150%Z
                H1 H2 H3 H4 H5 H6) as [R1 [R2 [_ R4]]].
  split; [exact H1|]. split; [exact H2|]. split; [exact H3|]. split; [exact H4|].
  split; [exact H5|]. split; [exact H6|]. split; [exact R1|]. split; [exact R2|].
  rewrite R4. reflexivity.
Defined.

Lemma revoke_rejects_inactive_key_witness :
  let out := StreamKeyService_Revoke mediamtx_down 400%Z 401%Z 9 db_idle in
  find (key_has_id 9) (stream_keys db_idle) = Some key_gone /\
  StreamKey.Status key_gone <> StreamKeyStatusActive /\
  value out = Some (Domain ErrInvalidStatus) /\
  store out = db_idle /\
  Response.StatusCode
    (value (StreamKeyHandler_revokeStreamKey mediamtx_down 400%Z 401%Z "/stream-keys/9"
              (Some 9) db_idle)) = StatusBadRequest.
Proof.
  cbv zeta.
  assert (H1 : find (key_has_id 9) (stream_keys db_idle) = Some key_gone) by reflexivity.
  assert (H2 : StreamKey.Status key_gone <> StreamKeyStatusActive) by discriminate.
  pose proof (revoke_rejects_inactive_key mediamtx_down 400%Z 401%Z "/stream-keys/9" 9
                db_idle key_gone H1 H2) as [R1 [R2 [_ [R4 _]]]].
  split; [exact H1|]. split; [exact H2|]. split; [exact R1|]. split; [exact R2|].
  exact (f_equal Response.StatusCode R4).
Defined.

Lemma not_ready_twice_is_idempotent_witness :
  let r := not_ready_request "sk_live" in
  let out1 := WebhookHandler_handleNotReady 600%Z r db_live in
  let out2 := WebhookHandler_handleNotReady 700%Z r (store out1) in
  Request.Body r = Some (WebhookNotReadyRequest.mk "sk_live") /\
  WebhookNotReadyRequest.Path (WebhookNotReadyRequest.mk "sk_live") <> "" /\
  streams (store out1) = [Stream.ended 600%Z stream_live] /\
  value out1 = WriteHeader StatusNoContent /\
  value out2 = WriteHeader StatusNoContent /\
  store out2 = store out1.
Proof.
  cbv zeta.
  assert (H1 : Request.Body (not_ready_request "sk_live") =
               Some (WebhookNotReadyRequest.mk "sk_live")) by reflexivity.
  assert (H2 : WebhookNotReadyRequest.Path (WebhookNotReadyRequest.mk "sk_live") <> "")
    by discriminate.
  pose proof (not_ready_twice_is_idempotent 600%Z 700%Z _ _ db_live H1 H2)
    as [R1 [R2 [_ [_ [R5 [R6 _]]]]]].
  split; [exact H1|]. split; [exact H2|].
  split; [rewrite R2; reflexivity|].
  split; [exact R1|]. split; [exact R5|exact R6].
Defined.

Lemma rejections_are_uniform_witness :
  let unknown := publish "sk_nope" "sk_nope" in
  let revoked := publish "" "/sk_gone" in
  value (AuthService_Authenticate 300%Z 301%Z unknown db_idle) = Ok (reject "invalid stream key") /\
  value (AuthService_Authenticate 310%Z 311%Z revoked db_live) = Ok (reject "stream key revoked") /\
  value (AuthHandler_ServeHTTP 300%Z 301%Z (Request.mk "POST" "/auth" (Some unknown)) db_idle) =
    Response.mk 401 NoBody /\
  value (AuthHandler_ServeHTTP 300%Z 301%Z (Request.mk "POST" "/auth" (Some unknown)) db_idle) =
  value (AuthHandler_ServeHTTP 310%Z 311%Z (Request.mk "POST" "/auth" (Some revoked)) db_live).
Proof.
  cbv zeta.
  assert (H1 : value (AuthService_Authenticate 300%Z 301%Z (publish "sk_nope" "sk_nope") db_idle)
               = Ok (reject "invalid stream key")) by reflexivity.
  assert (H2 : value (AuthService_Authenticate 310%Z 311%Z (publish "" "/sk_gone") db_live)
               = Ok (reject "stream key revoked")) by reflexivity.
  pose proof (rejections_are_uniform 300%Z 301%Z 310%Z 311%Z "/auth" "/auth" _ _ db_idle db_live
                _ _ H1 eq_refl H2 eq_refl) as [R1 [R2 _]].
  split; [exact H1|]. split; [exact H2|]. split; [exact R1|exact R2].
Defined.

Lemma non_publish_admitted_without_store_access_witness :
  let req := AuthRequest.mk "" "" "192.168.1.1" "read" "some-stream" "webrtc" "conn-123" "" in
  AuthRequest.Action req <> "publish" /\
  AuthService_Authenticate 300%Z 301%Z req db_live =
    (Ok (AuthResult.mk true None "non-publish action allowed"), db_live, []).
Proof.
  cbv zeta.
  assert (H : AuthRequest.Action
                (AuthRequest.mk "" "" "192.168.1.1" "read" "some-stream" "webrtc" "conn-123" "")
              <> "publish") by discriminate.
  split; [exact H|].
  exact (proj1 (non_publish_admitted_without_store_access 300%Z 301%Z _ "/auth" db_live H)).
Defined.

Lemma list_hides_key_values_witness :
  let keys := [StreamKey.with_KeyValue "" key_gone; StreamKey.with_KeyValue "" key_old;
               StreamKey.with_KeyValue "" key_live] in
  value (StreamKeyService_List db_live) = Ok keys /\
  Forall (fun k => StreamKey.KeyValue k = "") keys.
Proof.
  cbv zeta.
  assert (H : value (StreamKeyService_List db_live) =
              Ok [StreamKey.with_KeyValue "" key_gone; StreamKey.with_KeyValue "" key_old;
                  StreamKey.with_KeyValue "" key_live]) by reflexivity.
  split; [exact H|].
  exact (proj1 (proj1 (list_hides_key_values db_live 1 _) H)).
Defined.

(* ================================================================== *)
(** * Revocation: the remaining paths *)
(* ================================================================== *)

Lemma Revoke_idle_run c now dbnow id db key :
  find (key_has_id id) (stream_keys db) = Some key ->
  StreamKey.Status key = StreamKeyStatusActive ->
  find (active_of_key id) (streams db) = None ->
  StreamKeyService_Revoke c now dbnow id db =
  (None,
   mkDB (broadcasters db)
        (update_where (key_has_id id)
           (fun k => StreamKey.with_RevokedAt (Some now)
                       (StreamKey.with_Status StreamKeyStatusRevoked k))
           (stream_keys db))
        (streams db),
   [EvRead (SelectStreamKeyByID id); EvRead (SelectActiveStreamByStreamKeyID id);
    EvWrite (UpdateStreamKeyStatus id StreamKeyStatusRevoked (Some now));
    EvLog LevelInfo "stream key revoked"]).
Proof.
  intros Hk Hs Ha.
  assert (R : (rows_affected (key_has_id id) (stream_keys db) =? 0) = false).
  { apply find_some in Hk as [I P]. exact (rows_affected_selected _ _ key I P). }
  unfold StreamKeyService_Revoke, revoke_key, StreamKeyRepo_GetByID,
    StreamRepo_GetActiveByStreamKeyID, StreamKeyRepo_UpdateStatus, scan_row,
    bind, query, Exec, log, ret.
  rewrite Hk. cbn. rewrite Hs. cbn. rewrite Ha. cbn. rewrite R. reflexivity.
Qed.

Lemma Revoke_unknown_run c now dbnow id db :
  find (key_has_id id) (stream_keys db) = None ->
  StreamKeyService_Revoke c now dbnow id db =
  (Some (Domain ErrNotFound), db, [EvRead (SelectStreamKeyByID id)]).
Proof.
  intros Hk.
  unfold StreamKeyService_Revoke, StreamKeyRepo_GetByID, scan_row, bind, query, ret.
  rewrite Hk. reflexivity.
Qed.

(** X1. Revoking an active stream key that has no active stream marks the
    key revoked and returns no error without contacting MediaMTX and
    without touching the streams table: the only statements are the two
    lookups and the status update. *)
Theorem revoke_without_stream_skips_mediamtx :
  forall (c : MediaMTX) (now dbnow : Time) (id : UUID) (db : DB) (key : StreamKey.t),
    find (key_has_id id) (stream_keys db) = Some key ->
    StreamKey.Status key = StreamKeyStatusActive ->
    find (active_of_key id) (streams db) = None ->
    let out := StreamKeyService_Revoke c now dbnow id db in
    value out = None /\
    streams (store out) = streams db /\
    find (key_has_id id) (stream_keys (store out)) =
      Some (StreamKey.mk (StreamKey.ID key) (StreamKey.KeyValue key)
              (StreamKey.BroadcasterID key) StreamKeyStatusRevoked (StreamKey.CreatedAt key)
              (StreamKey.ExpiresAt key) (Some now) (StreamKey.LastUsedAt key)) /\
    events out =
      [EvRead (SelectStreamKeyByID id); EvRead (SelectActiveStreamByStreamKeyID id);
       EvWrite (UpdateStreamKeyStatus id StreamKeyStatusRevoked (Some now));
       EvLog LevelInfo "stream key revoked"].
Proof.
  intros c now dbnow id db key Hk Hs Ha out. subst out.
  rewrite (Revoke_idle_run c now dbnow id db key Hk Hs Ha).
  unfold value, store, events. cbn [fst snd streams stream_keys].
  repeat split.
  rewrite find_update_where by reflexivity. rewrite Hk. cbn [option_map].
  apply find_some in Hk as [_ P]. rewrite P. reflexivity.
Qed.

(** X2. Revoking an id that no stream key carries returns [ErrNotFound],
    answered 404; an id that does not parse is answered 400 before the
    store is consulted.  In both cases the store is unchanged and MediaMTX
    is not contacted. *)
Theorem revoke_unknown_or_malformed_id :
  forall (c : MediaMTX) (now dbnow : Time) (urlPath : string) (db : DB),
    (forall id,
        find (key_has_id id) (stream_keys db) = None ->
        StreamKeyService_Revoke c now dbnow id db =
          (Some (Domain ErrNotFound), db, [EvRead (SelectStreamKeyByID id)]) /\
        StreamKeyHandler_revokeStreamKey c now dbnow urlPath (Some id) db =
          (WriteError urlPath (ErrNotFound_ "The requested resource was not found"), db,
           [EvRead (SelectStreamKeyByID id)])) /\
    StreamKeyHandler_revokeStreamKey c now dbnow urlPath None db =
      (WriteError urlPath (ErrInvalidRequest "invalid stream key ID"), db, []).
Proof.
  intros c now dbnow urlPath db. split; [|reflexivity].
  intros id Hk. split; [now apply Revoke_unknown_run|].
  unfold StreamKeyHandler_revokeStreamKey, bind.
  rewrite (Revoke_unknown_run c now dbnow id db Hk). reflexivity.
Qed.

(* ================================================================== *)
(** * What a request may change *)
(* ================================================================== *)

Lemma unique_by_id (l : list StreamKey.t) x y :
  NoDup (map StreamKey.ID l) -> In x l -> In y l ->
  StreamKey.ID x = StreamKey.ID y -> x = y.
Proof.
  intros D Ix Iy E.
  pose proof (find_by_key StreamKey.ID l x D Ix) as Fx.
  pose proof (find_by_key StreamKey.ID l y D Iy) as Fy.
  rewrite E in Fx. congruence.
Qed.

Lemma find_by_value (l : list StreamKey.t) x :
  NoDup (map StreamKey.KeyValue l) -> In x l ->
  find (key_has_value (StreamKey.KeyValue x)) l = Some x.
Proof.
  induction l as [|a l IH]; simpl; intros D I; [contradiction|].
  inversion D as [|? ? N D']; subst.
  unfold key_has_value at 1.
  destruct I as [->|I].
  - now rewrite String.eqb_refl.
  - destruct (String.eqb_spec (StreamKey.KeyValue a) (StreamKey.KeyValue x)) as [E|_]; auto.
    exfalso. apply N. rewrite E. now apply in_map.
Qed.

Lemma Authenticate_effect now dbnow req db :
  let db' := store (AuthService_Authenticate now dbnow req db) in
  keys_effect db db' /\ streams db' = streams db.
Proof.
  cbv zeta.
  destruct (String.eqb_spec (AuthRequest.Action req) "publish") as [Ha|Ha].
  - destruct (String.eqb_spec (request_key_value req) "") as [Hk|Hk].
    + rewrite Authenticate_missing_key_run by assumption. split; [now left|reflexivity].
    + rewrite Authenticate_publish_run by assumption. cbv zeta.
      destruct (find _ (stream_keys db)) as [key|] eqn:F; [|split; [now left|reflexivity]].
      apply find_some in F as [I _].
      destruct (StreamKey.Status key) eqn:S; try (split; [now left|reflexivity]).
      destruct (expired_at now key).
      * split; [|reflexivity]. right. exists key. eexists. repeat split; eauto.
      * destruct (find _ (streams db)); [split; [now left|reflexivity]|].
        split; [|reflexivity]. right. exists key. eexists. repeat split; eauto.
  - rewrite Authenticate_non_publish_run by assumption. split; [now left|reflexivity].
Qed.

Lemma AuthHandler_store now dbnow r db :
  store (AuthHandler_ServeHTTP now dbnow r db) = db \/
  exists req, store (AuthHandler_ServeHTTP now dbnow r db) =
              store (AuthService_Authenticate now dbnow req db).
Proof.
  unfold AuthHandler_ServeHTTP.
  destruct (negb (String.eqb (Request.Method r) "POST")); [now left|].
  destruct (Request.Body r) as [req|]; [|now left].
  right. exists req. run.
  destruct (value (AuthService_Authenticate now dbnow req db)) as [res|e]; run;
    [|reflexivity].
  destruct (negb (AuthResult.Allowed res)); run; reflexivity.
Qed.

Lemma Revoke_inactive_run c now dbnow id db key :
  find (key_has_id id) (stream_keys db) = Some key ->
  StreamKey.Status key <> StreamKeyStatusActive ->
  StreamKeyService_Revoke c now dbnow id db =
  (Some (Domain ErrInvalidStatus), db, [EvRead (SelectStreamKeyByID id)]).
Proof.
  intros Hk Hs.
  unfold StreamKeyService_Revoke, StreamKeyRepo_GetByID, scan_row, bind, query, ret.
  rewrite Hk. cbn. destruct (StreamKey.Status key); try reflexivity. contradiction.
Qed.

Lemma Revoke_effect c now dbnow id db :
  let db' := store (StreamKeyService_Revoke c now dbnow id db) in
  keys_effect db db' /\ streams_effect db db'.
Proof.
  cbv zeta.
  destruct (find (key_has_id id) (stream_keys db)) as [key|] eqn:Hk.
  - pose proof (find_some _ _ Hk) as [I P]. apply Nat.eqb_eq in P.
    destruct (StreamKey.Status key) eqn:Hs.
    + assert (K : forall f, update_where (key_has_id id) f (stream_keys db) =
                            update_where (key_has_id (StreamKey.ID key)) f (stream_keys db))
        by (intros f; now rewrite P).
      destruct (find (active_of_key id) (streams db)) as [s|] eqn:Ha.
      * destruct (Revoke_live_run c now dbnow id db key s Hk Hs Ha) as [_ [S _]].
        rewrite S. cbn [stream_keys streams]. rewrite K. split.
        -- right. exists key. eexists. repeat split; eauto.
        -- right. right. exists (active_with_id (Stream.ID s)), dbnow. split; [|reflexivity].
           intros x X. unfold active_with_id in X. now apply andb_true_iff in X.
      * rewrite (Revoke_idle_run c now dbnow id db key Hk Hs Ha).
        unfold store. cbn [fst snd stream_keys streams]. rewrite K. split; [|now left].
        right. exists key. eexists. repeat split; eauto.
    + assert (N : StreamKey.Status key <> StreamKeyStatusActive) by (rewrite Hs; discriminate).
      rewrite (Revoke_inactive_run c now dbnow id db key Hk N). split; now left.
    + assert (N : StreamKey.Status key <> StreamKeyStatusActive) by (rewrite Hs; discriminate).
      rewrite (Revoke_inactive_run c now dbnow id db key Hk N). split; now left.
  - rewrite (Revoke_unknown_run c now dbnow id db Hk). split; now left.
Qed.

(** X3. A webhook notification whose body does not decode, or whose path is
    empty, is answered 400 with a problem document naming the request
    path; the store is not consulted and nothing changes. *)
Theorem webhooks_reject_malformed_notifications :
  forall (now dbnow : Time) (entropy entropy' : nat)
         (r : Request.t WebhookReadyRequest.t) (r' : Request.t WebhookNotReadyRequest.t)
         (db : DB),
    (Request.Body r = None ->
     WebhookHandler_handleReady now entropy entropy' r db =
       (WriteError (Request.URLPath r) (ErrInvalidRequest "invalid request body"), db,
        [EvLog LevelWarn "failed to decode webhook ready request"])) /\
    (forall req, Request.Body r = Some req -> WebhookReadyRequest.Path req = "" ->
     WebhookHandler_handleReady now entropy entropy' r db =
       (WriteError (Request.URLPath r) (ErrInvalidRequest "path is required"), db, [])) /\
    (Request.Body r' = None ->
     WebhookHandler_handleNotReady dbnow r' db =
       (WriteError (Request.URLPath r') (ErrInvalidRequest "invalid request body"), db,
        [EvLog LevelWarn "failed to decode webhook not-ready request"])) /\
    (forall req, Request.Body r' = Some req -> WebhookNotReadyRequest.Path req = "" ->
     WebhookHandler_handleNotReady dbnow r' db =
       (WriteError (Request.URLPath r') (ErrInvalidRequest "path is required"), db, [])).
Proof.
  intros now dbnow entropy entropy' r r' db. repeat split.
  - intros H. unfold WebhookHandler_handleReady. rewrite H. reflexivity.
  - intros req H E. unfold WebhookHandler_handleReady. rewrite H, E. reflexivity.
  - intros H. unfold WebhookHandler_handleNotReady. rewrite H. reflexivity.
  - intros req H E. unfold WebhookHandler_handleNotReady. rewrite H, E. reflexivity.
Qed.

Lemma handleReady_effect now entropy entropy' r db :
  let db' := store (WebhookHandler_handleReady now entropy entropy' r db) in
  stream_keys db' = stream_keys db /\
  (streams db' = streams db \/ exists s, streams db' = streams db ++ [s]).
Proof.
  cbv zeta.
  destruct (Request.Body r) as [req|] eqn:Hb.
  - destruct (String.eqb_spec (WebhookReadyRequest.Path req) "") as [E|N].
    + unfold WebhookHandler_handleReady. rewrite Hb, E. split; [reflexivity|now left].
    + destruct (handleReady_run now entropy entropy' r req db Hb N) as [_ S].
      rewrite S. destruct (find _ (stream_keys db)); [|split; [reflexivity|now left]].
      cbv zeta. destruct (insert_stream_violation _ db); [split; [reflexivity|now left]|].
      split; [reflexivity|]. right. eexists. reflexivity.
  - unfold WebhookHandler_handleReady. rewrite Hb. split; [reflexivity|now left].
Qed.

Lemma handleNotReady_effect dbnow r db :
  let db' := store (WebhookHandler_handleNotReady dbnow r db) in
  stream_keys db' = stream_keys db /\
  (streams db' = streams db \/
   exists path, streams db' =
                update_where (active_on_path path) (Stream.ended dbnow) (streams db)).
Proof.
  cbv zeta.
  destruct (Request.Body r) as [req|] eqn:Hb.
  - destruct (String.eqb_spec (WebhookNotReadyRequest.Path req) "") as [E|N].
    + unfold WebhookHandler_handleNotReady. rewrite Hb, E. split; [reflexivity|now left].
    + destruct (handleNotReady_run dbnow r req db Hb N) as [_ [S _]].
      rewrite S. split; [reflexivity|]. right. eexists. reflexivity.
  - unfold WebhookHandler_handleNotReady. rewrite Hb. split; [reflexivity|now left].
Qed.

Lemma listStreamKeys_store urlPath db :
  store (StreamKeyHandler_listStreamKeys urlPath db) = db.
Proof.
  unfold StreamKeyHandler_listStreamKeys, StreamKeyService_List, StreamKeyRepo_ListAll.
  run. reflexivity.
Qed.

Lemma run_operation_effect op db :
  let db' := store (run_operation op db) in
  keys_effect db db' /\ streams_effect db db'.
Proof.
  cbv zeta. destruct op; simpl.
  - destruct (AuthHandler_store now dbnow r db) as [E|[req E]]; rewrite E.
    + split; now left.
    + destruct (Authenticate_effect now dbnow req db) as [K S]. split; [exact K|now left].
  - destruct (handleReady_effect now entropy entropy' r db) as [K [S|[s S]]].
    + split; left; assumption.
    + split; [now left|]. right. left. now exists s.
  - destruct (handleNotReady_effect dbnow r db) as [K [S|[path S]]].
    + split; left; assumption.
    + split; [now left|]. right. right. exists (active_on_path path), dbnow.
      split; [|exact S]. intros x X. unfold active_on_path in X.
      now apply andb_true_iff in X.
  - destruct id as [id|].
    + unfold StreamKeyHandler_revokeStreamKey.
      assert (E : store (bind (StreamKeyService_Revoke mediaMTXClient now dbnow id)
                           (fun e => match e with
                                     | Some err => ret (WriteError urlPath (MapDomainError err))
                                     | None => ret (WriteHeader StatusNoContent)
                                     end) db) =
                  store (StreamKeyService_Revoke mediaMTXClient now dbnow id db)).
      { run. destruct (value _); reflexivity. }
      rewrite E. apply Revoke_effect.
    + split; now left.
  - rewrite listStreamKeys_store. split; now left.
Qed.

(** X4. No request changes a stream key that is revoked or expired: in a
    store that satisfies its uniqueness constraints, such a row is found
    unchanged (status, revocation time, last use) after any admission
    check, webhook delivery, revocation or listing.  In particular no
    request returns a key to the active status. *)
Theorem inactive_keys_are_never_modified :
  forall (op : Operation) (db : DB) (k : StreamKey.t),
    constraints_hold db ->
    In k (stream_keys db) ->
    StreamKey.Status k <> StreamKeyStatusActive ->
    In k (stream_keys (store (run_operation op db))).
Proof.
  intros op db k C I N.
  destruct (run_operation_effect op db) as [[E|[key [f [Ik [A E]]]]] _]; rewrite E; auto.
  unfold update_where. apply in_map_iff. exists k. split; [|exact I].
  unfold key_has_id. destruct (Nat.eqb_spec (StreamKey.ID k) (StreamKey.ID key)) as [Q|_]; auto.
  exfalso. apply N.
  rewrite (unique_by_id _ k key (stream_keys_pkey db C) I Ik Q). exact A.
Qed.

(** X5. No request changes a stream that has ended: such a row, with its
    [ended_at], is found unchanged after any operation, so a duplicate stop
    or a later revocation never overwrites the recorded end time and no
    stream returns to the active status. *)
Theorem ended_streams_are_never_modified :
  forall (op : Operation) (db : DB) (s : Stream.t),
    In s (streams db) ->
    Stream.Status s = StreamStatusEnded ->
    In s (streams (store (run_operation op db))).
Proof.
  intros op db s I E.
  destruct (run_operation_effect op db) as [_ [S|[[x S]|[p [t [A S]]]]]]; rewrite S; auto.
  - apply in_or_app. now left.
  - unfold update_where. apply in_map_iff. exists s. split; [|exact I].
    destruct (p s) eqn:P; auto.
    apply A in P. unfold Stream.is_active in P. rewrite E in P. discriminate.
Qed.

(* ================================================================== *)
(** * Admission: who is admitted, and what it depends on *)
(* ================================================================== *)

Lemma IsValid_iff now key :
  StreamKey.IsValid now key = true <->
  StreamKey.Status key = StreamKeyStatusActive /\ expired_at now key = false.
Proof.
  unfold StreamKey.IsValid, expired_at.
  destruct (StreamKey.Status key); simpl;
    destruct (StreamKey.ExpiresAt key) as [e|]; try destruct (After now e);
    split; try discriminate; try tauto; intros [H1 H2]; discriminate.
Qed.

(** X6. [Authenticate] admits exactly the requests whose action is not
    "publish" and the publish requests that present (as password, or else
    as path) the value of a stored key that [StreamKey.IsValid] accepts at
    the time of the check and that has no active stream. *)
Theorem authenticate_admits_iff_valid_and_idle :
  forall (now dbnow : Time) (req : AuthRequest.t) (db : DB) (res : AuthResult.t),
    value (AuthService_Authenticate now dbnow req db) = Ok res ->
    (AuthResult.Allowed res = true <->
     AuthRequest.Action req <> "publish" \/
     (request_key_value req <> "" /\
      exists key,
        find (key_has_value (request_key_value req)) (stream_keys db) = Some key /\
        StreamKey.IsValid now key = true /\
        find (active_of_key (StreamKey.ID key)) (streams db) = None)).
Proof.
  intros now dbnow req db res Hv.
  destruct (String.eqb_spec (AuthRequest.Action req) "publish") as [Ha|Ha].
  - destruct (String.eqb_spec (request_key_value req) "") as [Hk|Hk].
    + rewrite Authenticate_missing_key_run in Hv by assumption.
      inversion Hv; subst res. split; [discriminate|].
      intros [H|[H _]]; contradiction.
    + rewrite Authenticate_publish_run in Hv by assumption. cbv zeta in Hv.
      destruct (find _ (stream_keys db)) as [key|] eqn:F.
      * destruct (StreamKey.Status key) eqn:S.
        -- destruct (expired_at now key) eqn:X.
           ++ inversion Hv; subst res. split; [discriminate|].
              intros [H|[_ [k [Fk [V _]]]]]; [contradiction|].
              inversion Fk; subst k. apply IsValid_iff in V as [_ V]. congruence.
           ++ destruct (find _ (streams db)) eqn:A.
              ** inversion Hv; subst res. split; [discriminate|].
                 intros [H|[_ [k [Fk [_ N]]]]]; [contradiction|].
                 inversion Fk; subst k. congruence.
              ** inversion Hv; subst res. split; [|reflexivity].
                 intros _. right. split; [assumption|]. exists key.
                 split; [reflexivity|]. split; [|assumption].
                 apply IsValid_iff. auto.
        -- inversion Hv; subst res. split; [discriminate|].
           intros [H|[_ [k [Fk [V _]]]]]; [contradiction|].
           inversion Fk; subst k. apply IsValid_iff in V as [V _]. congruence.
        -- inversion Hv; subst res. split; [discriminate|].
           intros [H|[_ [k [Fk [V _]]]]]; [contradiction|].
           inversion Fk; subst k. apply IsValid_iff in V as [V _]. congruence.
      * inversion Hv; subst res. split; [discriminate|].
        intros [H|[_ [k [Fk _]]]]; [contradiction|discriminate].
  - rewrite Authenticate_non_publish_run in Hv by assumption.
    inversion Hv; subst res. split; [now left|reflexivity].
Qed.

(** X7. The outcome of [Authenticate] (result, store, statements) depends on
    the request only through its action and the key it presents: user,
    address, protocol, connection id and query play no part, and a key sent
    as the path behind one leading slash with an empty password is treated
    exactly as the same key sent as the password with any path. *)
Theorem authenticate_key_as_password_or_path :
  forall (now dbnow : Time) (db : DB) (k : string)
         (user user' ip ip' path protocol protocol' id id' query query' : string),
    k <> "" ->
    AuthService_Authenticate now dbnow
      (AuthRequest.mk user k ip "publish" path protocol id query) db =
    AuthService_Authenticate now dbnow
      (AuthRequest.mk user' "" ip' "publish" (String "/" k) protocol' id' query') db.
Proof.
  intros now dbnow db k user user' ip ip' path protocol protocol' id id' query query' Hk.
  unfold AuthService_Authenticate, request_key_value.
  cbn [AuthRequest.Action AuthRequest.Password AuthRequest.Path].
  destruct (String.eqb_spec k "") as [E|_]; [contradiction|].
  rewrite String.eqb_refl. reflexivity.
Qed.


(* ================================================================== *)
(** * Compositions *)
(* ================================================================== *)

Lemma Revoke_active_keys c now dbnow id db key :
  find (key_has_id id) (stream_keys db) = Some key ->
  StreamKey.Status key = StreamKeyStatusActive ->
  let out := StreamKeyService_Revoke c now dbnow id db in
  value out = None /\
  stream_keys (store out) =
    update_where (key_has_id id)
      (fun k => StreamKey.with_RevokedAt (Some now)
                  (StreamKey.with_Status StreamKeyStatusRevoked k))
      (stream_keys db).
Proof.
  intros Hk Hs out. subst out.
  destruct (find (active_of_key id) (streams db)) as [s|] eqn:Ha.
  - destruct (Revoke_live_run c now dbnow id db key s Hk Hs Ha) as [V [S _]].
    split; [exact V|]. now rewrite S.
  - rewrite (Revoke_idle_run c now dbnow id db key Hk Hs Ha). split; reflexivity.
Qed.

(** X9. Once [Revoke] has succeeded on a stream key, a publish request that
    presents that key is rejected with "stream key revoked" and answered
    401, at any later time, and the check writes nothing. *)
Theorem revoked_key_no_longer_authenticates :
  forall (c : MediaMTX) (now dbnow now' dbnow' : Time) (id : UUID) (db : DB)
         (key : StreamKey.t) (req : AuthRequest.t) (urlPath : string),
    constraints_hold db ->
    find (key_has_id id) (stream_keys db) = Some key ->
    StreamKey.Status key = StreamKeyStatusActive ->
    AuthRequest.Action req = "publish" ->
    request_key_value req = StreamKey.KeyValue key ->
    StreamKey.KeyValue key <> "" ->
    let revoked := StreamKeyService_Revoke c now dbnow id db in
    value revoked = None /\
    AuthService_Authenticate now' dbnow' req (store revoked) =
      (Ok (reject "stream key revoked"), store revoked,
       [EvBegin; EvRead (SelectStreamKeyByKeyValue (StreamKey.KeyValue key) true); EvCommit]) /\
    value (AuthHandler_ServeHTTP now' dbnow' (Request.mk "POST" urlPath (Some req))
             (store revoked)) = WriteHeader StatusUnauthorized.
Proof.
  intros c now dbnow now' dbnow' id db key req urlPath C Hk Hs Ha Hv Hne revoked.
  destruct (Revoke_active_keys c now dbnow id db key Hk Hs) as [V K]. fold revoked in V, K.
  pose proof (find_some _ _ Hk) as [I P].
  assert (A : AuthService_Authenticate now' dbnow' req (store revoked) =
              (Ok (reject "stream key revoked"), store revoked,
               [EvBegin; EvRead (SelectStreamKeyByKeyValue (StreamKey.KeyValue key) true);
                EvCommit])).
  { rewrite Authenticate_publish_run by (auto; now rewrite Hv). cbv zeta.
    rewrite Hv, K. rewrite find_update_where by reflexivity.
    rewrite (find_by_value _ key (stream_keys_key_value_key db C) I).
    cbn [option_map]. rewrite P. reflexivity. }
  split; [exact V|]. split; [exact A|].
  unfold AuthHandler_ServeHTTP.
  cbn [Request.Method Request.Body String.eqb Ascii.eqb Bool.eqb negb].
  run. rewrite A. reflexivity.
Qed.

(** X10. The life of a stream as the key sees it.  When the ready
    notification for a key's path has inserted the stream, a publish with
    that key is rejected as already in use and writes nothing; when the
    not-ready notification for the path has then been delivered, the key
    has no active stream and the same publish is admitted again. *)
Theorem stream_lifecycle_gates_admission :
  forall (now dbnow now' dbnow' now'' dbnow'' : Time) (entropy entropy' : nat)
         (sourceType sourceID : string) (db : DB) (key : StreamKey.t) (req : AuthRequest.t),
    let path := StreamKey.KeyValue key in
    let ready := Request.mk "POST" "/webhook/ready"
                   (Some (WebhookReadyRequest.mk path sourceType sourceID)) in
    let not_ready := Request.mk "POST" "/webhook/not-ready"
                       (Some (WebhookNotReadyRequest.mk path)) in
    find (key_has_value path) (stream_keys db) = Some key ->
    path <> "" ->
    StreamKey.Status key = StreamKeyStatusActive ->
    expired_at now' key = false ->
    expired_at now'' key = false ->
    existsb (active_of_key (StreamKey.ID key)) (streams db) = false ->
    mem_uuid (uuid_New entropy) (map Stream.ID (streams db)) = false ->
    varchar 255 path = true ->
    varchar 50 sourceType = true ->
    varchar 255 sourceID = true ->
    AuthRequest.Action req = "publish" ->
    request_key_value req = path ->
    let db1 := store (WebhookHandler_handleReady now entropy entropy' ready db) in
    let db2 := store (WebhookHandler_handleNotReady dbnow not_ready db1) in
    active_count (StreamKey.ID key) db1 = 1 /\
    value (AuthService_Authenticate now' dbnow' req db1) =
      Ok (reject "stream key already in use") /\
    store (AuthService_Authenticate now' dbnow' req db1) = db1 /\
    active_count (StreamKey.ID key) db2 = 0 /\
    value (AuthService_Authenticate now'' dbnow'' req db2) =
      Ok (AuthResult.mk true (Some (StreamKey.ID key)) "authentication successful").
Proof.
  intros now dbnow now' dbnow' now'' dbnow'' entropy entropy' sourceType sourceID
         db key req path ready not_ready Hf Hne Hs He' He'' Hidle Hfresh Vp Vt Vi Ha Hv db1 db2.
  assert (Hb : Request.Body ready =
               Some (WebhookReadyRequest.mk path sourceType sourceID)) by reflexivity.
  assert (Hp : WebhookReadyRequest.Path (WebhookReadyRequest.mk path sourceType sourceID) <> "")
    by exact Hne.
  destruct (handleReady_run now entropy entropy' ready _ db Hb Hp) as [_ S1].
  fold db1 in S1. cbn [WebhookReadyRequest.Path WebhookReadyRequest.SourceType
                        WebhookReadyRequest.SourceID] in S1.
  rewrite Hf in S1. cbv zeta in S1.
  set (stream := Stream.mk (uuid_New entropy) (StreamKey.ID key) path StreamStatusActive now
                   None (non_empty sourceType) (non_empty sourceID) [] None) in *.
  assert (Acc : insert_stream_violation stream db = None).
  { unfold insert_stream_violation, stream.
    cbn [Stream.Path Stream.SourceType Stream.SourceID Stream.ID Stream.StreamKeyID
         Stream.is_active Stream.Status StreamStatus_eqb andb].
    rewrite Vp, Hidle, Hfresh, (streams_fkey_of_found _ _ _ _ Hf eq_refl).
    assert (Vt' : varchar_opt 50 (non_empty sourceType) = true).
    { unfold non_empty. destruct (String.eqb _ ""); [reflexivity|exact Vt]. }
    assert (Vi' : varchar_opt 255 (non_empty sourceID) = true).
    { unfold non_empty. destruct (String.eqb _ ""); [reflexivity|exact Vi]. }
    now rewrite Vt', Vi'. }
  rewrite Acc in S1.
  assert (Idle : filter (active_of_key (StreamKey.ID key)) (streams db) = [])
    by now apply existsb_false_filter.
  assert (Own : active_of_key (StreamKey.ID key) stream = true).
  { unfold active_of_key, stream. cbn. now rewrite Nat.eqb_refl. }
  assert (F1 : find (active_of_key (StreamKey.ID key)) (streams db1) = Some stream).
  { rewrite S1. cbn [streams].
    assert (G : forall l, filter (active_of_key (StreamKey.ID key)) l = [] ->
                          find (active_of_key (StreamKey.ID key)) (l ++ [stream]) = Some stream).
    { induction l as [|a l IH]; simpl; intros E.
      - now rewrite Own.
      - destruct (active_of_key (StreamKey.ID key) a); [discriminate|auto]. }
    now apply G. }
  assert (K1 : stream_keys db1 = stream_keys db) by now rewrite S1.
  assert (Hk : request_key_value req <> "") by now rewrite Hv.
  assert (A1 : AuthService_Authenticate now' dbnow' req db1 =
               (Ok (reject "stream key already in use"), db1,
                [EvBegin; EvRead (SelectStreamKeyByKeyValue path true);
                 EvRead (SelectActiveStreamByStreamKeyID (StreamKey.ID key)); EvCommit])).
  { rewrite Authenticate_publish_run by assumption. cbv zeta.
    rewrite Hv, K1, Hf, Hs, He', F1. reflexivity. }
  assert (Hb' : Request.Body not_ready = Some (WebhookNotReadyRequest.mk path)) by reflexivity.
  destruct (handleNotReady_run dbnow not_ready _ db1 Hb' Hne) as [_ [S2 _]].
  fold db2 in S2. cbn [WebhookNotReadyRequest.Path] in S2.
  assert (Q2 : filter (active_of_key (StreamKey.ID key)) (streams db2) = []).
  { rewrite S2, S1. cbn [streams]. apply filter_nil_iff. intros y Iy.
    apply In_update_where in Iy as [x [Ix ->]].
    destruct (active_on_path path x) eqn:P; [apply ended_not_active_of_key|].
    apply in_app_or in Ix as [Ix|[<-|[]]].
    - exact (proj1 (filter_nil_iff _ _) Idle x Ix).
    - unfold active_on_path, stream in P. cbn in P. now rewrite String.eqb_refl in P. }
  assert (K2 : stream_keys db2 = stream_keys db) by now rewrite S2, S1.
  split.
  { unfold active_count. rewrite S1. cbn [streams].
    rewrite filter_app, Idle. simpl. now rewrite Own. }
  split; [now rewrite A1|]. split; [now rewrite A1|].
  split; [unfold active_count; now rewrite Q2|].
  rewrite Authenticate_publish_run by assumption. cbv zeta.
  rewrite Hv, K2, Hf, Hs, He''.
  destruct (find (active_of_key (StreamKey.ID key)) (streams db2)) as [x|] eqn:F2;
    [|reflexivity].
  apply find_some in F2 as [Ix Px].
  rewrite (proj1 (filter_nil_iff _ _) Q2 x Ix) in Px. discriminate.
Qed.

(* ================================================================== *)
(** * Error mapping *)
(* ================================================================== *)

(** X11. [MapDomainError] looks through [fmt.Errorf("...: %w", err)]
    wrappers: a wrapped error is mapped as the error it wraps.  An error
    that wraps no domain sentinel (a statement rejected by the store, a
    network failure) is answered 500 with the fixed detail "An unexpected
    error occurred", so no message of the error reaches the response. *)
Theorem map_domain_error_unwraps_and_hides :
  forall (err : error),
    (forall msg, MapDomainError (Wrap msg err) = MapDomainError err) /\
    ((forall d, errors_Is err d = false) ->
     MapDomainError err = ErrInternalServer "An unexpected error occurred") /\
    In (Detail (MapDomainError err))
       ["The requested resource was not found";
        "A resource with the same identifier already exists";
        "Invalid status transition";
        "This stream key is already in use by an active stream";
        "This stream key has been revoked";
        "This stream key has expired";
        "The provided stream key is invalid";
        "Unauthorized";
        "An unexpected error occurred"].
Proof.
  intros err. split; [reflexivity|]. split.
  - intros H. unfold MapDomainError. now rewrite !H.
  - unfold MapDomainError.
    repeat match goal with
           | |- context [if ?b then _ else _] => destruct b
           end; simpl; auto 12.
Qed.

(* ================================================================== *)
(** * Referential integrity *)
(* ================================================================== *)

Lemma references_hold_exec w db :
  references_hold db -> references_hold (snd (exec w db)).
Proof.
  intros [HK HS]. destruct w; simpl.
  - destruct (insert_broadcaster_violation b db); simpl; [split; assumption|].
    split; simpl; [|assumption].
    intros k I. rewrite map_app. apply in_or_app. left. now apply HK.
  - destruct (negb (varchar 255 display_name)); simpl; [split; assumption|].
    split; simpl; [|assumption].
    intros k I. rewrite map_update_where by reflexivity. now apply HK.
  - unfold delete_broadcaster. split; simpl.
    + intros k I. apply filter_In in I as [I N].
      specialize (HK k I). apply in_map_iff in HK as [b [E Ib]].
      apply in_map_iff. exists b. split; [exact E|].
      apply filter_In. split; [exact Ib|].
      unfold key_of_broadcaster in N. unfold broadcaster_has_id. now rewrite E.
    + intros s I. apply filter_In in I as [I N].
      specialize (HS s I). apply in_map_iff in HS as [k [E Ik]].
      apply in_map_iff. exists k. split; [exact E|].
      apply filter_In. split; [exact Ik|].
      destruct (key_of_broadcaster id k) eqn:Q; [|reflexivity].
      exfalso. apply negb_true_iff in N. apply mem_uuid_false in N. apply N.
      rewrite <- E. apply in_map. apply filter_In. auto.
  - destruct (insert_stream_key_violation k db) eqn:V; simpl; [split; assumption|].
    unfold insert_stream_key_violation in V.
    destruct (negb (varchar 64 _)); [discriminate|].
    destruct (mem_uuid (StreamKey.ID k) _); [discriminate|].
    destruct (existsb _ _); [discriminate|].
    destruct (mem_uuid (StreamKey.BroadcasterID k) _) eqn:M; [|discriminate].
    split; simpl.
    + intros x I. apply in_app_or in I as [I|[<-|[]]]; [now apply HK|].
      simpl. unfold mem_uuid in M. apply existsb_exists in M as [y [Iy E]].
      apply Nat.eqb_eq in E. now subst y.
    + intros s I. rewrite map_app. apply in_or_app. left. now apply HS.
  - split; simpl.
    + intros k I. apply In_update_where in I as [x [Ix ->]].
      destruct (key_has_id id x); [|now apply HK]. simpl. now apply HK.
    + intros s I. rewrite map_update_where by reflexivity. now apply HS.
  - split; simpl.
    + intros k I. apply In_update_where in I as [x [Ix ->]].
      destruct (key_has_id id x); [|now apply HK]. simpl. now apply HK.
    + intros s I. rewrite map_update_where by reflexivity. now apply HS.
  - split; simpl.
    + intros k I. apply In_update_where in I as [x [Ix ->]].
      destruct (key_has_id id x); [|now apply HK]. simpl. now apply HK.
    + intros s I. rewrite map_update_where by reflexivity. now apply HS.
  - destruct (insert_stream_violation s db) eqn:V; simpl; [split; assumption|].
    unfold insert_stream_violation in V.
    destruct (negb (varchar 255 _)); [discriminate|].
    destruct (negb (varchar_opt 50 _)); [discriminate|].
    destruct (negb (varchar_opt 255 _)); [discriminate|].
    destruct (mem_uuid (Stream.ID s) _); [discriminate|].
    destruct (Stream.is_active s && _); [discriminate|].
    destruct (mem_uuid (Stream.StreamKeyID s) _) eqn:M; [|discriminate].
    split; simpl; [assumption|].
    intros x I. apply in_app_or in I as [I|[<-|[]]]; [now apply HS|].
    simpl. unfold mem_uuid in M. apply existsb_exists in M as [y [Iy E]].
    apply Nat.eqb_eq in E. now subst y.
  - split; simpl; [assumption|].
    intros s I. apply In_update_where in I as [x [Ix ->]].
    destruct (active_with_id id x); [|now apply HS]. simpl. now apply HS.
  - split; simpl; [assumption|].
    intros s I. apply In_update_where in I as [x [Ix ->]].
    destruct (active_on_path path x); [|now apply HS]. simpl. now apply HS.
Qed.

Lemma references_hold_steps db db' :
  steps db db' -> references_hold db -> references_hold db'.
Proof.
  intros S R. induction S; auto using references_hold_exec.
Qed.

(** X12. In every reachable store each stream references a stored stream key
    and each stream key a stored broadcaster: inserts are checked against
    the foreign keys, and deleting a broadcaster removes its stream keys
    and their streams with it, so no operation leaves an orphan row. *)
Theorem reachable_stores_have_no_orphans :
  forall db, reachable db -> references_hold db.
Proof.
  induction 1 as [|w db R IH|op db R IH].
  - split; intros x [].
  - now apply references_hold_exec.
  - eapply references_hold_steps; [apply stepwise_run_operation|exact IH].
Qed.

(* ================================================================== *)
(** * MediaMTX: which connections [KickPath] kicks *)
(* ================================================================== *)

Lemma mtx_calls_app t1 t2 : mtx_calls (t1 ++ t2) = mtx_calls t1 ++ mtx_calls t2.
Proof. unfold mtx_calls. apply flat_map_app. Qed.

Lemma kick_matching_calls kick call failed kicked path items db :
  mtx_calls (events (kick_matching kick call failed kicked path items db)) =
  map call (ids_on_path path items).
Proof.
  revert db. induction items as [|conn rest IH]; intros db; [reflexivity|].
  cbn [kick_matching ids_on_path flat_map]. rewrite bind_events, mtx_calls_app, IH.
  rewrite map_app. f_equal.
  destruct (Conn.Path conn) as [p|], (Conn.Id conn) as [i|]; try reflexivity.
  destruct (String.eqb p path); [|reflexivity].
  rewrite bind_events. destruct (kick i); reflexivity.
Qed.

Lemma kick_listed_calls listing kick call list_failed failed kicked path db :
  mtx_calls (events (kick_listed listing kick call list_failed failed kicked path db)) =
  map call (ids_on_path path (listed_items listing)).
Proof.
  unfold kick_listed, listed_items. destruct listing as [[j]|e]; simpl; [|reflexivity].
  destruct j as [[i]|]; simpl; [|reflexivity].
  destruct i as [items|]; [|reflexivity].
  apply kick_matching_calls.
Qed.

Lemma In_ids_on_path path items id :
  In id (ids_on_path path items) <->
  exists conn, In conn items /\ Conn.Id conn = Some id /\ Conn.Path conn = Some path.
Proof.
  unfold ids_on_path. rewrite in_flat_map. split.
  - intros [conn [I H]]. exists conn. split; [exact I|].
    destruct (Conn.Path conn) as [p|], (Conn.Id conn) as [i|]; try contradiction.
    destruct (String.eqb_spec p path) as [->|_]; [|contradiction].
    destruct H as [<-|[]]. auto.
  - intros [conn [I [Hi Hp]]]. exists conn. split; [exact I|].
    rewrite Hi, Hp, String.eqb_refl. now left.
Qed.

(** X13. [KickPath] returns nil, leaves the store alone, and sends MediaMTX
    exactly these requests, in this order: the RTMP list request, one kick
    for each listed RTMP connection that has an id and whose path is the
    given one, the RTSP list request, and one kick for each such RTSP
    session.  A connection on another path is never kicked, and a failure
    to list or to kick RTMP connections does not stop the RTSP pass. *)
Theorem kick_path_kicks_exactly_the_path :
  forall (c : MediaMTX) (path : string) (db : DB),
    let out := MediaMTXClient_KickPath c path db in
    value out = None /\
    store out = db /\
    mtx_calls (events out) =
      RtmpConnsList ::
      map RtmpConnsKick (ids_on_path path (listed_items (RtmpConnsListWithResponse c))) ++
      RtspSessionsList ::
      map RtspSessionsKick (ids_on_path path (listed_items (RtspSessionsListWithResponse c))) /\
    (forall id, In (EvMtx (RtmpConnsKick id)) (events out) ->
       exists conn, In conn (listed_items (RtmpConnsListWithResponse c)) /\
                    Conn.Id conn = Some id /\ Conn.Path conn = Some path) /\
    (forall id, In (EvMtx (RtspSessionsKick id)) (events out) ->
       exists conn, In conn (listed_items (RtspSessionsListWithResponse c)) /\
                    Conn.Id conn = Some id /\ Conn.Path conn = Some path).
Proof.
  intros c path db out.
  assert (Calls : mtx_calls (events out) =
      RtmpConnsList ::
      map RtmpConnsKick (ids_on_path path (listed_items (RtmpConnsListWithResponse c))) ++
      RtspSessionsList ::
      map RtspSessionsKick (ids_on_path path (listed_items (RtspSessionsListWithResponse c)))).
  { subst out. unfold MediaMTXClient_KickPath.
    rewrite !bind_events, !mtx_calls_app, !kick_listed_calls.
    cbn [mtx_call events snd mtx_calls flat_map app ret]. rewrite app_nil_r. reflexivity. }
  assert (Among : forall call, In (EvMtx call) (events out) -> In call (mtx_calls (events out))).
  { intros call I. unfold mtx_calls. apply in_flat_map. exists (EvMtx call). split; [exact I|].
    now left. }
  destruct (KickPath_returns_nil c path db) as [V S]. fold out in V, S.
  split; [exact V|]. split; [exact S|]. split; [exact Calls|]. split.
  - intros id I. apply Among in I. rewrite Calls in I.
    destruct I as [I|I]; [discriminate|].
    apply in_app_or in I as [I|[I|I]]; [|discriminate|].
    + apply in_map_iff in I as [x [E I]]. inversion E; subst x. now apply In_ids_on_path.
    + apply in_map_iff in I as [x [E _]]. discriminate.
  - intros id I. apply Among in I. rewrite Calls in I.
    destruct I as [I|I]; [discriminate|].
    apply in_app_or in I as [I|[I|I]]; [|discriminate|].
    + apply in_map_iff in I as [x [E _]]. discriminate.
    + apply in_map_iff in I as [x [E I]]. inversion E; subst x. now apply In_ids_on_path.
Qed.

(* ================================================================== *)
(** * Generated stream keys *)
(* ================================================================== *)

Lemma list_ind3 {A : Type} (P : list A -> Prop) :
  P [] -> (forall a, P [a]) -> (forall a b, P [a; b]) ->
  (forall a b c rest, P rest -> P (a :: b :: c :: rest)) ->
  forall l, P l.
Proof.
  intros H0 H1 H2 H3.
  assert (All : forall l, P l /\ (forall a, P (a :: l)) /\ (forall a b, P (a :: b :: l))).
  { induction l as [|x l [IH0 [IH1 IH2]]].
    - auto.
    - split; [apply IH1|]. split; [intros a; apply IH2|]. intros a b. now apply H3. }
  intros l. apply All.
Qed.

Lemma get_In n s c : String.get n s = Some c -> In c (list_ascii_of_string s).
Proof.
  revert n. induction s as [|a s IH]; intros n H; [destruct n; discriminate|].
  destruct n; simpl in H.
  - inversion H. now left.
  - right. eauto.
Qed.

Lemma sextet_in_alphabet v : In (sextet v) (list_ascii_of_string encodeURL).
Proof.
  unfold sextet. destruct (String.get _ encodeURL) eqn:G.
  - exact (get_In _ _ _ G).
  - now left.
Qed.

Lemma EncodeToString_length src :
  String.length (EncodeToString src) =
  4 * (List.length src / 3) +
  match List.length src mod 3 with
  | 0 => 0
  | r => r + 1
  end.
Proof.
  induction src as [|a|a b|a b c rest IH] using list_ind3; try reflexivity.
  cbn [EncodeToString String.length List.length]. rewrite IH.
  replace (S (S (S (List.length rest)))) with (List.length rest + 1 * 3) by lia.
  rewrite Nat.div_add, Nat.Div0.mod_add by lia. lia.
Qed.

Lemma EncodeToString_alphabet src :
  Forall (fun c => In c (list_ascii_of_string encodeURL))
         (list_ascii_of_string (EncodeToString src)).
Proof.
  induction src as [|a|a b|a b c rest IH] using list_ind3;
    cbn [EncodeToString list_ascii_of_string];
    repeat (constructor; [apply sextet_in_alphabet|]); auto.
Qed.

Lemma char_length_ascii s :
  Forall (fun c => is_continuation c = false) (list_ascii_of_string s) ->
  char_length s = String.length s.
Proof.
  induction s as [|a s IH]; simpl; intros H; [reflexivity|].
  inversion H as [|? ? Ha Hs]; subst. rewrite Ha, IH by assumption. reflexivity.
Qed.

Lemma alphabet_not_continuation c :
  In c (list_ascii_of_string encodeURL) -> is_continuation c = false.
Proof.
  assert (All : forallb (fun c => negb (is_continuation c))
                        (list_ascii_of_string encodeURL) = true) by reflexivity.
  intros I. rewrite forallb_forall in All. specialize (All c I).
  now apply negb_true_iff in All.
Qed.

Lemma alphabet_not_slash c :
  In c (list_ascii_of_string encodeURL) -> c <> "/"%char.
Proof.
  assert (All : forallb (fun c => negb (Ascii.eqb c "/"))
                        (list_ascii_of_string encodeURL) = true) by reflexivity.
  intros I E. rewrite forallb_forall in All. specialize (All c I).
  subst c. discriminate.
Qed.

Lemma generated_key_width bytes :
  List.length bytes = 32 ->
  String.length (EncodeToString bytes) = 43 /\
  varchar 64 (String.append "sk_" (EncodeToString bytes)) = true.
Proof.
  intros L.
  assert (Len : String.length (EncodeToString bytes) = 43).
  { rewrite EncodeToString_length, L. reflexivity. }
  split; [exact Len|].
  unfold varchar. rewrite char_length_ascii.
  - cbn [String.append String.length]. rewrite Len. reflexivity.
  - cbn [String.append list_ascii_of_string].
    repeat (constructor; [reflexivity|]).
    eapply Forall_impl; [|apply EncodeToString_alphabet].
    intros c. apply alphabet_not_continuation.
Qed.

(** X14. A generated stream key is "sk_" followed by 43 characters of the
    URL-safe base64 alphabet (the 32 random bytes, unpadded): 46 ASCII
    characters in all, so it fits the VARCHAR(64) column, is never empty and
    contains no slash.  A failure of the random source is returned as the
    error. *)
Theorem generated_stream_key_format :
  forall (bytes : list Byte.byte),
    List.length bytes = 32 ->
    exists body,
      generateStreamKey (Ok bytes) = Ok (String.append "sk_" body) /\
      String.length body = 43 /\
      Forall (fun c => In c (list_ascii_of_string encodeURL) /\ c <> "/"%char)
             (list_ascii_of_string body) /\
      String.length (String.append "sk_" body) = 46 /\
      varchar 64 (String.append "sk_" body) = true /\
      (forall err, generateStreamKey (Err err) = Err err).
Proof.
  intros bytes L. exists (EncodeToString bytes).
  destruct (generated_key_width bytes L) as [Len W].
  split; [reflexivity|]. split; [exact Len|]. split.
  { eapply Forall_impl; [|apply EncodeToString_alphabet].
    intros c I. split; [exact I|now apply alphabet_not_slash]. }
  split; [cbn [String.append String.length]; now rewrite Len|].
  split; [exact W|reflexivity].
Qed.

(* ================================================================== *)
(** * Creating a stream key and using it *)
(* ================================================================== *)

Lemma find_snoc {A : Type} (p : A -> bool) l x :
  existsb p l = false -> find p (l ++ [x]) = if p x then Some x else None.
Proof.
  induction l as [|a l IH]; simpl; intros H; [reflexivity|].
  apply orb_false_iff in H as [Ha Hl]. rewrite Ha. auto.
Qed.

Lemma mem_uuid_true x l : In x l -> mem_uuid x l = true.
Proof.
  intros I. unfold mem_uuid. apply existsb_exists. exists x. split; [exact I|apply Nat.eqb_refl].
Qed.

Lemma no_key_has_id id (l : list StreamKey.t) :
  mem_uuid id (map StreamKey.ID l) = false -> existsb (key_has_id id) l = false.
Proof.
  intros M. destruct (existsb (key_has_id id) l) eqn:E; [|reflexivity].
  apply existsb_exists in E as [k [I P]]. apply Nat.eqb_eq in P.
  apply mem_uuid_false in M. exfalso. apply M. rewrite <- P. now apply in_map.
Qed.

Lemma Create_run bytes entropy entropy' now req db :
  List.length bytes = 32 ->
  let kv := String.append "sk_" (EncodeToString bytes) in
  let key := StreamKey.mk (uuid_New entropy) kv (CreateRequest.BroadcasterID req)
               StreamKeyStatusActive now (CreateRequest.ExpiresAt req) None None in
  StreamKeyService_Create (Ok bytes) entropy entropy' now req db =
  match insert_stream_key_violation key db with
  | Some c => (Err (Wrap "failed to create stream key" (PgError c)), db,
               [EvWrite (InsertStreamKey key)])
  | None => (Ok key, mkDB (broadcasters db) (stream_keys db ++ [key]) (streams db),
             [EvWrite (InsertStreamKey key); EvLog LevelInfo "stream key created"])
  end.
Proof.
  intros L kv key.
  unfold StreamKeyService_Create, generateStreamKey, StreamKeyRepo_Create, bind, Exec, log, ret.
  fold kv. cbn [StreamKey.ID uuid_New uuid_Nil Nat.eqb]. fold key.
  cbn [exec]. destruct (insert_stream_key_violation key db); reflexivity.
Qed.

(** X15. Issuing a key and using it.  For a stored broadcaster, with an
    unused id and key value, [Create] stores a new active key and returns
    it with its secret value; the key is then found by value and by id, and
    a publish request that presents the value is admitted as long as the
    key has not expired. *)
Theorem created_key_is_stored_and_authenticates :
  forall (bytes : list Byte.byte) (entropy entropy' : nat) (now now' dbnow' : Time)
         (req : CreateRequest.t) (db : DB) (auth : AuthRequest.t),
    let kv := String.append "sk_" (EncodeToString bytes) in
    let key := StreamKey.mk (uuid_New entropy) kv (CreateRequest.BroadcasterID req)
                 StreamKeyStatusActive now (CreateRequest.ExpiresAt req) None None in
    List.length bytes = 32 ->
    references_hold db ->
    In (CreateRequest.BroadcasterID req) (map Broadcaster.ID (broadcasters db)) ->
    mem_uuid (uuid_New entropy) (map StreamKey.ID (stream_keys db)) = false ->
    existsb (key_has_value kv) (stream_keys db) = false ->
    expired_at now' key = false ->
    AuthRequest.Action auth = "publish" ->
    request_key_value auth = kv ->
    let created := StreamKeyService_Create (Ok bytes) entropy entropy' now req db in
    value created = Ok key /\
    store created = mkDB (broadcasters db) (stream_keys db ++ [key]) (streams db) /\
    value (StreamKeyRepo_GetByKeyValue kv (store created)) = Ok key /\
    value (StreamKeyService_GetByID (uuid_New entropy) (store created)) = Ok key /\
    value (AuthService_Authenticate now' dbnow' auth (store created)) =
      Ok (AuthResult.mk true (Some (uuid_New entropy)) "authentication successful").
Proof.
  intros bytes entropy entropy' now now' dbnow' req db auth kv key L R B Fresh Unique E Ha Hv
         created.
  assert (Acc : insert_stream_key_violation key db = None).
  { unfold insert_stream_key_violation, key. cbn [StreamKey.KeyValue StreamKey.ID
      StreamKey.BroadcasterID]. fold kv.
    destruct (generated_key_width bytes L) as [_ W]. fold kv in W.
    now rewrite W, Fresh, Unique, (mem_uuid_true _ _ B). }
  assert (Run : created =
                (Ok key, mkDB (broadcasters db) (stream_keys db ++ [key]) (streams db),
                 [EvWrite (InsertStreamKey key); EvLog LevelInfo "stream key created"])).
  { subst created. rewrite (Create_run bytes entropy entropy' now req db L).
    cbv zeta. fold kv. fold key. now rewrite Acc. }
  assert (Fv : find (key_has_value kv) (stream_keys db ++ [key]) = Some key).
  { rewrite find_snoc by assumption. unfold key_has_value, key. cbn. now rewrite String.eqb_refl. }
  assert (Fi : find (key_has_id (uuid_New entropy)) (stream_keys db ++ [key]) = Some key).
  { rewrite find_snoc by now apply no_key_has_id.
    unfold key_has_id, key. cbn [StreamKey.ID]. now rewrite Nat.eqb_refl. }
  assert (Idle : find (active_of_key (uuid_New entropy)) (streams db) = None).
  { destruct (find _ (streams db)) as [s|] eqn:F; [|reflexivity].
    apply find_some in F as [I P]. unfold active_of_key in P.
    apply andb_true_iff in P as [P _]. apply Nat.eqb_eq in P.
    apply mem_uuid_false in Fresh. exfalso. apply Fresh. rewrite <- P. now apply R. }
  assert (Ne : request_key_value auth <> "") by (rewrite Hv; discriminate).
  rewrite Run. unfold value, store. cbn [fst snd].
  split; [reflexivity|]. split; [reflexivity|].
  split; [unfold StreamKeyRepo_GetByKeyValue, query, scan_row; cbn [fst snd stream_keys];
          now rewrite Fv|].
  split; [unfold StreamKeyService_GetByID, StreamKeyRepo_GetByID, query, scan_row;
          cbn [fst snd stream_keys]; now rewrite Fi|].
  rewrite Authenticate_publish_run by assumption. cbv zeta.
  cbn [stream_keys streams]. rewrite Hv, Fv.
  change (StreamKey.Status key) with StreamKeyStatusActive. cbv iota.
  rewrite E. change (StreamKey.ID key) with (uuid_New entropy). rewrite Idle. reflexivity.
Qed.

(** X16. Creating a stream key for a broadcaster that is not stored fails:
    the store rejects the insert on the foreign key, [Create] returns the
    wrapped error and stores nothing, and since the error wraps no domain
    sentinel [MapDomainError] answers it with 500 rather than 404. *)
Theorem create_key_for_unknown_broadcaster_fails :
  forall (bytes : list Byte.byte) (entropy entropy' : nat) (now : Time)
         (req : CreateRequest.t) (db : DB),
    List.length bytes = 32 ->
    ~ In (CreateRequest.BroadcasterID req) (map Broadcaster.ID (broadcasters db)) ->
    let created := StreamKeyService_Create (Ok bytes) entropy entropy' now req db in
    store created = db /\
    exists err,
      value created = Err err /\
      errors_Is err ErrNotFound = false /\
      MapDomainError err = ErrInternalServer "An unexpected error occurred".
Proof.
  intros bytes entropy entropy' now req db L B created. subst created.
  rewrite (Create_run bytes entropy entropy' now req db L). cbv zeta.
  destruct (insert_stream_key_violation _ db) as [c|] eqn:V.
  - split; [reflexivity|]. eexists. split; [reflexivity|]. split; reflexivity.
  - exfalso. unfold insert_stream_key_violation in V.
    cbn [StreamKey.KeyValue StreamKey.ID StreamKey.BroadcasterID] in V.
    destruct (negb (varchar 64 _)); [discriminate|].
    destruct (mem_uuid (uuid_New entropy) _); [discriminate|].
    destruct (existsb _ _); [discriminate|].
    destruct (mem_uuid (CreateRequest.BroadcasterID req) _) eqn:M; [|discriminate].
    unfold mem_uuid in M. apply existsb_exists in M as [y [I E]].
    apply Nat.eqb_eq in E. subst y. contradiction.
Qed.

(* ================================================================== *)
(** * Listings *)
(* ================================================================== *)

Lemma insert_by_started_at_desc_perm s l :
  Permutation (insert_by_started_at_desc s l) (s :: l).
Proof.
  induction l as [|h t IH]; simpl; [reflexivity|].
  destruct (Stream.StartedAt h <? Stream.StartedAt s)%Z; [reflexivity|].
  rewrite IH. apply perm_swap.
Qed.

Lemma order_by_started_at_desc_perm l : Permutation (order_by_started_at_desc l) l.
Proof.
  induction l as [|a l IH]; simpl; [reflexivity|].
  rewrite insert_by_started_at_desc_perm. now constructor.
Qed.

Lemma insert_by_started_at_desc_sorted s l :
  StronglySorted newer_first l -> StronglySorted newer_first (insert_by_started_at_desc s l).
Proof.
  induction l as [|h t IH]; simpl; intros S.
  - repeat constructor.
  - inversion S as [|? ? St F]; subst.
    destruct (Stream.StartedAt h <? Stream.StartedAt s)%Z eqn:L.
    + apply Z.ltb_lt in L. constructor; [exact S|].
      constructor; [unfold newer_first; lia|].
      eapply Forall_impl; [|exact F]. unfold newer_first. intros x. lia.
    + apply Z.ltb_ge in L. constructor; [now apply IH|].
      eapply Permutation_Forall; [symmetry; apply insert_by_started_at_desc_perm|].
      constructor; [exact L|exact F].
Qed.

Lemma order_by_started_at_desc_sorted l :
  StronglySorted newer_first (order_by_started_at_desc l).
Proof.
  induction l as [|a l IH]; simpl; [constructor|].
  now apply insert_by_started_at_desc_sorted.
Qed.

(** X17. [ListActive] returns each active stream of the store exactly once
    and no ended one, the most recently started first, each with the HLS
    and WebRTC addresses built from the public URL and the stream's path;
    the handler answers 200 with that list and its length as the count. *)
Theorem list_active_returns_the_active_streams :
  forall (publicURL urlPath : string) (db : DB),
    exists listed,
      value (StreamService_ListActive publicURL db) = Ok listed /\
      store (StreamService_ListActive publicURL db) = db /\
      Permutation (map Stream_ listed) (filter Stream.is_active (streams db)) /\
      (forall s, In s (map Stream_ listed) <->
                 In s (streams db) /\ Stream.Status s = StreamStatusActive) /\
      StronglySorted newer_first (map Stream_ listed) /\
      Forall (fun x =>
                HLS (URLs x) =
                  String.append publicURL
                    (String.append "/" (String.append (Stream.Path (Stream_ x)) "/index.m3u8")) /\
                WebRTC (URLs x) =
                  String.append publicURL
                    (String.append "/" (String.append (Stream.Path (Stream_ x)) "/whep")))
             listed /\
      value (StreamHandler_listStreams publicURL urlPath db) =
        ReplyJSON StatusOK (listed, List.length (filter Stream.is_active (streams db))).
Proof.
  intros publicURL urlPath db.
  set (rows := order_by_started_at_desc (filter Stream.is_active (streams db))).
  assert (M : map Stream_ (map (with_urls publicURL) rows) = rows).
  { rewrite map_map. unfold with_urls. cbn [Stream_]. apply map_id. }
  assert (P : Permutation rows (filter Stream.is_active (streams db)))
    by apply order_by_started_at_desc_perm.
  exists (map (with_urls publicURL) rows).
  split; [reflexivity|]. split; [reflexivity|]. rewrite M.
  split; [exact P|]. split.
  { intros s. split.
    - intros I. apply (Permutation_in _ P), filter_In in I as [I A]. split; [exact I|].
      unfold Stream.is_active in A. now destruct (Stream.Status s).
    - intros [I A]. apply (Permutation_in _ (Permutation_sym P)), filter_In.
      split; [exact I|]. unfold Stream.is_active. now rewrite A. }
  split; [apply order_by_started_at_desc_sorted|]. split.
  { apply Forall_forall. intros x I. apply in_map_iff in I as [s [<- _]]. split; reflexivity. }
  unfold StreamHandler_listStreams, bind, ret.
  change (StreamService_ListActive publicURL db)
    with (Ok (map (with_urls publicURL) rows), db, [EvRead SelectActiveStreams]).
  unfold value. cbn [fst]. f_equal. f_equal.
  rewrite length_map. now apply Permutation_length.
Qed.

Lemma getStream_found (publicURL urlPath : string) (db : DB) (s : Stream.t) :
  NoDup (map Stream.ID (streams db)) ->
  In s (streams db) ->
  StreamHandler_getStream publicURL urlPath (Some (Stream.ID s)) db =
    (ReplyJSON StatusOK (with_urls publicURL s), db, [EvRead (SelectStreamByID (Stream.ID s))]).
Proof.
  intros D I.
  unfold StreamHandler_getStream, StreamService_GetByID, StreamRepo_GetByID, query, bind, ret,
    scan_row.
  cbn [fst snd]. unfold stream_has_id.
  rewrite (find_by_key Stream.ID (streams db) s D I). reflexivity.
Qed.

(** X18. Reading one stream agrees with the listing: in a store with unique
    stream ids every entry of the active listing is what the handler
    answers, with status 200, for that entry's id.  The same holds for a
    stream that has ended, which the listing leaves out; an id that no
    stream carries is answered 404 and an id that does not parse 400.  The
    store is never changed. *)
Theorem get_stream_agrees_with_the_listing :
  forall (publicURL urlPath : string) (db : DB),
    constraints_hold db ->
    (forall listed x,
        value (StreamService_ListActive publicURL db) = Ok listed ->
        In x listed ->
        StreamHandler_getStream publicURL urlPath (Some (Stream.ID (Stream_ x))) db =
          (ReplyJSON StatusOK x, db, [EvRead (SelectStreamByID (Stream.ID (Stream_ x)))])) /\
    (forall s,
        In s (streams db) ->
        value (StreamHandler_getStream publicURL urlPath (Some (Stream.ID s)) db) =
          ReplyJSON StatusOK (with_urls publicURL s)) /\
    (forall id,
        ~ In id (map Stream.ID (streams db)) ->
        StreamHandler_getStream publicURL urlPath (Some id) db =
          (ReplyError (WriteError urlPath (ErrNotFound_ "The requested resource was not found")),
           db, [EvRead (SelectStreamByID id)])) /\
    StreamHandler_getStream publicURL urlPath None db =
      (ReplyError (WriteError urlPath (ErrInvalidRequest "invalid stream ID")), db, []).
Proof.
  intros publicURL urlPath db C. pose proof (streams_pkey db C) as D.
  split; [|split; [|split; [|reflexivity]]].
  - intros listed x V I. inversion V; subst listed; clear V.
    apply in_map_iff in I as [s [<- I]].
    apply (Permutation_in _ (order_by_started_at_desc_perm _)), filter_In in I as [I _].
    cbn [Stream_ with_urls]. now apply getStream_found.
  - intros s I. now rewrite getStream_found.
  - intros id N.
    unfold StreamHandler_getStream, StreamService_GetByID, StreamRepo_GetByID, query, bind, ret,
      scan_row.
    cbn [fst snd].
    destruct (find (stream_has_id id) (streams db)) as [s|] eqn:F; [|reflexivity].
    apply find_some in F as [I E]. apply Nat.eqb_eq in E.
    exfalso. apply N. rewrite <- E. now apply in_map.
Qed.

Lemma insert_by_created_at_desc_perm k l :
  Permutation (insert_by_created_at_desc k l) (k :: l).
Proof.
  induction l as [|h t IH]; simpl; [reflexivity|].
  destruct (StreamKey.CreatedAt h <? StreamKey.CreatedAt k)%Z; [reflexivity|].
  rewrite IH. apply perm_swap.
Qed.

Lemma order_by_created_at_desc_perm l : Permutation (order_by_created_at_desc l) l.
Proof.
  induction l as [|a l IH]; simpl; [reflexivity|].
  rewrite insert_by_created_at_desc_perm. now constructor.
Qed.

Lemma insert_by_created_at_desc_sorted k l :
  StronglySorted newer_key_first l ->
  StronglySorted newer_key_first (insert_by_created_at_desc k l).
Proof.
  induction l as [|h t IH]; simpl; intros S.
  - repeat constructor.
  - inversion S as [|? ? St F]; subst.
    destruct (StreamKey.CreatedAt h <? StreamKey.CreatedAt k)%Z eqn:L.
    + apply Z.ltb_lt in L. constructor; [exact S|].
      constructor; [unfold newer_key_first; lia|].
      eapply Forall_impl; [|exact F]. unfold newer_key_first. intros x. lia.
    + apply Z.ltb_ge in L. constructor; [now apply IH|].
      eapply Permutation_Forall; [symmetry; apply insert_by_created_at_desc_perm|].
      constructor; [exact L|exact F].
Qed.

Lemma order_by_created_at_desc_sorted l :
  StronglySorted newer_key_first (order_by_created_at_desc l).
Proof.
  induction l as [|a l IH]; simpl; [constructor|].
  now apply insert_by_created_at_desc_sorted.
Qed.

Lemma cleared_sorted l :
  StronglySorted newer_key_first l ->
  StronglySorted newer_key_first (map (StreamKey.with_KeyValue "") l).
Proof.
  induction 1 as [|a l S IH F]; simpl; constructor; auto.
  apply Forall_forall. intros x I. apply in_map_iff in I as [y [<- Iy]].
  rewrite Forall_forall in F. exact (F y Iy).
Qed.

(** X19. The stream key listings lose no row and invent none: [List] returns
    every stored key exactly once and [ListByBroadcaster] exactly the keys
    of that broadcaster, each with only its value cleared, the most
    recently created first. *)
Theorem key_listings_are_complete_and_ordered :
  forall (db : DB) (broadcasterID : UUID),
    (exists keys,
        value (StreamKeyService_List db) = Ok keys /\
        Permutation keys (map (StreamKey.with_KeyValue "") (stream_keys db)) /\
        StronglySorted newer_key_first keys) /\
    (exists keys,
        value (StreamKeyService_ListByBroadcaster broadcasterID db) = Ok keys /\
        Permutation keys
          (map (StreamKey.with_KeyValue "")
               (filter (key_of_broadcaster broadcasterID) (stream_keys db))) /\
        Forall (fun k => StreamKey.BroadcasterID k = broadcasterID) keys /\
        StronglySorted newer_key_first keys).
Proof.
  intros db broadcasterID. split.
  - eexists. split; [reflexivity|]. split.
    + apply Permutation_map, order_by_created_at_desc_perm.
    + apply cleared_sorted, order_by_created_at_desc_sorted.
  - eexists. split; [reflexivity|]. split; [|split].
    + apply Permutation_map, order_by_created_at_desc_perm.
    + apply Forall_forall. intros k I. apply in_map_iff in I as [x [<- I]].
      apply (Permutation_in _ (order_by_created_at_desc_perm _)), filter_In in I as [_ B].
      now apply Nat.eqb_eq in B.
    + apply cleared_sorted, order_by_created_at_desc_sorted.
Qed.

(** X20. Reading one stream key by id never shows its secret: the handler
    answers 200 with the stored row whose value is cleared, 404 when no key
    has the id and 400 when the id does not parse; the store is unchanged. *)
Theorem get_stream_key_hides_the_value :
  forall (urlPath : string) (db : DB),
    (forall id key,
        find (key_has_id id) (stream_keys db) = Some key ->
        StreamKeyHandler_getStreamKey urlPath (Some id) db =
          (ReplyJSON StatusOK
             (StreamKey.mk (StreamKey.ID key) "" (StreamKey.BroadcasterID key)
                (StreamKey.Status key) (StreamKey.CreatedAt key) (StreamKey.ExpiresAt key)
                (StreamKey.RevokedAt key) (StreamKey.LastUsedAt key)),
           db, [EvRead (SelectStreamKeyByID id)])) /\
    (forall id,
        find (key_has_id id) (stream_keys db) = None ->
        StreamKeyHandler_getStreamKey urlPath (Some id) db =
          (ReplyError (WriteError urlPath (ErrNotFound_ "The requested resource was not found")),
           db, [EvRead (SelectStreamKeyByID id)])) /\
    StreamKeyHandler_getStreamKey urlPath None db =
      (ReplyError (WriteError urlPath (ErrInvalidRequest "invalid stream key ID")), db, []).
Proof.
  intros urlPath db. split; [|split; [|reflexivity]].
  - intros id key F.
    unfold StreamKeyHandler_getStreamKey, StreamKeyService_GetByID, StreamKeyRepo_GetByID,
      bind, query, ret, scan_row. rewrite F. reflexivity.
  - intros id F.
    unfold StreamKeyHandler_getStreamKey, StreamKeyService_GetByID, StreamKeyRepo_GetByID,
      bind, query, ret, scan_row. rewrite F. reflexivity.
Qed.

(* ================================================================== *)
(** * Deleting a broadcaster *)
(* ================================================================== *)

Lemma filter_all {A : Type} (p : A -> bool) l :
  (forall x, In x l -> p x = true) -> filter p l = l.
Proof.
  induction l as [|a l IH]; simpl; intros H; [reflexivity|].
  rewrite (H a (or_introl eq_refl)). f_equal. apply IH. intros x I. apply H. now right.
Qed.

Lemma BroadcasterService_Delete_run id db :
  BroadcasterService_Delete id db =
  if rows_affected (broadcaster_has_id id) (broadcasters db) =? 0
  then (Some (Domain ErrNotFound), delete_broadcaster id db, [EvWrite (DeleteBroadcaster id)])
  else (None, delete_broadcaster id db,
        [EvWrite (DeleteBroadcaster id); EvLog LevelInfo "broadcaster deleted"]).
Proof.
  unfold BroadcasterService_Delete, BroadcasterRepo_Delete, bind, Exec, log, ret. cbn [exec].
  destruct (rows_affected _ _ =? 0); reflexivity.
Qed.

(** X21. Deleting a stored broadcaster takes its stream keys and their
    streams with it and nothing else: afterwards none of its keys is
    stored, a publish request presenting one of them is rejected as an
    invalid stream key, none of their streams is stored, and the keys of the
    other broadcasters are all still there.  Deleting an id that no
    broadcaster carries returns [ErrNotFound] and changes nothing. *)
Theorem delete_broadcaster_cascades :
  forall (id : UUID) (db : DB),
    constraints_hold db ->
    references_hold db ->
    let out := BroadcasterService_Delete id db in
    (In id (map Broadcaster.ID (broadcasters db)) ->
     value out = None /\
     (forall k, In k (stream_keys (store out)) <->
                In k (stream_keys db) /\ StreamKey.BroadcasterID k <> id) /\
     (forall key s, In key (stream_keys db) -> StreamKey.BroadcasterID key = id ->
                    Stream.StreamKeyID s = StreamKey.ID key -> ~ In s (streams (store out))) /\
     (forall key now dbnow req,
         In key (stream_keys db) -> StreamKey.BroadcasterID key = id ->
         AuthRequest.Action req = "publish" ->
         request_key_value req = StreamKey.KeyValue key ->
         StreamKey.KeyValue key <> "" ->
         value (AuthService_Authenticate now dbnow req (store out)) =
           Ok (reject "invalid stream key"))) /\
    (~ In id (map Broadcaster.ID (broadcasters db)) ->
     value out = Some (Domain ErrNotFound) /\ store out = db).
Proof.
  intros id db C [RK RS] out. subst out. rewrite BroadcasterService_Delete_run. split.
  - intros B.
    assert (R : (rows_affected (broadcaster_has_id id) (broadcasters db) =? 0) = false).
    { apply in_map_iff in B as [b [E I]].
      apply (rows_affected_selected _ _ b I). unfold broadcaster_has_id. rewrite E.
      apply Nat.eqb_refl. }
    rewrite R. unfold value, store. cbn [fst snd].
    assert (Keys : forall k, In k (stream_keys (delete_broadcaster id db)) <->
                             In k (stream_keys db) /\ StreamKey.BroadcasterID k <> id).
    { intros k. unfold delete_broadcaster. cbn [stream_keys]. rewrite filter_In.
      unfold key_of_broadcaster. rewrite negb_true_iff, Nat.eqb_neq. reflexivity. }
    split; [reflexivity|]. split; [exact Keys|]. split.
    + intros key s Ik Bk Ks I. unfold delete_broadcaster in I. cbn [streams] in I.
      apply filter_In in I as [_ N]. apply negb_true_iff, mem_uuid_false in N.
      apply N. rewrite Ks. apply in_map. apply filter_In. split; [exact Ik|].
      unfold key_of_broadcaster. now apply Nat.eqb_eq.
    + intros key now dbnow req Ik Bk Ha Hv Hne.
      rewrite Authenticate_publish_run by (auto; now rewrite Hv). cbv zeta. rewrite Hv.
      destruct (find _ (stream_keys (delete_broadcaster id db))) as [k|] eqn:F; [|reflexivity].
      exfalso. apply find_some in F as [I V]. apply Keys in I as [I N].
      apply N. unfold key_has_value in V. apply String.eqb_eq in V.
      pose proof (find_by_value _ key (stream_keys_key_value_key db C) Ik) as Fk.
      pose proof (find_by_value _ k (stream_keys_key_value_key db C) I) as Fk'.
      rewrite V in Fk'. rewrite Fk in Fk'. inversion Fk'. now subst k.
  - intros B.
    assert (R : rows_affected (broadcaster_has_id id) (broadcasters db) = 0).
    { unfold rows_affected. apply length_zero_iff_nil, filter_nil_iff. intros b I.
      unfold broadcaster_has_id. apply Nat.eqb_neq. intros E. apply B. rewrite <- E.
      now apply in_map. }
    rewrite R. unfold value, store. cbn [Nat.eqb fst snd]. split; [reflexivity|].
    assert (NoKey : forall k, In k (stream_keys db) -> key_of_broadcaster id k = false).
    { intros k I. unfold key_of_broadcaster. apply Nat.eqb_neq. intros E. apply B.
      rewrite <- E. now apply RK. }
    unfold delete_broadcaster.
    rewrite (proj2 (filter_nil_iff (key_of_broadcaster id) (stream_keys db)) NoKey).
    rewrite !filter_all; [now destruct db| | |].
    + intros s _. reflexivity.
    + intros k I. now rewrite (NoKey k I).
    + intros b I. unfold broadcaster_has_id. apply negb_true_iff, Nat.eqb_neq.
      intros E. apply B. rewrite <- E. now apply in_map.
Qed.

(* ================================================================== *)
(** * The HMAC middleware *)
(* ================================================================== *)

Lemma within_drift now ts :
  ((since_unix now ts <? - MaxTimestampDrift) || (MaxTimestampDrift <? since_unix now ts))%Z
    = false <->
  (- MaxTimestampDrift <= now - ts * 1000000000 <= MaxTimestampDrift)%Z.
Proof.
  unfold since_unix, saturate, MaxTimestampDrift.
  change (2 ^ 63)%Z with 9223372036854775808%Z.
  rewrite orb_false_iff, !Z.ltb_ge. lia.
Qed.

(** [ParseInt] reads back what [%d] prints.  The digits of a positive
    number are accumulated as [Pos.of_uint_acc] does. *)
Lemma parse_digits_acc (d : Decimal.uint) (p : positive) :
  parse_digits (NilEmpty.string_of_uint d) (Zpos p)
  = Some (Zpos (Pos.of_uint_acc d p)).
Proof.
  revert p; induction d; intros p; cbn [NilEmpty.string_of_uint parse_digits Pos.of_uint_acc];
    [reflexivity|..];
    match goal with
    | |- context [is_digit ?c] => change (is_digit c) with true; cbv iota
    end;
    match goal with
    | |- parse_digits _ (_ + ?n)%Z = Some (Zpos (Pos.of_uint_acc _ ?q)) =>
        let v := eval cbv in n in change n with v;
        rewrite <- (IHd q); f_equal; lia
    end.
Qed.

Lemma parse_digits_of_uint (d : Decimal.uint) :
  parse_digits (NilEmpty.string_of_uint d) 0 = Some (Z.of_N (Pos.of_uint d)).
Proof.
  induction d; cbn [NilEmpty.string_of_uint parse_digits Pos.of_uint];
    [reflexivity|..];
    match goal with
    | |- context [is_digit ?c] => change (is_digit c) with true; cbv iota
    end;
    [exact IHd|..];
    match goal with
    | |- parse_digits _ ?z = _ =>
        let v := eval cbv in z in change z with v
    end; rewrite parse_digits_acc; reflexivity.
Qed.

Lemma string_of_uint_first (d : Decimal.uint) :
  d <> Decimal.Nil ->
  exists c r, NilEmpty.string_of_uint d = String c r /\ is_digit c = true.
Proof.
  destruct d; intros H; [congruence|..]; cbn; eexists; eexists; split; reflexivity.
Qed.

Lemma ParseInt_digits (d : Decimal.uint) :
  d <> Decimal.Nil ->
  ParseInt (NilEmpty.string_of_uint d)
  = (if (Z.of_N (Pos.of_uint d) <? 2 ^ 63)%Z then Some (Z.of_N (Pos.of_uint d)) else None).
Proof.
  intros H. pose proof (parse_digits_of_uint d) as P.
  destruct (string_of_uint_first d H) as (c & r & E & D).
  rewrite E in *. unfold ParseInt.
  assert (Ascii.eqb c "+" || Ascii.eqb c "-" = false) as ->.
  { destruct (Ascii.eqb_spec c "+") as [->|]; [discriminate D|].
    destruct (Ascii.eqb_spec c "-") as [->|]; [discriminate D|]. reflexivity. }
  assert (Ascii.eqb c "-" = false) as ->.
  { destruct (Ascii.eqb_spec c "-") as [->|]; [discriminate D|]. reflexivity. }
  cbv zeta. rewrite P. reflexivity.
Qed.

Lemma ParseInt_minus_digits (d : Decimal.uint) :
  d <> Decimal.Nil ->
  ParseInt (String "-" (NilEmpty.string_of_uint d))
  = (if (Z.of_N (Pos.of_uint d) <=? 2 ^ 63)%Z then Some (- Z.of_N (Pos.of_uint d))%Z else None).
Proof.
  intros H. pose proof (parse_digits_of_uint d) as P.
  destruct (string_of_uint_first d H) as (c & r & E & D).
  rewrite E in *. unfold ParseInt.
  change (Ascii.eqb "-" "+" || Ascii.eqb "-" "-") with true.
  change (Ascii.eqb "-" "-") with true.
  cbv zeta iota. rewrite P. reflexivity.
Qed.

Lemma ParseInt_format_int (z : Z) :
  ParseInt (format_int z)
  = (if (- 2 ^ 63 <=? z)%Z && (z <? 2 ^ 63)%Z then Some z else None).
Proof.
  unfold format_int. destruct z as [|p|p]; [reflexivity|..];
    cbn [Z.to_int NilZero.string_of_int];
    pose proof (DecimalPos.Unsigned.to_uint_nonnil p) as N;
    pose proof (DecimalPos.Unsigned.of_to p) as O.
  - replace (NilZero.string_of_uint (Pos.to_uint p))
      with (NilEmpty.string_of_uint (Pos.to_uint p))
      by (destruct (Pos.to_uint p); [congruence|reflexivity..]).
    rewrite ParseInt_digits, O by exact N.
    change (Z.of_N (N.pos p)) with (Z.pos p).
    replace (- 2 ^ 63 <=? Z.pos p)%Z with true by (symmetry; apply Z.leb_le; lia).
    reflexivity.
  - replace (NilZero.string_of_uint (Pos.to_uint p))
      with (NilEmpty.string_of_uint (Pos.to_uint p))
      by (destruct (Pos.to_uint p); [congruence|reflexivity..]).
    rewrite ParseInt_minus_digits, O by exact N.
    change (Z.of_N (N.pos p)) with (Z.pos p).
    change (- Z.pos p)%Z with (Z.neg p).
    replace (Z.neg p <? 2 ^ 63)%Z with true by (symmetry; apply Z.ltb_lt; lia).
    rewrite andb_true_r.
    destruct (Z.leb_spec (Z.pos p) (2 ^ 63)), (Z.leb_spec (- 2 ^ 63) (Z.neg p)); try reflexivity; lia.
Qed.

Lemma format_int_not_empty (z : Z) : format_int z <> "".
Proof.
  unfold format_int. destruct z as [|p|p]; cbn [Z.to_int NilZero.string_of_int];
    [discriminate| |discriminate].
  pose proof (DecimalPos.Unsigned.to_uint_nonnil p) as N.
  destruct (string_of_uint_first _ N) as (c & r & E & _).
  destruct (Pos.to_uint p); [congruence|..];
    cbn [NilZero.string_of_uint]; rewrite E; discriminate.
Qed.

Section MiddlewareFacts.

Variable hmac_sha256_hex : string -> string -> string.

(** The requests [Authenticate] forwards, read off its chain of checks. *)
Lemma Authenticate_forwarded_iff :
  forall (keyStore : KeyStore) (now : Z) (r : SignedRequest.t) (k b : string),
    AuthMiddleware_Authenticate hmac_sha256_hex keyStore now r = Forwarded k b <->
    k = SignedRequest.XAPIKey r /\
    k <> "" /\ SignedRequest.XSignature r <> "" /\ SignedRequest.XTimestamp r <> "" /\
    exists ts secret,
      ParseInt (SignedRequest.XTimestamp r) = Some ts /\
      (- MaxTimestampDrift <= now - ts * 1000000000 <= MaxTimestampDrift)%Z /\
      keyStore k = Some secret /\
      SignedRequest.Body r = Some b /\
      SignedRequest.XSignature r =
        hmac_sha256_hex secret
          (stringToSign (SignedRequest.Method r) (SignedRequest.URLPath r) ts b).
Proof.
  intros keyStore now r k b. unfold AuthMiddleware_Authenticate. cbv zeta.
  destruct (String.eqb_spec (SignedRequest.XAPIKey r) "") as [Ek|Nk]; cbn [orb].
  { split; [discriminate|]. intros [-> [N _]]. contradiction. }
  destruct (String.eqb_spec (SignedRequest.XSignature r) "") as [Es|Ns]; cbn [orb].
  { split; [discriminate|]. intros [_ [_ [N _]]]. contradiction. }
  destruct (String.eqb_spec (SignedRequest.XTimestamp r) "") as [Et|Nt]; cbn [orb].
  { split; [discriminate|]. intros [_ [_ [_ [N _]]]]. contradiction. }
  destruct (ParseInt (SignedRequest.XTimestamp r)) as [ts|] eqn:P.
  2:{ split; [discriminate|]. intros [_ [_ [_ [_ [ts [s [Q _]]]]]]]. discriminate. }
  destruct (_ || _)%bool eqn:D.
  { split; [discriminate|]. intros [_ [_ [_ [_ [ts' [s [Q [W _]]]]]]]].
    inversion Q; subst ts'. apply within_drift in W. congruence. }
  apply within_drift in D.
  destruct (keyStore (SignedRequest.XAPIKey r)) as [secret|] eqn:K.
  2:{ split; [discriminate|]. intros [-> [_ [_ [_ [ts' [s [_ [_ [Q _]]]]]]]]]. congruence. }
  destruct (SignedRequest.Body r) as [body|] eqn:B.
  2:{ split; [discriminate|]. intros [_ [_ [_ [_ [ts' [s [_ [_ [_ [Q _]]]]]]]]]]. discriminate. }
  destruct (String.eqb_spec (SignedRequest.XSignature r)
              (hmac_sha256_hex secret
                 (stringToSign (SignedRequest.Method r) (SignedRequest.URLPath r) ts body)))
    as [Sig|Sig]; cbn [negb].
  - split.
    + intros H. inversion H; subst k b. repeat split; auto. exists ts, secret. auto.
    + intros [-> [_ [_ [_ [ts' [s [Q [_ [Ks [Bb _]]]]]]]]]]. inversion Bb. reflexivity.
  - split; [discriminate|].
    intros [-> [_ [_ [_ [ts' [s [Q [_ [Ks [Bb Sg]]]]]]]]]].
    inversion Q; subst ts'. inversion Bb; subst b. rewrite K in Ks. inversion Ks; subst s.
    contradiction.
Qed.

(** X22. The middleware hands a request to the protected handler exactly
    when the three headers are present, the timestamp is a decimal 64-bit
    integer within five minutes of the clock (bounds included), the key
    store knows the API key, the body can be read, and the signature equals
    the hex HMAC-SHA256, under that key's secret, of method, path, the
    timestamp in decimal and the body, each on its own line.  The request
    is forwarded with that API key and the body it was signed with. *)
Theorem middleware_forwards_exactly_signed_requests :
  forall (keyStore : KeyStore) (now : Z) (r : SignedRequest.t) (k b : string),
    AuthMiddleware_Authenticate hmac_sha256_hex keyStore now r = Forwarded k b <->
    k = SignedRequest.XAPIKey r /\
    k <> "" /\ SignedRequest.XSignature r <> "" /\ SignedRequest.XTimestamp r <> "" /\
    exists ts secret,
      ParseInt (SignedRequest.XTimestamp r) = Some ts /\
      (- MaxTimestampDrift <= now - ts * 1000000000 <= MaxTimestampDrift)%Z /\
      keyStore k = Some secret /\
      SignedRequest.Body r = Some b /\
      SignedRequest.XSignature r =
        hmac_sha256_hex secret
          (stringToSign (SignedRequest.Method r) (SignedRequest.URLPath r) ts b).
Proof.
  exact Authenticate_forwarded_iff.
Qed.

(** X23. Every request the middleware refuses is answered with a problem
    document naming the request path, with status 401 and title
    "Unauthorized", except that a body that cannot be read gives 500; and a
    request lacking any of the three headers is refused whatever the key
    store, the clock and the body are. *)
Theorem middleware_refusals :
  forall (keyStore : KeyStore) (now : Z) (r : SignedRequest.t),
    (forall status title detail instance,
        AuthMiddleware_Authenticate hmac_sha256_hex keyStore now r =
          Refused status title detail instance ->
        instance = SignedRequest.URLPath r /\
        ((status = StatusUnauthorized /\ title = "Unauthorized") \/
         (status = StatusInternalServerError /\ SignedRequest.Body r = None))) /\
    (SignedRequest.XAPIKey r = "" \/ SignedRequest.XSignature r = "" \/
     SignedRequest.XTimestamp r = "" ->
     AuthMiddleware_Authenticate hmac_sha256_hex keyStore now r =
       Refused StatusUnauthorized "Unauthorized"
         "Missing authentication headers (X-API-Key, X-Signature, X-Timestamp)"
         (SignedRequest.URLPath r)).
Proof.
  intros keyStore now r. split.
  - intros status title detail instance. unfold AuthMiddleware_Authenticate. cbv zeta.
    destruct (_ || _ || _)%bool; [intros H; inversion H; auto|].
    destruct (ParseInt _); [|intros H; inversion H; auto].
    destruct (_ || _)%bool; [intros H; inversion H; auto|].
    destruct (keyStore _); [|intros H; inversion H; auto].
    destruct (SignedRequest.Body r); [|intros H; inversion H; auto].
    destruct (negb _); [intros H; inversion H; auto|discriminate].
  - intros H. unfold AuthMiddleware_Authenticate. cbv zeta.
    destruct H as [H|[H|H]]; rewrite H; cbn [String.eqb orb]; rewrite ?orb_true_r; reflexivity.
Qed.

(** X24. The signature covers the value of the timestamp, not its spelling:
    two requests that differ only in how X-Timestamp writes the same
    integer (a leading plus sign, leading zeros) get the same verdict, so
    one signature serves them both. *)
Theorem middleware_ignores_timestamp_spelling :
  forall (keyStore : KeyStore) (now : Z) (method path apiKey signature t1 t2 : string)
         (body : option string),
    t1 <> "" -> t2 <> "" ->
    ParseInt t1 = ParseInt t2 ->
    AuthMiddleware_Authenticate hmac_sha256_hex keyStore now
      (SignedRequest.mk method path apiKey signature t1 body) =
    AuthMiddleware_Authenticate hmac_sha256_hex keyStore now
      (SignedRequest.mk method path apiKey signature t2 body).
Proof.
  intros keyStore now method path apiKey signature t1 t2 body N1 N2 E.
  unfold AuthMiddleware_Authenticate. cbv zeta.
  cbn [SignedRequest.XAPIKey SignedRequest.XSignature SignedRequest.XTimestamp
       SignedRequest.URLPath SignedRequest.Method SignedRequest.Body].
  rewrite E.
  destruct (String.eqb_spec t1 "") as [|_]; [contradiction|].
  destruct (String.eqb_spec t2 "") as [|_]; [contradiction|].
  reflexivity.
Qed.

(** X25. With the environment key store the API key is only a label: every
    non-empty key has the same secret and the key is not part of the signed
    text, so a request that is forwarded under one key is forwarded, with
    the same signature, under any other non-empty key.  The static key
    store refuses every key but its own. *)
Theorem env_key_store_accepts_any_label :
  forall (secret : string) (now : Z) (method path apiKey apiKey' signature timestamp b : string)
         (body : option string),
    apiKey' <> "" ->
    (AuthMiddleware_Authenticate hmac_sha256_hex (EnvKeyStore_GetSecret secret) now
       (SignedRequest.mk method path apiKey signature timestamp body) = Forwarded apiKey b ->
     AuthMiddleware_Authenticate hmac_sha256_hex (EnvKeyStore_GetSecret secret) now
       (SignedRequest.mk method path apiKey' signature timestamp body) = Forwarded apiKey' b) /\
    (forall own,
        apiKey' <> own ->
        forall k' b',
          AuthMiddleware_Authenticate hmac_sha256_hex (StaticKeyStore_GetSecret own secret) now
            (SignedRequest.mk method path apiKey' signature timestamp body) <> Forwarded k' b').
Proof.
  intros secret now method path apiKey apiKey' signature timestamp b body N. split.
  - intros H. apply Authenticate_forwarded_iff in H.
    cbn [SignedRequest.XAPIKey SignedRequest.XSignature SignedRequest.XTimestamp
         SignedRequest.URLPath SignedRequest.Method SignedRequest.Body] in H.
    destruct H as [_ [_ [Ns [Nt [ts [s [P [W [K [B S]]]]]]]]]].
    apply Authenticate_forwarded_iff.
    cbn [SignedRequest.XAPIKey SignedRequest.XSignature SignedRequest.XTimestamp
         SignedRequest.URLPath SignedRequest.Method SignedRequest.Body].
    repeat split; auto. exists ts, secret. repeat split; auto; try apply W.
    + unfold EnvKeyStore_GetSecret. now destruct (String.eqb_spec apiKey' "").
    + unfold EnvKeyStore_GetSecret in K. destruct (String.eqb apiKey ""); [discriminate|].
      inversion K; subst s. exact S.
  - intros own D k' b' H. apply Authenticate_forwarded_iff in H.
    cbn [SignedRequest.XAPIKey] in H.
    destruct H as [-> [_ [_ [_ [ts [s [_ [_ [K _]]]]]]]]].
    unfold StaticKeyStore_GetSecret in K.
    destruct (String.eqb_spec apiKey' own); [contradiction|discriminate].
Qed.

(** X26. A client that signs as the middleware verifies is let through: for
    a known non-empty API key, a 64-bit timestamp within five minutes of the
    clock sent in decimal as [%d] prints it, and the hex HMAC-SHA256 of
    method, path, timestamp and body under the key's secret as signature,
    the request is forwarded with its body. *)
Theorem middleware_accepts_a_correctly_signed_request :
  forall (keyStore : KeyStore) (now : Z) (method path apiKey secret : string) (t : Z)
         (body : string),
    let signature := hmac_sha256_hex secret (stringToSign method path t body) in
    apiKey <> "" ->
    keyStore apiKey = Some secret ->
    (- 2 ^ 63 <= t < 2 ^ 63)%Z ->
    (- MaxTimestampDrift <= now - t * 1000000000 <= MaxTimestampDrift)%Z ->
    signature <> "" ->
    AuthMiddleware_Authenticate hmac_sha256_hex keyStore now
      (SignedRequest.mk method path apiKey signature (format_int t) (Some body)) =
    Forwarded apiKey body.
Proof.
  intros keyStore now method path apiKey secret t body signature Nk K R W Ns.
  apply Authenticate_forwarded_iff.
  cbn [SignedRequest.XAPIKey SignedRequest.XSignature SignedRequest.XTimestamp
       SignedRequest.URLPath SignedRequest.Method SignedRequest.Body].
  split; [reflexivity|]. split; [exact Nk|]. split; [exact Ns|].
  split; [apply format_int_not_empty|].
  exists t, secret. split.
  - rewrite ParseInt_format_int.
    replace (- 2 ^ 63 <=? t)%Z with true by (symmetry; apply Z.leb_le; lia).
    replace (t <? 2 ^ 63)%Z with true by (symmetry; apply Z.ltb_lt; lia).
    reflexivity.
  - split; [exact W|]. split; [exact K|]. split; reflexivity.
Qed.

End MiddlewareFacts.

(* ================================================================== *)
(** * Routing of the webhook endpoints *)
(* ================================================================== *)

Lemma HasSuffix_get (s suffix : string) (i : nat) :
  HasSuffix s suffix = true ->
  i < String.length suffix ->
  String.get (i + (String.length s - String.length suffix)) s = String.get i suffix.
Proof.
  unfold HasSuffix. intros H L. apply andb_true_iff in H as [_ E].
  apply String.eqb_eq in E. rewrite <- E at 2.
  symmetry. now apply substring_correct1.
Qed.

Lemma not_ready_is_not_ready (path : string) :
  HasSuffix path "/not-ready" = true -> HasSuffix path "/ready" = false.
Proof.
  intros N. destruct (HasSuffix path "/ready") eqn:R; [exfalso|reflexivity].
  assert (L : 10 <= String.length path).
  { unfold HasSuffix in N. apply andb_true_iff in N as [N _]. now apply Nat.leb_le in N. }
  pose proof (HasSuffix_get path "/not-ready" 4 N) as G1.
  pose proof (HasSuffix_get path "/ready" 0 R) as G2.
  cbn [String.length] in G1, G2.
  replace (4 + (String.length path - 10)) with (String.length path - 6) in G1 by lia.
  rewrite Nat.add_0_l in G2.
  specialize (G1 ltac:(lia)). specialize (G2 ltac:(lia)).
  rewrite G1 in G2. discriminate G2.
Qed.

Lemma route_by_suffix_cases now dbnow entropy entropy' r path :
  route_by_suffix now dbnow entropy entropy' r path =
    run_operation (OpReady now entropy entropy'
                     (Request.mk (WebhookRequest.Method r) (WebhookRequest.URLPath r)
                                 (WebhookRequest.AsReady r))) \/
  route_by_suffix now dbnow entropy entropy' r path =
    run_operation (OpNotReady dbnow
                     (Request.mk (WebhookRequest.Method r) (WebhookRequest.URLPath r)
                                 (WebhookRequest.AsNotReady r))) \/
  route_by_suffix now dbnow entropy entropy' r path =
    ret (WriteError (WebhookRequest.URLPath r) (ErrNotFound_ "unknown webhook endpoint")).
Proof.
  unfold route_by_suffix.
  destruct (HasSuffix path "/ready"); [now left|].
  destruct (HasSuffix path "/not-ready"); [right; now left|right; now right].
Qed.

(** X27. The webhook router.  A request that is not a POST is answered 400
    and the store is not consulted.  A POST whose path template (or, when
    no route is set, whose URL path) ends in "/not-ready" is handled by
    [handleNotReady] and never by [handleReady], although the test for
    "/ready" comes first; one that ends in neither suffix is answered 404.
    Whatever the request, the store it leaves is reachable when the store
    it found was, so the constraints of the store hold behind the router. *)
Theorem webhook_router_dispatches_by_suffix :
  forall (now dbnow : Time) (entropy entropy' : nat) (r : WebhookRequest.t) (db : DB),
    (WebhookRequest.Method r <> "POST" ->
     WebhookHandler_ServeHTTP now dbnow entropy entropy' r db =
       (WriteError (WebhookRequest.URLPath r) (ErrInvalidRequest "method not allowed"), db, [])) /\
    (forall path,
        WebhookRequest.Method r = "POST" ->
        WebhookRequest.Route r = Some (Some path) \/
        (WebhookRequest.Route r = None /\ WebhookRequest.URLPath r = path) ->
        (HasSuffix path "/not-ready" = true ->
         WebhookHandler_ServeHTTP now dbnow entropy entropy' r db =
           WebhookHandler_handleNotReady dbnow
             (Request.mk "POST" (WebhookRequest.URLPath r) (WebhookRequest.AsNotReady r)) db) /\
        (HasSuffix path "/ready" = true ->
         WebhookHandler_ServeHTTP now dbnow entropy entropy' r db =
           WebhookHandler_handleReady now entropy entropy'
             (Request.mk "POST" (WebhookRequest.URLPath r) (WebhookRequest.AsReady r)) db) /\
        (HasSuffix path "/ready" = false -> HasSuffix path "/not-ready" = false ->
         WebhookHandler_ServeHTTP now dbnow entropy entropy' r db =
           (WriteError (WebhookRequest.URLPath r) (ErrNotFound_ "unknown webhook endpoint"),
            db, []))) /\
    (reachable db ->
     reachable (store (WebhookHandler_ServeHTTP now dbnow entropy entropy' r db))).
Proof.
  intros now dbnow entropy entropy' r db. split; [|split].
  - intros N. unfold WebhookHandler_ServeHTTP.
    destruct (String.eqb_spec (WebhookRequest.Method r) "POST"); [contradiction|reflexivity].
  - intros path M P.
    assert (E : WebhookHandler_ServeHTTP now dbnow entropy entropy' r db =
                route_by_suffix now dbnow entropy entropy' r path db).
    { unfold WebhookHandler_ServeHTTP. rewrite M. cbn [String.eqb Ascii.eqb Bool.eqb negb].
      destruct P as [-> | [-> <-]]; reflexivity. }
    rewrite E. unfold route_by_suffix. rewrite M.
    split; [|split].
    + intros N. now rewrite (not_ready_is_not_ready path N), N.
    + intros R. now rewrite R.
    + intros R N. now rewrite R, N.
  - intros R. unfold WebhookHandler_ServeHTTP.
    destruct (negb _); [exact R|].
    destruct (WebhookRequest.Route r) as [[path|]|]; [|exact R|].
    + destruct (route_by_suffix_cases now dbnow entropy entropy' r path) as [E|[E|E]];
        rewrite E; [apply reach_run|apply reach_run|]; exact R.
    + destruct (route_by_suffix_cases now dbnow entropy entropy' r (WebhookRequest.URLPath r))
        as [E|[E|E]]; rewrite E; [apply reach_run|apply reach_run|]; exact R.
Qed.

(* ================================================================== *)
(** * The further properties on the sample stores *)
(* ================================================================== *)

Lemma references_hold_db_idle : references_hold db_idle.
Proof.
  split; intros x I; simpl in I; intuition (subst; simpl; auto).
Qed.

Lemma revoke_without_stream_skips_mediamtx_witness :
  let out := StreamKeyService_Revoke mediamtx_down 300%Z 301%Z 7 db_idle in
  find (key_has_id 7) (stream_keys db_idle) = Some key_live /\
  StreamKey.Status key_live = StreamKeyStatusActive /\
  find (active_of_key 7) (streams db_idle) = None /\
  value out = None /\
  streams (store out) = [] /\
  mtx_calls (events out) = [].
Proof.
  cbv zeta.
  pose proof (revoke_without_stream_skips_mediamtx mediamtx_down 300%Z 301%Z 7 db_idle key_live
                eq_refl eq_refl eq_refl) as R.
  cbv zeta in R. destruct R as [R1 [R2 [_ R4]]].
  split; [reflexivity|]. split; [reflexivity|]. split; [reflexivity|].
  split; [exact R1|]. split; [exact R2|]. rewrite R4. reflexivity.
Defined.

Lemma revoke_unknown_or_malformed_id_witness :
  find (key_has_id 99) (stream_keys db_idle) = None /\
  value (StreamKeyService_Revoke mediamtx_down 300%Z 301%Z 99 db_idle) =
    Some (Domain ErrNotFound) /\
  Response.StatusCode
    (value (StreamKeyHandler_revokeStreamKey mediamtx_down 300%Z 301%Z "/stream-keys/99"
              (Some 99) db_idle)) = StatusNotFound /\
  Response.StatusCode
    (value (StreamKeyHandler_revokeStreamKey mediamtx_down 300%Z 301%Z "/stream-keys/x"
              None db_idle)) = StatusBadRequest.
Proof.
  destruct (revoke_unknown_or_malformed_id mediamtx_down 300%Z 301%Z "/stream-keys/99" db_idle)
    as [A _].
  destruct (A 99 eq_refl) as [A1 A2].
  destruct (revoke_unknown_or_malformed_id mediamtx_down 300%Z 301%Z "/stream-keys/x" db_idle)
    as [_ B].
  split; [reflexivity|]. split; [exact (f_equal value A1)|].
  split; [exact (f_equal (fun x => Response.StatusCode (value x)) A2)|].
  exact (f_equal (fun x => Response.StatusCode (value x)) B).
Defined.

Lemma webhooks_reject_malformed_notifications_witness :
  Response.StatusCode
    (value (WebhookHandler_handleReady 200%Z 20 0 (Request.mk "POST" "/webhook/ready" None)
              db_idle)) = StatusBadRequest /\
  WebhookHandler_handleReady 200%Z 20 0 (ready_request "" "rtmpConn" "c1") db_idle =
    (WriteError "/webhook/ready" (ErrInvalidRequest "path is required"), db_idle, []) /\
  Response.StatusCode
    (value (WebhookHandler_handleNotReady 201%Z (Request.mk "POST" "/webhook/not-ready" None)
              db_live)) = StatusBadRequest /\
  WebhookHandler_handleNotReady 201%Z (not_ready_request "") db_live =
    (WriteError "/webhook/not-ready" (ErrInvalidRequest "path is required"), db_live, []).
Proof.
  destruct (webhooks_reject_malformed_notifications 200%Z 201%Z 20 0
              (Request.mk "POST" "/webhook/ready" None)
              (Request.mk "POST" "/webhook/not-ready" None) db_idle) as [A _].
  destruct (webhooks_reject_malformed_notifications 200%Z 201%Z 20 0
              (ready_request "" "rtmpConn" "c1")
              (Request.mk "POST" "/webhook/not-ready" None) db_idle) as [_ [B _]].
  destruct (webhooks_reject_malformed_notifications 200%Z 201%Z 20 0
              (ready_request "" "rtmpConn" "c1")
              (Request.mk "POST" "/webhook/not-ready" None) db_live) as [_ [_ [C _]]].
  destruct (webhooks_reject_malformed_notifications 200%Z 201%Z 20 0
              (ready_request "" "rtmpConn" "c1") (not_ready_request "") db_live)
    as [_ [_ [_ D]]].
  split; [rewrite (A eq_refl); reflexivity|].
  split; [exact (B _ eq_refl eq_refl)|].
  split; [rewrite (C eq_refl); reflexivity|].
  exact (D _ eq_refl eq_refl).
Defined.

Lemma inactive_keys_are_never_modified_witness :
  constraints_hold db_live /\
  In key_gone (stream_keys db_live) /\
  StreamKey.Status key_gone <> StreamKeyStatusActive /\
  In key_gone
     (stream_keys
        (store (run_operation
                  (OpRevoke mediamtx_down 400%Z 401%Z "/stream-keys/9" (Some 9)) db_live))).
Proof.
  assert (H1 : constraints_hold db_live)
    by exact (reachable_constraints_hold _ reachable_db_live).
  assert (H2 : In key_gone (stream_keys db_live)) by (simpl; auto).
  assert (H3 : StreamKey.Status key_gone <> StreamKeyStatusActive) by discriminate.
  split; [exact H1|]. split; [exact H2|]. split; [exact H3|].
  exact (inactive_keys_are_never_modified
           (OpRevoke mediamtx_down 400%Z 401%Z "/stream-keys/9" (Some 9)) db_live key_gone
           H1 H2 H3).
Defined.

Lemma ended_streams_are_never_modified_witness :
  In stream_done (streams db_done) /\
  Stream.Status stream_done = StreamStatusEnded /\
  In stream_done
     (streams (store (run_operation (OpNotReady 300%Z (not_ready_request "sk_live")) db_done))).
Proof.
  assert (H1 : In stream_done (streams db_done)) by (simpl; auto).
  assert (H2 : Stream.Status stream_done = StreamStatusEnded) by reflexivity.
  split; [exact H1|]. split; [exact H2|].
  exact (ended_streams_are_never_modified (OpNotReady 300%Z (not_ready_request "sk_live"))
           db_done stream_done H1 H2).
Defined.

Lemma authenticate_admits_iff_valid_and_idle_witness :
  value (AuthService_Authenticate 140%Z 141%Z (publish "sk_live" "live") db_idle) =
    Ok (AuthResult.mk true (Some 7) "authentication successful") /\
  (AuthRequest.Action (publish "sk_live" "live") <> "publish" \/
   (request_key_value (publish "sk_live" "live") <> "" /\
    exists key,
      find (key_has_value (request_key_value (publish "sk_live" "live")))
           (stream_keys db_idle) = Some key /\
      StreamKey.IsValid 140%Z key = true /\
      find (active_of_key (StreamKey.ID key)) (streams db_idle) = None)).
Proof.
  assert (V : value (AuthService_Authenticate 140%Z 141%Z (publish "sk_live" "live") db_idle) =
              Ok (AuthResult.mk true (Some 7) "authentication successful")) by reflexivity.
  split; [exact V|].
  exact (proj1 (authenticate_admits_iff_valid_and_idle 140%Z 141%Z (publish "sk_live" "live")
                  db_idle _ V) eq_refl).
Defined.

Lemma authenticate_key_as_password_or_path_witness :
  "sk_live" <> "" /\
  AuthService_Authenticate 140%Z 141%Z
    (AuthRequest.mk "alice" "sk_live" "10.0.0.1" "publish" "live" "rtmp" "c1" "") db_idle =
  AuthService_Authenticate 140%Z 141%Z
    (AuthRequest.mk "" "" "10.0.0.2" "publish" "/sk_live" "rtsp" "c2" "q=1") db_idle.
Proof.
  assert (N : "sk_live" <> "") by discriminate.
  split; [exact N|].
  exact (authenticate_key_as_password_or_path 140%Z 141%Z db_idle "sk_live"
           "alice" "" "10.0.0.1" "10.0.0.2" "live" "rtmp" "rtsp" "c1" "c2" "" "q=1" N).
Defined.

Lemma revoked_key_no_longer_authenticates_witness :
  let revoked := StreamKeyService_Revoke mediamtx_down 300%Z 301%Z 7 db_idle in
  constraints_hold db_idle /\
  find (key_has_id 7) (stream_keys db_idle) = Some key_live /\
  value revoked = None /\
  value (AuthService_Authenticate 500%Z 501%Z (publish "sk_live" "live") (store revoked)) =
    Ok (reject "stream key revoked") /\
  value (AuthHandler_ServeHTTP 500%Z 501%Z
           (Request.mk "POST" "/auth" (Some (publish "sk_live" "live"))) (store revoked)) =
    WriteHeader StatusUnauthorized.
Proof.
  cbv zeta.
  assert (H1 : constraints_hold db_idle)
    by exact (reachable_constraints_hold _ reachable_db_idle).
  assert (N : StreamKey.KeyValue key_live <> "") by discriminate.
  pose proof (revoked_key_no_longer_authenticates mediamtx_down 300%Z 301%Z 500%Z 501%Z 7
                db_idle key_live (publish "sk_live" "live") "/auth"
                H1 eq_refl eq_refl eq_refl eq_refl N) as R.
  cbv zeta in R. destruct R as [R1 [R2 R3]].
  split; [exact H1|]. split; [reflexivity|]. split; [exact R1|].
  split; [rewrite R2; reflexivity|]. exact R3.
Defined.

Lemma stream_lifecycle_gates_admission_witness :
  let db1 := store (WebhookHandler_handleReady 200%Z 20 0
                      (Request.mk "POST" "/webhook/ready"
                         (Some (WebhookReadyRequest.mk "sk_live" "rtmpConn" "c1"))) db_idle) in
  let db2 := store (WebhookHandler_handleNotReady 260%Z
                      (Request.mk "POST" "/webhook/not-ready"
                         (Some (WebhookNotReadyRequest.mk "sk_live"))) db1) in
  find (key_has_value "sk_live") (stream_keys db_idle) = Some key_live /\
  active_count 7 db1 = 1 /\
  value (AuthService_Authenticate 210%Z 211%Z (publish "sk_live" "live") db1) =
    Ok (reject "stream key already in use") /\
  active_count 7 db2 = 0 /\
  value (AuthService_Authenticate 270%Z 271%Z (publish "sk_live" "live") db2) =
    Ok (AuthResult.mk true (Some 7) "authentication successful").
Proof.
  cbv zeta.
  assert (N : StreamKey.KeyValue key_live <> "") by discriminate.
  pose proof (stream_lifecycle_gates_admission 200%Z 260%Z 210%Z 211%Z 270%Z 271%Z 20 0
                "rtmpConn" "c1" db_idle key_live (publish "sk_live" "live")
                eq_refl N eq_refl eq_refl eq_refl eq_refl eq_refl eq_refl eq_refl eq_refl
                eq_refl eq_refl) as R.
  cbv zeta in R. destruct R as [R1 [R2 [_ [R4 R5]]]].
  split; [reflexivity|]. split; [exact R1|]. split; [exact R2|]. split; [exact R4|].
  exact R5.
Defined.

Lemma map_domain_error_unwraps_and_hides_witness :
  MapDomainError (Wrap "failed to create stream key" (PgError "23503")) =
    ErrInternalServer "An unexpected error occurred" /\
  MapDomainError (Wrap "failed to revoke" (Domain ErrNotFound)) =
    MapDomainError (Domain ErrNotFound).
Proof.
  destruct (map_domain_error_unwraps_and_hides (PgError "23503")) as [A [B _]].
  destruct (map_domain_error_unwraps_and_hides (Domain ErrNotFound)) as [C _].
  split.
  - rewrite A. exact (B (fun d => eq_refl)).
  - exact (C "failed to revoke").
Defined.

Lemma reachable_stores_have_no_orphans_witness :
  reachable db_live /\ references_hold db_live.
Proof.
  split; [exact reachable_db_live|].
  exact (reachable_stores_have_no_orphans db_live reachable_db_live).
Defined.

Lemma kick_path_kicks_exactly_the_path_witness :
  let out := MediaMTXClient_KickPath mediamtx_kick_fails "sk_live" db_live in
  value out = None /\
  mtx_calls (events out) = [RtmpConnsList; RtmpConnsKick "c1"; RtspSessionsList] /\
  In (EvMtx (RtmpConnsKick "c1")) (events out) /\
  exists conn,
    In conn (listed_items (RtmpConnsListWithResponse mediamtx_kick_fails)) /\
    Conn.Id conn = Some "c1" /\ Conn.Path conn = Some "sk_live".
Proof.
  cbv zeta.
  pose proof (kick_path_kicks_exactly_the_path mediamtx_kick_fails "sk_live" db_live) as R.
  cbv zeta in R. destruct R as [R1 [_ [R3 [R4 _]]]].
  assert (I : In (EvMtx (RtmpConnsKick "c1"))
                 (events (MediaMTXClient_KickPath mediamtx_kick_fails "sk_live" db_live)))
    by (cbv; auto 10).
  split; [exact R1|]. split; [rewrite R3; reflexivity|]. split; [exact I|].
  exact (R4 "c1" I).
Defined.

Lemma references_hold_db_live : references_hold db_live.
Proof.
  split; intros x I; simpl in I; intuition (subst; simpl; auto).
Qed.

Lemma generated_stream_key_format_witness :
  List.length zero_bytes = 32 /\
  exists body,
    generateStreamKey (Ok zero_bytes) = Ok (String.append "sk_" body) /\
    String.length body = 43 /\
    varchar 64 (String.append "sk_" body) = true.
Proof.
  assert (L : List.length zero_bytes = 32) by reflexivity.
  split; [exact L|].
  destruct (generated_stream_key_format zero_bytes L) as [body [G [B [_ [_ [V _]]]]]].
  exists body. split; [exact G|]. split; [exact B|]. exact V.
Defined.

Lemma created_key_is_stored_and_authenticates_witness :
  let kv := String.append "sk_" (EncodeToString zero_bytes) in
  let created := StreamKeyService_Create (Ok zero_bytes) 40 0 300%Z create_request db_idle in
  references_hold db_idle /\
  In (CreateRequest.BroadcasterID create_request) (map Broadcaster.ID (broadcasters db_idle)) /\
  existsb (key_has_value kv) (stream_keys db_idle) = false /\
  value created = Ok (StreamKey.mk 41 kv 1 StreamKeyStatusActive 300%Z None None None) /\
  List.length (stream_keys (store created)) = 4 /\
  value (AuthService_Authenticate 310%Z 311%Z (publish kv "live") (store created)) =
    Ok (AuthResult.mk true (Some 41) "authentication successful").
Proof.
  cbv zeta.
  assert (H1 : references_hold db_idle) by exact references_hold_db_idle.
  assert (H2 : In (CreateRequest.BroadcasterID create_request)
                  (map Broadcaster.ID (broadcasters db_idle))) by (simpl; auto).
  assert (H3 : existsb (key_has_value (String.append "sk_" (EncodeToString zero_bytes)))
                 (stream_keys db_idle) = false) by reflexivity.
  pose proof (created_key_is_stored_and_authenticates zero_bytes 40 0 300%Z 310%Z 311%Z
                create_request db_idle
                (publish (String.append "sk_" (EncodeToString zero_bytes)) "live")
                eq_refl H1 H2 eq_refl H3 eq_refl eq_refl eq_refl) as R.
  cbv zeta in R. destruct R as [R1 [R2 [_ [_ R5]]]].
  split; [exact H1|]. split; [exact H2|]. split; [exact H3|]. split; [exact R1|].
  split; [rewrite R2; reflexivity|]. exact R5.
Defined.

Lemma create_key_for_unknown_broadcaster_fails_witness :
  let created :=
    StreamKeyService_Create (Ok zero_bytes) 40 0 300%Z (CreateRequest.mk 5 None) db_idle in
  ~ In 5 (map Broadcaster.ID (broadcasters db_idle)) /\
  store created = db_idle /\
  exists err,
    value created = Err err /\
    MapDomainError err = ErrInternalServer "An unexpected error occurred".
Proof.
  cbv zeta.
  assert (N : ~ In (CreateRequest.BroadcasterID (CreateRequest.mk 5 None))
                   (map Broadcaster.ID (broadcasters db_idle)))
    by (simpl; intros [E|[]]; discriminate E).
  pose proof (create_key_for_unknown_broadcaster_fails zero_bytes 40 0 300%Z
                (CreateRequest.mk 5 None) db_idle eq_refl N) as R.
  cbv zeta in R. destruct R as [R1 [err [R2 [_ R4]]]].
  split; [exact N|]. split; [exact R1|]. exists err. split; [exact R2|exact R4].
Defined.

Lemma get_stream_key_hides_the_value_witness :
  find (key_has_id 7) (stream_keys db_idle) = Some key_live /\
  value (StreamKeyHandler_getStreamKey "/stream-keys/7" (Some 7) db_idle) =
    ReplyJSON StatusOK (StreamKey.mk 7 "" 1 StreamKeyStatusActive 100%Z None None None) /\
  find (key_has_id 99) (stream_keys db_idle) = None /\
  value (StreamKeyHandler_getStreamKey "/stream-keys/7" (Some 99) db_idle) =
    ReplyError (WriteError "/stream-keys/7" (ErrNotFound_ "The requested resource was not found")).
Proof.
  destruct (get_stream_key_hides_the_value "/stream-keys/7" db_idle) as [A [B _]].
  split; [reflexivity|].
  split; [exact (f_equal value (A 7 key_live eq_refl))|].
  split; [reflexivity|].
  exact (f_equal value (B 99 eq_refl)).
Defined.

Lemma delete_broadcaster_cascades_witness :
  let out := BroadcasterService_Delete 1 db_live in
  constraints_hold db_live /\
  references_hold db_live /\
  In 1 (map Broadcaster.ID (broadcasters db_live)) /\
  value out = None /\
  ~ In key_live (stream_keys (store out)) /\
  ~ In stream_live (streams (store out)) /\
  value (AuthService_Authenticate 500%Z 501%Z (publish "sk_live" "live") (store out)) =
    Ok (reject "invalid stream key").
Proof.
  cbv zeta.
  assert (H1 : constraints_hold db_live)
    by exact (reachable_constraints_hold _ reachable_db_live).
  assert (H2 : references_hold db_live) by exact references_hold_db_live.
  assert (H3 : In 1 (map Broadcaster.ID (broadcasters db_live))) by (simpl; auto).
  assert (H4 : In key_live (stream_keys db_live)) by (simpl; auto).
  assert (N : StreamKey.KeyValue key_live <> "") by discriminate.
  pose proof (delete_broadcaster_cascades 1 db_live H1 H2) as R.
  cbv zeta in R. destruct R as [R _]. destruct (R H3) as [R1 [R2 [R3 R4]]].
  split; [exact H1|]. split; [exact H2|]. split; [exact H3|]. split; [exact R1|].
  split; [intros I; apply R2 in I; destruct I as [_ I]; exact (I eq_refl)|].
  split; [exact (R3 key_live stream_live H4 eq_refl eq_refl)|].
  exact (R4 key_live 500%Z 501%Z (publish "sk_live" "live") H4 eq_refl eq_refl eq_refl N).
Defined.

Lemma get_stream_agrees_with_the_listing_witness :
  constraints_hold db_live /\
  value (StreamService_ListActive "https://media.example" db_live) =
    Ok [with_urls "https://media.example" stream_live] /\
  StreamHandler_getStream "https://media.example" "/streams/21" (Some 21) db_live =
    (ReplyJSON StatusOK (with_urls "https://media.example" stream_live), db_live,
     [EvRead (SelectStreamByID 21)]) /\
  value (StreamHandler_getStream "https://media.example" "/streams/99" (Some 99) db_live) =
    ReplyError (WriteError "/streams/99" (ErrNotFound_ "The requested resource was not found")).
Proof.
  assert (H1 : constraints_hold db_live)
    by exact (reachable_constraints_hold _ reachable_db_live).
  assert (V : value (StreamService_ListActive "https://media.example" db_live) =
              Ok [with_urls "https://media.example" stream_live]) by reflexivity.
  destruct (get_stream_agrees_with_the_listing "https://media.example" "/streams/21" db_live H1)
    as [A _].
  destruct (get_stream_agrees_with_the_listing "https://media.example" "/streams/99" db_live H1)
    as [_ [_ [C _]]].
  split; [exact H1|]. split; [exact V|].
  split; [exact (A _ (with_urls "https://media.example" stream_live) V (or_introl eq_refl))|].
  refine (f_equal value (C 99 _)). simpl. intros [E|[]]. discriminate E.
Defined.

Lemma middleware_refusals_witness :
  AuthMiddleware_Authenticate sample_mac (EnvKeyStore_GetSecret "s3cret") sample_clock
    (SignedRequest.mk "GET" "/streams" "" "00ff" "1700000000" (Some "")) =
  Refused StatusUnauthorized "Unauthorized"
    "Missing authentication headers (X-API-Key, X-Signature, X-Timestamp)" "/streams".
Proof.
  destruct (middleware_refusals sample_mac (EnvKeyStore_GetSecret "s3cret") sample_clock
              (SignedRequest.mk "GET" "/streams" "" "00ff" "1700000000" (Some ""))) as [_ B].
  exact (B (or_introl eq_refl)).
Defined.

Lemma middleware_ignores_timestamp_spelling_witness :
  ParseInt "1700000000" = ParseInt "+01700000000" /\
  AuthMiddleware_Authenticate sample_mac (EnvKeyStore_GetSecret "s3cret") sample_clock
    (SignedRequest.mk "GET" "/streams" "admin"
       (sample_mac "s3cret" (stringToSign "GET" "/streams" 1700000000 ""))
       "1700000000" (Some "")) =
  AuthMiddleware_Authenticate sample_mac (EnvKeyStore_GetSecret "s3cret") sample_clock
    (SignedRequest.mk "GET" "/streams" "admin"
       (sample_mac "s3cret" (stringToSign "GET" "/streams" 1700000000 ""))
       "+01700000000" (Some "")).
Proof.
  assert (E : ParseInt "1700000000" = ParseInt "+01700000000") by reflexivity.
  assert (N1 : "1700000000" <> "") by discriminate.
  assert (N2 : "+01700000000" <> "") by discriminate.
  split; [exact E|].
  exact (middleware_ignores_timestamp_spelling sample_mac (EnvKeyStore_GetSecret "s3cret")
           sample_clock "GET" "/streams" "admin"
           (sample_mac "s3cret" (stringToSign "GET" "/streams" 1700000000 ""))
           "1700000000" "+01700000000" (Some "") N1 N2 E).
Defined.

Lemma env_key_store_accepts_any_label_witness :
  let signature := sample_mac "s3cret" (stringToSign "GET" "/streams" 1700000000 "") in
  AuthMiddleware_Authenticate sample_mac (EnvKeyStore_GetSecret "s3cret") sample_clock
    (SignedRequest.mk "GET" "/streams" "admin" signature "1700000000" (Some "")) =
    Forwarded "admin" "" /\
  AuthMiddleware_Authenticate sample_mac (EnvKeyStore_GetSecret "s3cret") sample_clock
    (SignedRequest.mk "GET" "/streams" "anyone" signature "1700000000" (Some "")) =
    Forwarded "anyone" "" /\
  AuthMiddleware_Authenticate sample_mac (StaticKeyStore_GetSecret "admin" "s3cret") sample_clock
    (SignedRequest.mk "GET" "/streams" "anyone" signature "1700000000" (Some "")) <>
    Forwarded "anyone" "".
Proof.
  cbv zeta.
  assert (N : "anyone" <> "") by discriminate.
  assert (D : "anyone" <> "admin") by discriminate.
  assert (F : AuthMiddleware_Authenticate sample_mac (EnvKeyStore_GetSecret "s3cret") sample_clock
                (SignedRequest.mk "GET" "/streams" "admin"
                   (sample_mac "s3cret" (stringToSign "GET" "/streams" 1700000000 ""))
                   "1700000000" (Some "")) = Forwarded "admin" "") by reflexivity.
  destruct (env_key_store_accepts_any_label sample_mac "s3cret" sample_clock "GET" "/streams"
              "admin" "anyone"
              (sample_mac "s3cret" (stringToSign "GET" "/streams" 1700000000 ""))
              "1700000000" "" (Some "") N) as [A B].
  split; [exact F|]. split; [exact (A F)|]. exact (B "admin" D "anyone" "").
Defined.

Lemma middleware_accepts_a_correctly_signed_request_witness :
  EnvKeyStore_GetSecret "s3cret" "admin" = Some "s3cret" /\
  (- MaxTimestampDrift <= sample_clock - 1700000000 * 1000000000 <= MaxTimestampDrift)%Z /\
  AuthMiddleware_Authenticate sample_mac (EnvKeyStore_GetSecret "s3cret") sample_clock
    (SignedRequest.mk "POST" "/stream-keys" "admin"
       (sample_mac "s3cret" (stringToSign "POST" "/stream-keys" 1700000000 "{}"))
       (format_int 1700000000) (Some "{}")) =
  Forwarded "admin" "{}".
Proof.
  assert (N : "admin" <> "") by discriminate.
  assert (K : EnvKeyStore_GetSecret "s3cret" "admin" = Some "s3cret") by reflexivity.
  assert (R : (- 2 ^ 63 <= 1700000000 < 2 ^ 63)%Z) by (split; [discriminate|reflexivity]).
  assert (W : (- MaxTimestampDrift <= sample_clock - 1700000000 * 1000000000
               <= MaxTimestampDrift)%Z) by (split; discriminate).
  assert (S : sample_mac "s3cret" (stringToSign "POST" "/stream-keys" 1700000000 "{}") <> "")
    by discriminate.
  split; [exact K|]. split; [exact W|].
  exact (middleware_accepts_a_correctly_signed_request sample_mac (EnvKeyStore_GetSecret "s3cret")
           sample_clock "POST" "/stream-keys" "admin" "s3cret" 1700000000 "{}" N K R W S).
Defined.

Lemma webhook_router_dispatches_by_suffix_witness :
  let r := WebhookRequest.mk "POST" "/webhook/not-ready" (Some (Some "/webhook/not-ready"))
             None (Some (WebhookNotReadyRequest.mk "sk_live")) in
  HasSuffix "/webhook/not-ready" "/not-ready" = true /\
  WebhookHandler_ServeHTTP 300%Z 301%Z 30 0 r db_live =
    WebhookHandler_handleNotReady 301%Z (not_ready_request "sk_live") db_live /\
  reachable (store (WebhookHandler_ServeHTTP 300%Z 301%Z 30 0 r db_live)).
Proof.
  cbv zeta.
  destruct (webhook_router_dispatches_by_suffix 300%Z 301%Z 30 0
              (WebhookRequest.mk "POST" "/webhook/not-ready" (Some (Some "/webhook/not-ready"))
                 None (Some (WebhookNotReadyRequest.mk "sk_live"))) db_live) as [_ [B C]].
  destruct (B "/webhook/not-ready" eq_refl (or_introl eq_refl)) as [B1 _].
  split; [reflexivity|]. split; [exact (B1 eq_refl)|]. exact (C reachable_db_live).
Defined.
